(** * Subscription, usage and Razorpay webhook handling of the Dorwel backend

    A shallow embedding of
      - the subscription model   (subscriptionModel.js: schema and SubscriptionClass),
      - the payment model        (paymentModel.js: schema and PaymentClass),
      - the user model           (userModel.js: subscription methods of UserClass),
      - the notification model   (notificationModel.js: createNotification),
      - the Razorpay service     (razorpayService.js: verifyWebhookSignature),
      - the webhook service      (razorpayWebhookService.js: every handler),
      - the subscription controller (getUsageStats, checkUsageLimit),
    followed by the properties of the specification that concern them.

    Conventions of the embedding.
      - A JavaScript string is a [string]; a counter ([Number]) is a [Z]
        (integral values; the fractional storage gauge is outside the model);
        an amount in rupees is a [Q]; a [Date] is its number of milliseconds
        since the epoch; [undefined]/[null] is [None].
      - A MongoDB collection is the list of its documents in natural order,
        so that [findOne] is the first match.
      - A Mongoose document in memory carries the changes made to it since it
        was loaded; [save] sends those changes only ([$set] of the assigned
        paths, [$push] of the pushed array elements) to the stored document of
        the same [_id].  Two documents loaded from one stored document are
        distinct objects: this matters in the webhook handlers, which save a
        document they loaded before a model method changed the stored one.
      - An [async] method is a function of the world that returns a result or
        a thrown error together with the world it leaves.  Nothing is rolled
        back when an error is thrown: the code uses no transaction.
      - Whether the store accepts a write (schema validators, availability of
        the database) is not decided by the code of the methods: it is the
        parameter [accepts] of the development.  The unique index on
        [razorpayPaymentId] is modelled explicitly. *)

From Stdlib Require Import ZArith QArith_base List String Bool Lia.
Import ListNotations.

Local Open Scope string_scope.
Local Open Scope list_scope.
Local Open Scope Z_scope.

Infix "^^" := String.append (at level 60, right associativity).

(** ** Values *)

Definition ObjectId := nat.
Definition Date := Z.

(** [Number.isSafeInteger]: the integers on which the additions and the
    subtractions of the code are exact when their result is one of them.
    The counters of the usage are Numbers; they are kept as integers, and the
    statements about their arithmetic are made on the safe ones. *)
Definition safe_integer (n : Z) : Prop := - (2 ^ 53 - 1) <= n <= 2 ^ 53 - 1.

(** A template string whose hole is a number of rupees (the [amount / 100]
    of the handlers) is kept as the text around the number and the number. *)
Inductive Text :=
| Str (s : string)
| Rupees (before : string) (amount : Q) (after : string).

(** [x || fallback] on a string that may be [null]: the empty string is falsy. *)
Definition or_else (x : option string) (fallback : string) : string :=
  match x with
  | Some s => if (s =? "")%string then fallback else s
  | None => fallback
  end.

(** [`${x}`] on a string that may be [undefined] (a property that is
    absent); a [null], which is written 'null', is not a value of the
    model. *)
Definition interpolate (x : option string) : string :=
  match x with
  | Some s => s
  | None => "undefined"
  end.

Definition includes (l : list string) (s : string) : bool :=
  existsb (String.eqb s) l.

(** ** Schemas *)

(** subscriptionModel.js, [subscriptionSchema].  The paths [price], [trial],
    [paymentMethod], [autoRenew] and [proration] are written by no method
    below and are left out. *)
Module subscriptionSchema.

(** The counters are Numbers in the code; they are integers here, which
    agrees with the arithmetic of the code on the safe integers
    ([safe_integer] below). *)
Record Counter := { current : Z; limit : Z }.

Inductive Resource := Teams | Users | Projects | Clients | Leads | Storage.

Record Usage := {
  teams : Counter; users : Counter; projects : Counter;
  clients : Counter; leads : Counter; storage : Counter }.

Record Features := {
  aiEstimates : bool; advancedAnalytics : bool; customBranding : bool;
  prioritySupport : bool; apiAccess : bool; whiteLabel : bool }.

Record HistoryEntry := { action : string; date : Date; details : Text }.

Record Cancellation := {
  reason : option string; feedback : option string;
  cancelledBy : option ObjectId }.

Record doc := {
  _id : ObjectId;
  user : ObjectId;
  plan : ObjectId;
  razorpaySubscriptionId : string;
  razorpayCustomerId : string;
  status : string;
  billingCycle : string;
  startDate : Date;
  endDate : option Date;
  nextBillingDate : option Date;
  cancelledAt : option Date;
  usage : Usage;
  features : Features;
  history : list HistoryEntry;
  cancellation : option Cancellation }.

Definition status_enum : list string :=
  ["active"; "inactive"; "trialing"; "past_due"; "cancelled"; "paused"].

Definition action_enum : list string :=
  ["created"; "activated"; "renewed"; "cancelled"; "paused"; "resumed";
   "upgraded"; "downgraded"].

Definition billingCycle_enum : list string := ["monthly"; "yearly"].

(** [usage[resourceType]]: the six keys of the schema; any other key is
    taken as [undefined].  That leaves out the names every object inherits
    ([toString], [constructor], ...), whose value is a function and not
    [undefined]: statements about the value read at a key are made for the
    six keys. *)
Definition resource_of_key (k : string) : option Resource :=
  if (k =? "teams")%string then Some Teams
  else if (k =? "users")%string then Some Users
  else if (k =? "projects")%string then Some Projects
  else if (k =? "clients")%string then Some Clients
  else if (k =? "leads")%string then Some Leads
  else if (k =? "storage")%string then Some Storage
  else None.

Definition counter (r : Resource) (u : Usage) : Counter :=
  match r with
  | Teams => teams u | Users => users u | Projects => projects u
  | Clients => clients u | Leads => leads u | Storage => storage u
  end.

Definition with_current (c : Counter) (v : Z) : Counter :=
  {| current := v; limit := limit c |}.

Definition set_counter (r : Resource) (c : Counter) (u : Usage) : Usage :=
  match r with
  | Teams => {| teams := c; users := users u; projects := projects u;
                clients := clients u; leads := leads u; storage := storage u |}
  | Users => {| teams := teams u; users := c; projects := projects u;
                clients := clients u; leads := leads u; storage := storage u |}
  | Projects => {| teams := teams u; users := users u; projects := c;
                   clients := clients u; leads := leads u; storage := storage u |}
  | Clients => {| teams := teams u; users := users u; projects := projects u;
                  clients := c; leads := leads u; storage := storage u |}
  | Leads => {| teams := teams u; users := users u; projects := projects u;
                clients := clients u; leads := c; storage := storage u |}
  | Storage => {| teams := teams u; users := users u; projects := projects u;
                  clients := clients u; leads := leads u; storage := c |}
  end.

(** The assignments and pushes the methods perform on a document. *)
Inductive change :=
| SetStatus (s : string)
| SetEndDate (d : Date)
| SetNextBillingDate (d : Date)
| SetCancelledAt (d : Date)
| SetCancellation (c : Cancellation)
| SetCurrent (r : Resource) (v : Z)
| PushHistory (e : HistoryEntry).

Definition apply (c : change) (s : doc) : doc :=
  {| _id := _id s;
     user := user s;
     plan := plan s;
     razorpaySubscriptionId := razorpaySubscriptionId s;
     razorpayCustomerId := razorpayCustomerId s;
     status := match c with SetStatus v => v | _ => status s end;
     billingCycle := billingCycle s;
     startDate := startDate s;
     endDate := match c with SetEndDate d => Some d | _ => endDate s end;
     nextBillingDate :=
       match c with SetNextBillingDate d => Some d | _ => nextBillingDate s end;
     cancelledAt :=
       match c with SetCancelledAt d => Some d | _ => cancelledAt s end;
     usage :=
       match c with
       | SetCurrent r v => set_counter r (with_current (counter r (usage s)) v) (usage s)
       | _ => usage s
       end;
     features := features s;
     history :=
       match c with PushHistory e => history s ++ [e] | _ => history s end;
     cancellation :=
       match c with SetCancellation k => Some k | _ => cancellation s end |}.

End subscriptionSchema.

(** paymentModel.js, [paymentSchema].  The paths [razorpaySignature],
    [refund], [metadata], [tax] and [fee] are written by no method below and
    are left out. *)
Module paymentSchema.

Record Card := {
  last4 : option string; network : option string; card_type : option string }.

Record PaymentMethod := { type : option string; card : option Card }.

Record ErrorDetail := {
  error_code : option string; error_description : option string;
  error_source : option string; error_step : option string;
  error_reason : option string }.

Record Note := {
  content : string; createdAt : Date; createdBy : option ObjectId }.

(** [`RCP-${Date.now()}-${Math.random()...}`]: the time is kept, the random
    suffix is not represented. *)
Inductive ReceiptNumber := RCP (at_ms : Date).

Record fields := {
  user : ObjectId;
  subscription : option ObjectId;
  razorpayPaymentId : string;
  razorpayOrderId : option string;
  amount : Q;
  currency : option string;
  status : string;
  paymentMethod : PaymentMethod;
  paidAt : option Date;
  failedAt : option Date;
  description : string;
  error : option ErrorDetail;
  notes : list Note;
  receipt_number : option ReceiptNumber }.

Record doc := { _id : ObjectId; data : fields }.

Definition status_enum : list string :=
  ["pending"; "captured"; "failed"; "refunded"; "partially_refunded"].

Definition currency_enum : list string := ["INR"; "USD"; "EUR"].

Definition paymentMethod_type_enum : list string :=
  ["card"; "netbanking"; "wallet"; "upi"; "emi"].

Inductive change :=
| SetStatus (s : string)
| SetPaidAt (d : Date)
| SetFailedAt (d : Date)
| SetPaymentMethod (m : PaymentMethod)
| SetError (e : ErrorDetail)
| PushNote (n : Note).

Definition apply_fields (c : change) (p : fields) : fields :=
  {| user := user p;
     subscription := subscription p;
     razorpayPaymentId := razorpayPaymentId p;
     razorpayOrderId := razorpayOrderId p;
     amount := amount p;
     currency := currency p;
     status := match c with SetStatus v => v | _ => status p end;
     paymentMethod :=
       match c with SetPaymentMethod m => m | _ => paymentMethod p end;
     paidAt := match c with SetPaidAt d => Some d | _ => paidAt p end;
     failedAt := match c with SetFailedAt d => Some d | _ => failedAt p end;
     description := description p;
     error := match c with SetError e => Some e | _ => error p end;
     notes := match c with PushNote n => notes p ++ [n] | _ => notes p end;
     receipt_number := receipt_number p |}.

Definition apply (c : change) (p : doc) : doc :=
  {| _id := _id p; data := apply_fields c (data p) |}.

End paymentSchema.

(** userModel.js, [userSchema]: the identity of the user and the paths of the
    subscription tracking. *)
Module userSchema.

Record doc := {
  _id : ObjectId;
  email : string;
  razorpayCustomerId : option string;
  subscriptionStatus : string;
  subscriptionExpiry : option Date }.

Definition subscriptionStatus_enum : list string :=
  ["trial"; "active"; "expired"; "cancelled"; "none"].

End userSchema.

(** notificationModel.js, [notificationSchema]: the paths the handlers give
    to [createNotification], and the [status] the schema defaults. *)
Module notificationSchema.

Record RelatedEntity := { entity_type : string; entity_id : ObjectId }.

Record fields := {
  title : string;
  message : Text;
  type : string;
  recipient : ObjectId;
  relatedEntity : RelatedEntity;
  priority : string }.

Record doc := { _id : ObjectId; data : fields; status : string }.

Definition type_enum : list string :=
  ["info"; "success"; "warning"; "error"; "project_update"; "estimate_ready";
   "moodboard_shared"; "milestone_completed"; "payment_received";
   "client_message"].

Definition relatedEntity_type_enum : list string :=
  ["project"; "estimate"; "moodboard"; "lead"; "client"; "milestone"].

Definition priority_enum : list string := ["low"; "medium"; "high"; "urgent"].

End notificationSchema.

(** ** The world: database, log and clock *)

Record Database := {
  subscriptions : list subscriptionSchema.doc;
  payments : list paymentSchema.doc;
  users : list userSchema.doc;
  notifications : list notificationSchema.doc }.

Inductive Level := info | warn | error.

Record World := {
  db : Database;
  logs : list (Level * string);
  clock : Date }.

(** A write submitted to the store: the document as it is in memory when
    [save] or [create] is called. *)
Inductive StoreWrite :=
| SaveSubscription (d : subscriptionSchema.doc)
| SavePayment (d : paymentSchema.fields)
| SaveUser (d : userSchema.doc)
| SaveNotification (d : notificationSchema.fields).

Inductive Error :=
| APIError (message : string) (statusCode : Z)
| TypeError (message : string)
| ValidationError (w : StoreWrite)
| DuplicateKey (path : string)
| DocumentNotFound.

Definition NOT_FOUND : Z := 404.

Inductive Result (A : Type) :=
| Ok (a : A)
| Throw (e : Error).
Arguments Ok {A} a.
Arguments Throw {A} e.

(** An [async] function. *)
Definition M (A : Type) : Type := World -> Result A * World.

Definition ret {A} (a : A) : M A := fun w => (Ok a, w).

Definition throw {A} (e : Error) : M A := fun w => (Throw e, w).

Definition bind {A B} (m : M A) (k : A -> M B) : M B :=
  fun w =>
    match m w with
    | (Ok a, w') => k a w'
    | (Throw e, w') => (Throw e, w')
    end.

Notation "x <- m ;; k" := (bind m (fun x => k))
  (at level 61, m at next level, right associativity).
Notation "m ;;; k" := (bind m (fun _ => k))
  (at level 61, right associativity).

(** [try { m } catch (error) { h(error) }]. *)
Definition try_catch {A} (m : M A) (h : Error -> M A) : M A :=
  fun w =>
    match m w with
    | (Ok a, w') => (Ok a, w')
    | (Throw e, w') => h e w'
    end.

(** The outcome of an awaited call kept as a value: what one request ends
    with, while the other requests go on. *)
Definition settled {A} (m : M A) : M (Result A) :=
  fun w => (Ok (fst (m w)), snd (m w)).

(** Two requests that overlap, each awaiting a first call and then a second
    one on the answer of the first: both first calls are answered before
    either second call runs.  A request that throws ends there and the
    other goes on; the outcomes of both are answered. *)
Definition overlapped {A B} (firstA firstB : M A) (nextA nextB : A -> M B)
  : M (Result B * Result B) :=
  a <- settled firstA ;;
  b <- settled firstB ;;
  outcomeA <- settled (match a with Ok x => nextA x | Throw e => throw e end) ;;
  outcomeB <- settled (match b with Ok x => nextB x | Throw e => throw e end) ;;
  ret (outcomeA, outcomeB).

Definition set_db (w : World) (d : Database) : World :=
  {| db := d; logs := logs w; clock := clock w |}.

Definition add_log (w : World) (l : Level) (line : string) : World :=
  {| db := db w; logs := logs w ++ [(l, line)]; clock := clock w |}.

Definition get_db : M Database := fun w => (Ok (db w), w).

Definition put_db (d : Database) : M unit := fun w => (Ok tt, set_db w d).

(** [new Date()] and [Date.now()]. *)
Definition now : M Date := fun w => (Ok (clock w), w).

Definition logger (l : Level) (line : string) : M unit :=
  fun w => (Ok tt, add_log w l line).

(** The [_id] given to a created document: one that no document of the
    collection has. *)
Definition fresh (ids : list ObjectId) : ObjectId := S (list_max ids).

(** [updateOne({_id}, changes)]: the first document of that [_id]. *)
Fixpoint update_one {D} (id_of : D -> ObjectId) (id : ObjectId) (f : D -> D)
    (l : list D) : list D :=
  match l with
  | [] => []
  | d :: l' =>
      if Nat.eqb (id_of d) id then f d :: l'
      else d :: update_one id_of id f l'
  end.

(** A document in memory: its paths as the code reads them, and the changes
    made since it was loaded or last saved. *)
Record Document (D C : Type) := { paths : D; pending : list C }.
Arguments paths {D C} d.
Arguments pending {D C} d.

Definition hydrate {D C} (d : D) : Document D C := {| paths := d; pending := [] |}.

Definition modify {D C} (apply : C -> D -> D) (c : C) (d : Document D C)
  : Document D C :=
  {| paths := apply c (paths d); pending := pending d ++ [c] |}.

(** The stored document after the pending changes of [d] have been sent. *)
Definition flush {D C} (apply : C -> D -> D) (d : Document D C) (stored : D) : D :=
  fold_left (fun s c => apply c s) (pending d) stored.

Definition saved {D C} (d : Document D C) : Document D C :=
  {| paths := paths d; pending := [] |}.

Definition with_subscriptions (d : Database) (l : list subscriptionSchema.doc) :=
  {| subscriptions := l; payments := payments d; users := users d;
     notifications := notifications d |}.

Definition with_payments (d : Database) (l : list paymentSchema.doc) :=
  {| subscriptions := subscriptions d; payments := l; users := users d;
     notifications := notifications d |}.

Definition with_users (d : Database) (l : list userSchema.doc) :=
  {| subscriptions := subscriptions d; payments := payments d; users := l;
     notifications := notifications d |}.

Definition with_notifications (d : Database) (l : list notificationSchema.doc) :=
  {| subscriptions := subscriptions d; payments := payments d; users := users d;
     notifications := l |}.

(** ** subscriptionModel.js, [SubscriptionClass] *)
Module Subscription.

Module S := subscriptionSchema.

Definition Doc := Document S.doc S.change.

Definition assign (c : S.change) (d : Doc) : Doc := modify S.apply c d.

(** The object [checkUsageLimit] returns. *)
Record UsageCheck := {
  allowed : bool;
  reason : string;
  current : option Z;
  limit : option Z }.

Definition find (p : S.doc -> bool) : M (option Doc) :=
  store <- get_db ;;
  ret (option_map hydrate (List.find p (subscriptions store))).

Definition findById (id : ObjectId) : M (option Doc) :=
  find (fun s => Nat.eqb (S._id s) id).

(** [findOne({ razorpaySubscriptionId })]. *)
Definition findOne_razorpaySubscriptionId (rid : string) : M (option Doc) :=
  find (fun s => (S.razorpaySubscriptionId s =? rid)%string).

Definition getUserActiveSubscription (userId : ObjectId) : M (option Doc) :=
  find (fun s => Nat.eqb (S.user s) userId
                 && includes ["active"; "trialing"] (S.status s)).

(** Instance methods. *)
Definition canAccessFeature (this : S.doc) (feature : S.Features -> bool) : bool :=
  feature (S.features this).

Definition canCreateResource (this : S.doc) (resourceType : string) : bool :=
  match S.resource_of_key resourceType with
  | None => false
  | Some r =>
      let resource := S.counter r (S.usage this) in
      if S.limit resource =? -1 then true
      else S.current resource <? S.limit resource
  end.

Definition getRemainingQuota (this : S.doc) (resourceType : string) : Z :=
  match S.resource_of_key resourceType with
  | None => 0
  | Some r =>
      let resource := S.counter r (S.usage this) in
      if S.limit resource =? -1 then -1
      else Z.max 0 (S.limit resource - S.current resource)
  end.

Definition checkUsageLimit (subscriptionId : ObjectId) (resourceType : string)
  : M UsageCheck :=
  found <- findById subscriptionId ;;
  match found with
  | None =>
      ret {| allowed := false; reason := "Subscription not found";
             current := None; limit := None |}
  | Some subscription =>
      match S.resource_of_key resourceType with
      | None =>
          ret {| allowed := false; reason := "Resource type not found";
                 current := None; limit := None |}
      | Some r =>
          let resource := S.counter r (S.usage (paths subscription)) in
          if S.limit resource =? -1 then
            ret {| allowed := true; reason := "Unlimited";
                   current := None; limit := None |}
          else if S.current resource <? S.limit resource then
            ret {| allowed := true; reason := "Within limit";
                   current := None; limit := None |}
          else
            ret {| allowed := false; reason := "Usage limit exceeded";
                   current := Some (S.current resource);
                   limit := Some (S.limit resource) |}
      end
  end.

Section Writes.

Variable accepts : StoreWrite -> bool.

(** [document.save()]. *)
Definition save (d : Doc) : M Doc :=
  if accepts (SaveSubscription (paths d)) then
    store <- get_db ;;
    if existsb (fun s => Nat.eqb (S._id s) (S._id (paths d))) (subscriptions store)
    then
      put_db (with_subscriptions store
                (update_one S._id (S._id (paths d)) (flush S.apply d)
                   (subscriptions store))) ;;;
      ret (saved d)
    else throw DocumentNotFound
  else throw (ValidationError (SaveSubscription (paths d))).

Definition updateSubscriptionStatus (subscriptionId : ObjectId)
    (status : string) (details : option string) : M Doc :=
  found <- findById subscriptionId ;;
  match found with
  | None => throw (APIError "Subscription not found" NOT_FOUND)
  | Some subscription =>
      let oldStatus := S.status (paths subscription) in
      let subscription := assign (S.SetStatus status) subscription in
      t <- now ;;
      let subscription :=
        assign (S.PushHistory
                  {| S.action := if (status =? "cancelled")%string
                                 then "cancelled" else "activated";
                     S.date := t;
                     S.details :=
                       Str (or_else details
                              ("Status changed from " ^^ oldStatus
                               ^^ " to " ^^ status)) |})
               subscription in
      subscription <-
        (if (status =? "cancelled")%string
         then t' <- now ;; ret (assign (S.SetCancelledAt t') subscription)
         else ret subscription) ;;
      save subscription
  end.

Definition cancelSubscription (subscriptionId : ObjectId)
    (reason feedback : option string) (cancelledBy : option ObjectId) : M Doc :=
  found <- findById subscriptionId ;;
  match found with
  | None => throw (APIError "Subscription not found" NOT_FOUND)
  | Some subscription =>
      let subscription := assign (S.SetStatus "cancelled") subscription in
      t <- now ;;
      let subscription := assign (S.SetCancelledAt t) subscription in
      let subscription :=
        assign (S.SetCancellation
                  {| S.reason := reason; S.feedback := feedback;
                     S.cancelledBy := cancelledBy |})
               subscription in
      t' <- now ;;
      let subscription :=
        assign (S.PushHistory
                  {| S.action := "cancelled";
                     S.date := t';
                     S.details :=
                       Str ("Subscription cancelled. Reason: "
                            ^^ or_else reason "Not specified") |})
               subscription in
      save subscription
  end.

Definition renewSubscription (subscriptionId : ObjectId) (nextBillingDate : Date)
  : M Doc :=
  found <- findById subscriptionId ;;
  match found with
  | None => throw (APIError "Subscription not found" NOT_FOUND)
  | Some subscription =>
      let cycle := S.billingCycle (paths subscription) in
      let subscription := assign (S.SetStatus "active") subscription in
      let subscription := assign (S.SetNextBillingDate nextBillingDate) subscription in
      let subscription :=
        assign (S.SetEndDate
                  (nextBillingDate
                   + (if (cycle =? "yearly")%string then 365 else 30)
                     * 24 * 60 * 60 * 1000))
               subscription in
      t <- now ;;
      let subscription :=
        assign (S.PushHistory
                  {| S.action := "renewed"; S.date := t;
                     S.details := Str "Subscription renewed" |})
               subscription in
      save subscription
  end.

Definition updateUsage (subscriptionId : ObjectId) (resourceType : string)
    (increment : Z) : M Doc :=
  found <- findById subscriptionId ;;
  match found with
  | None => throw (APIError "Subscription not found" NOT_FOUND)
  | Some subscription =>
      match S.resource_of_key resourceType with
      | Some r =>
          let resource := S.counter r (S.usage (paths subscription)) in
          save (assign (S.SetCurrent r (S.current resource + increment))
                  subscription)
      | None => ret subscription
      end
  end.

End Writes.

End Subscription.

(** ** paymentModel.js, [PaymentClass] *)
Module Payment.

Module P := paymentSchema.

Definition Doc := Document P.doc P.change.

Definition assign (c : P.change) (d : Doc) : Doc := modify P.apply c d.

Definition find (p : P.doc -> bool) : M (option Doc) :=
  store <- get_db ;;
  ret (option_map hydrate (List.find p (payments store))).

Definition findById (id : ObjectId) : M (option Doc) :=
  find (fun p => Nat.eqb (P._id p) id).

(** [findOne({ razorpayPaymentId })]. *)
Definition findOne_razorpayPaymentId (pid : string) : M (option Doc) :=
  find (fun p => (P.razorpayPaymentId (P.data p) =? pid)%string).

Definition with_receipt (p : P.fields) (n : P.ReceiptNumber) : P.fields :=
  {| P.user := P.user p;
     P.subscription := P.subscription p;
     P.razorpayPaymentId := P.razorpayPaymentId p;
     P.razorpayOrderId := P.razorpayOrderId p;
     P.amount := P.amount p;
     P.currency := P.currency p;
     P.status := P.status p;
     P.paymentMethod := P.paymentMethod p;
     P.paidAt := P.paidAt p;
     P.failedAt := P.failedAt p;
     P.description := P.description p;
     P.error := P.error p;
     P.notes := P.notes p;
     P.receipt_number := Some n |}.

Section Writes.

Variable accepts : StoreWrite -> bool.

(** [Model.create]: the validators, then the insertion, which the unique
    index on [razorpayPaymentId] refuses for a value already stored. *)
Definition create (p : P.fields) : M Doc :=
  if accepts (SavePayment p) then
    store <- get_db ;;
    if existsb (fun q => (P.razorpayPaymentId (P.data q)
                          =? P.razorpayPaymentId p)%string)
         (payments store)
    then throw (DuplicateKey "razorpayPaymentId")
    else
      let d := {| P._id := fresh (map P._id (payments store)); P.data := p |} in
      put_db (with_payments store (payments store ++ [d])) ;;;
      ret (hydrate d)
  else throw (ValidationError (SavePayment p)).

Definition save (d : Doc) : M Doc :=
  if accepts (SavePayment (P.data (paths d))) then
    store <- get_db ;;
    if existsb (fun p => Nat.eqb (P._id p) (P._id (paths d))) (payments store)
    then
      put_db (with_payments store
                (update_one P._id (P._id (paths d)) (flush P.apply d)
                   (payments store))) ;;;
      ret (saved d)
    else throw DocumentNotFound
  else throw (ValidationError (SavePayment (P.data (paths d)))).

Definition createPayment (paymentData : P.fields) : M Doc :=
  match P.receipt_number paymentData with
  | None =>
      t <- now ;;
      create (with_receipt paymentData (P.RCP t))
  | Some _ => create paymentData
  end.

(** [additionalData] is the list of the assignments [Object.assign]
    makes, in the order of its keys. *)
Definition updatePaymentStatus (paymentId : ObjectId) (status : string)
    (additionalData : list P.change) : M Doc :=
  found <- findById paymentId ;;
  match found with
  | None => throw (APIError "Payment not found" NOT_FOUND)
  | Some payment =>
      let oldStatus := P.status (P.data (paths payment)) in
      let payment := assign (P.SetStatus status) payment in
      payment <-
        (if (status =? "captured")%string
         then t <- now ;; ret (assign (P.SetPaidAt t) payment)
         else if (status =? "failed")%string
         then t <- now ;; ret (assign (P.SetFailedAt t) payment)
         else ret payment) ;;
      let payment := fold_left (fun d c => assign c d) additionalData payment in
      t <- now ;;
      let payment :=
        assign (P.PushNote
                  {| P.content := "Payment status changed from " ^^ oldStatus
                                  ^^ " to " ^^ status;
                     P.createdAt := t;
                     P.createdBy := None |})
               payment in
      save payment
  end.

(** Instance method. *)
Definition addNote (this : Doc) (content : string) (createdBy : option ObjectId)
  : M Doc :=
  t <- now ;;
  save (assign (P.PushNote {| P.content := content; P.createdAt := t;
                              P.createdBy := createdBy |})
          this).

End Writes.

Definition checkIsSuccessful (this : P.doc) : bool :=
  (P.status (P.data this) =? "captured")%string.

End Payment.

(** ** userModel.js, [UserClass]: subscription management methods *)
Module User.

Module U := userSchema.

Record SubscriptionInfo := {
  status : string;
  expiry : option Date;
  isActive : bool;
  razorpayCustomerId : option string }.

Definition findById (id : ObjectId) : M (option U.doc) :=
  store <- get_db ;;
  ret (List.find (fun u => Nat.eqb (U._id u) id) (users store)).

(** [['active', 'trial'].includes(status) && (!expiry || expiry > new Date())] *)
Definition active_at (t : Date) (user : U.doc) : bool :=
  includes ["active"; "trial"] (U.subscriptionStatus user)
  && match U.subscriptionExpiry user with
     | None => true
     | Some e => t <? e
     end.

Definition hasActiveSubscription (userId : ObjectId) : M bool :=
  found <- findById userId ;;
  match found with
  | None => ret false
  | Some user => t <- now ;; ret (active_at t user)
  end.

Definition getSubscriptionInfo (userId : ObjectId) : M (option SubscriptionInfo) :=
  found <- findById userId ;;
  match found with
  | None => ret None
  | Some user =>
      t <- now ;;
      ret (Some {| status := U.subscriptionStatus user;
                   expiry := U.subscriptionExpiry user;
                   isActive := active_at t user;
                   razorpayCustomerId := U.razorpayCustomerId user |})
  end.

Section Writes.

Variable accepts : StoreWrite -> bool.

Definition save (user : U.doc) : M U.doc :=
  if accepts (SaveUser user) then
    store <- get_db ;;
    if existsb (fun u => Nat.eqb (U._id u) (U._id user)) (users store)
    then
      put_db (with_users store
                (update_one U._id (U._id user) (fun _ => user) (users store))) ;;;
      ret user
    else throw DocumentNotFound
  else throw (ValidationError (SaveUser user)).

Definition updateSubscriptionStatus (userId : ObjectId) (status : string)
    (expiryDate : option Date) : M U.doc :=
  found <- findById userId ;;
  match found with
  | None => throw (APIError "User not found" NOT_FOUND)
  | Some user =>
      save {| U._id := U._id user;
              U.email := U.email user;
              U.razorpayCustomerId := U.razorpayCustomerId user;
              U.subscriptionStatus := status;
              U.subscriptionExpiry :=
                match expiryDate with
                | Some d => Some d
                | None => U.subscriptionExpiry user
                end |}
  end.

End Writes.

End User.

(** ** notificationModel.js, [NotificationClass.createNotification] *)
Module Notification.

Module N := notificationSchema.

Section Writes.

Variable accepts : StoreWrite -> bool.

Definition createNotification (notificationData : N.fields) : M N.doc :=
  if accepts (SaveNotification notificationData) then
    store <- get_db ;;
    let d := {| N._id := fresh (map N._id (notifications store));
                N.data := notificationData;
                N.status := "unread" |} in
    put_db (with_notifications store (notifications store ++ [d])) ;;;
    ret d
  else throw (ValidationError (SaveNotification notificationData)).

End Writes.

End Notification.

(** ** razorpayService.js, [RazorpayService.verifyWebhookSignature] *)
Module RazorpayService.

Section Crypto.

(** [crypto.createHmac('sha256', key).update(body).digest('hex')]. *)
Variable hmac_sha256_hex : string -> string -> string.

(** [config.RAZORPAY_WEBHOOK_SECRET]. *)
Variable RAZORPAY_WEBHOOK_SECRET : option string.

(** [createHmac] throws on a key that is [undefined], [update] on a body
    that is not a string or a buffer ([None]); the method catches, logs
    and answers [false].  The comparison is [===]. *)
Definition verifyWebhookSignature (body signature : option string) : M bool :=
  try_catch
    (match RAZORPAY_WEBHOOK_SECRET, body with
     | Some key, Some payload =>
         let expectedSignature := hmac_sha256_hex key payload in
         ret (match signature with
              | Some s => (expectedSignature =? s)%string
              | None => false
              end)
     | None, _ => throw (TypeError "The key argument must be of type string")
     | _, None => throw (TypeError "The data argument must be of type string")
     end)
    (fun _ => logger error "Error verifying webhook signature:" ;;; ret false).

End Crypto.

End RazorpayService.

(** ** The payload of a Razorpay event, as the handlers read it *)
Module razorpay.

Record CardEntity := {
  last4 : option string; network : option string; type : option string }.

Record PaymentEntity := {
  id : string;
  order_id : option string;
  amount : Z;
  currency : option string;
  method : option string;
  created_at : Z;
  card : option CardEntity;
  error_code : option string;
  error_description : option string;
  error_source : option string;
  error_step : option string;
  error_reason : option string }.

Record SubscriptionEntity := { subscription_id : string; current_end : Z }.

Record data := {
  payment : option PaymentEntity;
  subscription : option SubscriptionEntity }.

End razorpay.

(** ** razorpayWebhookService.js, [RazorpayWebhookService] *)
Module RazorpayWebhookService.

Module S := subscriptionSchema.
Module P := paymentSchema.
Module N := notificationSchema.
Module R := razorpay.

(** Reading a property of [x]: a [TypeError] when [x] is [undefined]. *)
Definition prop {A} (name : string) (x : option A) : M A :=
  match x with
  | Some a => ret a
  | None =>
      throw (TypeError ("Cannot read properties of undefined (reading '"
                        ^^ name ^^ "')"))
  end.

(** [amount / 100]. *)
Definition rupees (paise : Z) : Q := Qmake paise 100.

Definition seconds (s : Z) : Date := s * 1000.

Definition payment_notification (title : string) (message : Text)
    (type : string) (paymentRecord : P.doc) : N.fields :=
  {| N.title := title;
     N.message := message;
     N.type := type;
     N.recipient := P.user (P.data paymentRecord);
     N.relatedEntity := {| N.entity_type := "payment";
                           N.entity_id := P._id paymentRecord |};
     N.priority := "high" |}.

Definition subscription_notification (title message type priority : string)
    (subscriptionRecord : S.doc) : N.fields :=
  {| N.title := title;
     N.message := Str message;
     N.type := type;
     N.recipient := S.user subscriptionRecord;
     N.relatedEntity := {| N.entity_type := "subscription";
                           N.entity_id := S._id subscriptionRecord |};
     N.priority := priority |}.

Section Handlers.

Variable accepts : StoreWrite -> bool.

(** [subscriptionRecord.history.push({ action, date: new Date(), details })]
    followed by [await subscriptionRecord.save()]. *)
Definition push_history_and_save (subscriptionRecord : Subscription.Doc)
    (action : string) (details : Text) : M Subscription.Doc :=
  t <- now ;;
  Subscription.save accepts
    (Subscription.assign
       (S.PushHistory {| S.action := action; S.date := t; S.details := details |})
       subscriptionRecord).

Definition handlePaymentCaptured (data : R.data) : M unit :=
  payment <- prop "id" (R.payment data) ;;
  found <- Payment.findOne_razorpayPaymentId (R.id payment) ;;
  match found with
  | Some paymentRecord =>
      Payment.updatePaymentStatus accepts (P._id (paths paymentRecord)) "captured"
        [P.SetPaidAt (seconds (R.created_at payment));
         P.SetPaymentMethod
           {| P.type := R.method payment;
              P.card :=
                option_map
                  (fun c => {| P.last4 := R.last4 c; P.network := R.network c;
                               P.card_type := R.type c |})
                  (R.card payment) |}] ;;;
      Payment.addNote accepts paymentRecord "Payment captured successfully" None ;;;
      Notification.createNotification accepts
        (payment_notification "Payment Successful"
           (Rupees "Your payment of " (rupees (R.amount payment))
              " has been processed successfully")
           "success" (paths paymentRecord)) ;;;
      ret tt
  | None => ret tt
  end.

Definition handlePaymentFailed (data : R.data) : M unit :=
  payment <- prop "id" (R.payment data) ;;
  found <- Payment.findOne_razorpayPaymentId (R.id payment) ;;
  match found with
  | Some paymentRecord =>
      Payment.updatePaymentStatus accepts (P._id (paths paymentRecord)) "failed"
        [P.SetFailedAt (seconds (R.created_at payment));
         P.SetError
           {| P.error_code := R.error_code payment;
              P.error_description := R.error_description payment;
              P.error_source := R.error_source payment;
              P.error_step := R.error_step payment;
              P.error_reason := R.error_reason payment |}] ;;;
      Payment.addNote accepts paymentRecord
        ("Payment failed: " ^^ interpolate (R.error_description payment)) None ;;;
      Notification.createNotification accepts
        (payment_notification "Payment Failed"
           (Rupees "Your payment of " (rupees (R.amount payment))
              " failed. Please try again.")
           "error" (paths paymentRecord)) ;;;
      ret tt
  | None => ret tt
  end.

Definition handleSubscriptionActivated (data : R.data) : M unit :=
  subscription <- prop "id" (R.subscription data) ;;
  found <- Subscription.findOne_razorpaySubscriptionId (R.subscription_id subscription) ;;
  match found with
  | Some subscriptionRecord =>
      Subscription.updateSubscriptionStatus accepts
        (S._id (paths subscriptionRecord)) "active" None ;;;
      User.updateSubscriptionStatus accepts (S.user (paths subscriptionRecord))
        "active" (Some (seconds (R.current_end subscription))) ;;;
      subscriptionRecord <-
        push_history_and_save subscriptionRecord "activated"
          (Str "Subscription activated") ;;
      Notification.createNotification accepts
        (subscription_notification "Subscription Activated"
           "Your subscription has been activated successfully"
           "success" "high" (paths subscriptionRecord)) ;;;
      ret tt
  | None => ret tt
  end.

Definition handleSubscriptionCharged (data : R.data) : M unit :=
  subscription <- prop "id" (R.subscription data) ;;
  found <- Subscription.findOne_razorpaySubscriptionId (R.subscription_id subscription) ;;
  match found with
  | Some subscriptionRecord =>
      let subscriptionRecord :=
        Subscription.assign
          (S.SetNextBillingDate (seconds (R.current_end subscription)))
          subscriptionRecord in
      let subscriptionRecord :=
        Subscription.assign
          (S.SetEndDate (seconds (R.current_end subscription)))
          subscriptionRecord in
      payment <- prop "amount" (R.payment data) ;;
      subscriptionRecord <-
        push_history_and_save subscriptionRecord "renewed"
          (Rupees "Subscription renewed. Payment: " (rupees (R.amount payment)) "") ;;
      User.updateSubscriptionStatus accepts (S.user (paths subscriptionRecord))
        "active" (Some (seconds (R.current_end subscription))) ;;;
      existingPayment <- Payment.findOne_razorpayPaymentId (R.id payment) ;;
      match existingPayment with
      | None =>
          Payment.createPayment accepts
            {| P.user := S.user (paths subscriptionRecord);
               P.subscription := Some (S._id (paths subscriptionRecord));
               P.razorpayPaymentId := R.id payment;
               P.razorpayOrderId := R.order_id payment;
               P.amount := rupees (R.amount payment);
               P.currency := R.currency payment;
               P.status := "captured";
               P.paymentMethod := {| P.type := R.method payment; P.card := None |};
               P.paidAt := Some (seconds (R.created_at payment));
               P.failedAt := None;
               P.description := "Recurring subscription payment";
               P.error := None;
               P.notes := [];
               P.receipt_number := None |} ;;;
          ret tt
      | Some _ => ret tt
      end ;;;
      Notification.createNotification accepts
        {| N.title := "Subscription Renewed";
           N.message :=
             Rupees "Your subscription has been renewed. Payment of "
               (rupees (R.amount payment)) " processed.";
           N.type := "success";
           N.recipient := S.user (paths subscriptionRecord);
           N.relatedEntity := {| N.entity_type := "subscription";
                                 N.entity_id := S._id (paths subscriptionRecord) |};
           N.priority := "medium" |} ;;;
      ret tt
  | None => ret tt
  end.

Definition handleSubscriptionCompleted (data : R.data) : M unit :=
  subscription <- prop "id" (R.subscription data) ;;
  found <- Subscription.findOne_razorpaySubscriptionId (R.subscription_id subscription) ;;
  match found with
  | Some subscriptionRecord =>
      Subscription.updateSubscriptionStatus accepts
        (S._id (paths subscriptionRecord)) "completed" None ;;;
      User.updateSubscriptionStatus accepts (S.user (paths subscriptionRecord))
        "expired" None ;;;
      subscriptionRecord <-
        push_history_and_save subscriptionRecord "completed"
          (Str "Subscription completed") ;;
      Notification.createNotification accepts
        (subscription_notification "Subscription Completed"
           "Your subscription has completed. Please renew to continue using premium features."
           "warning" "high" (paths subscriptionRecord)) ;;;
      ret tt
  | None => ret tt
  end.

Definition handleSubscriptionCancelled (data : R.data) : M unit :=
  subscription <- prop "id" (R.subscription data) ;;
  found <- Subscription.findOne_razorpaySubscriptionId (R.subscription_id subscription) ;;
  match found with
  | Some subscriptionRecord =>
      Subscription.updateSubscriptionStatus accepts
        (S._id (paths subscriptionRecord)) "cancelled" None ;;;
      User.updateSubscriptionStatus accepts (S.user (paths subscriptionRecord))
        "cancelled" None ;;;
      subscriptionRecord <-
        push_history_and_save subscriptionRecord "cancelled"
          (Str "Subscription cancelled via Razorpay") ;;
      Notification.createNotification accepts
        (subscription_notification "Subscription Cancelled"
           "Your subscription has been cancelled. You can still use the service until the current billing period ends."
           "warning" "medium" (paths subscriptionRecord)) ;;;
      ret tt
  | None => ret tt
  end.

Definition handleSubscriptionPaused (data : R.data) : M unit :=
  subscription <- prop "id" (R.subscription data) ;;
  found <- Subscription.findOne_razorpaySubscriptionId (R.subscription_id subscription) ;;
  match found with
  | Some subscriptionRecord =>
      Subscription.updateSubscriptionStatus accepts
        (S._id (paths subscriptionRecord)) "paused" None ;;;
      subscriptionRecord <-
        push_history_and_save subscriptionRecord "paused"
          (Str "Subscription paused") ;;
      Notification.createNotification accepts
        (subscription_notification "Subscription Paused"
           "Your subscription has been paused. You can resume it anytime."
           "info" "medium" (paths subscriptionRecord)) ;;;
      ret tt
  | None => ret tt
  end.

Definition handleSubscriptionResumed (data : R.data) : M unit :=
  subscription <- prop "id" (R.subscription data) ;;
  found <- Subscription.findOne_razorpaySubscriptionId (R.subscription_id subscription) ;;
  match found with
  | Some subscriptionRecord =>
      Subscription.updateSubscriptionStatus accepts
        (S._id (paths subscriptionRecord)) "active" None ;;;
      User.updateSubscriptionStatus accepts (S.user (paths subscriptionRecord))
        "active" (Some (seconds (R.current_end subscription))) ;;;
      subscriptionRecord <-
        push_history_and_save subscriptionRecord "resumed"
          (Str "Subscription resumed") ;;
      Notification.createNotification accepts
        (subscription_notification "Subscription Resumed"
           "Your subscription has been resumed successfully."
           "success" "medium" (paths subscriptionRecord)) ;;;
      ret tt
  | None => ret tt
  end.

Definition handleSubscriptionHalted (data : R.data) : M unit :=
  subscription <- prop "id" (R.subscription data) ;;
  found <- Subscription.findOne_razorpaySubscriptionId (R.subscription_id subscription) ;;
  match found with
  | Some subscriptionRecord =>
      Subscription.updateSubscriptionStatus accepts
        (S._id (paths subscriptionRecord)) "past_due" None ;;;
      subscriptionRecord <-
        push_history_and_save subscriptionRecord "halted"
          (Str "Subscription halted due to payment failure") ;;
      Notification.createNotification accepts
        (subscription_notification "Payment Failed - Subscription Halted"
           "Your subscription has been halted due to payment failure. Please update your payment method."
           "error" "high" (paths subscriptionRecord)) ;;;
      ret tt
  | None => ret tt
  end.

Definition handleSubscriptionPending (data : R.data) : M unit :=
  subscription <- prop "id" (R.subscription data) ;;
  found <- Subscription.findOne_razorpaySubscriptionId (R.subscription_id subscription) ;;
  match found with
  | Some subscriptionRecord =>
      Subscription.updateSubscriptionStatus accepts
        (S._id (paths subscriptionRecord)) "trialing" None ;;;
      push_history_and_save subscriptionRecord "pending"
        (Str "Subscription pending activation") ;;;
      ret tt
  | None => ret tt
  end.

Definition handleSubscriptionUpdated (data : R.data) : M unit :=
  subscription <- prop "id" (R.subscription data) ;;
  found <- Subscription.findOne_razorpaySubscriptionId (R.subscription_id subscription) ;;
  match found with
  | Some subscriptionRecord =>
      let subscriptionRecord :=
        Subscription.assign
          (S.SetNextBillingDate (seconds (R.current_end subscription)))
          subscriptionRecord in
      let subscriptionRecord :=
        Subscription.assign
          (S.SetEndDate (seconds (R.current_end subscription)))
          subscriptionRecord in
      subscriptionRecord <-
        push_history_and_save subscriptionRecord "updated"
          (Str "Subscription updated") ;;
      User.updateSubscriptionStatus accepts (S.user (paths subscriptionRecord))
        "active" (Some (seconds (R.current_end subscription))) ;;;
      ret tt
  | None => ret tt
  end.

(** The [switch] of [handleWebhook]. *)
Definition dispatch (event : string) (data : R.data) : M unit :=
  if (event =? "payment.captured")%string then handlePaymentCaptured data
  else if (event =? "payment.failed")%string then handlePaymentFailed data
  else if (event =? "subscription.activated")%string
  then handleSubscriptionActivated data
  else if (event =? "subscription.charged")%string
  then handleSubscriptionCharged data
  else if (event =? "subscription.completed")%string
  then handleSubscriptionCompleted data
  else if (event =? "subscription.cancelled")%string
  then handleSubscriptionCancelled data
  else if (event =? "subscription.paused")%string
  then handleSubscriptionPaused data
  else if (event =? "subscription.resumed")%string
  then handleSubscriptionResumed data
  else if (event =? "subscription.halted")%string
  then handleSubscriptionHalted data
  else if (event =? "subscription.pending")%string
  then handleSubscriptionPending data
  else if (event =? "subscription.updated")%string
  then handleSubscriptionUpdated data
  else logger warn ("Unhandled Razorpay webhook event: " ^^ event).

Definition handleWebhook (event : string) (data : R.data) : M unit :=
  logger info ("Razorpay webhook received: " ^^ event) ;;;
  try_catch (dispatch event data)
    (fun e =>
       logger error ("Error handling Razorpay webhook " ^^ event ^^ ":") ;;;
       throw e).

End Handlers.

End RazorpayWebhookService.

(** ** subscriptionController.js: usage and limits *)
Module subscriptionController.

Module S := subscriptionSchema.

Record UsageStats := { usage : S.Usage; features : S.Features; plan : ObjectId }.

(** [req.user.id] is the argument; the answer of [res.json] is the result. *)
Definition getUsageStats (userId : ObjectId) : M UsageStats :=
  found <- Subscription.getUserActiveSubscription userId ;;
  match found with
  | None => throw (APIError "No active subscription found" NOT_FOUND)
  | Some subscription =>
      ret {| usage := S.usage (paths subscription);
             features := S.features (paths subscription);
             plan := S.plan (paths subscription) |}
  end.

Definition checkUsageLimit (userId : ObjectId) (resourceType : string)
  : M Subscription.UsageCheck :=
  found <- Subscription.getUserActiveSubscription userId ;;
  match found with
  | None => throw (APIError "No active subscription found" NOT_FOUND)
  | Some subscription =>
      Subscription.checkUsageLimit (S._id (paths subscription)) resourceType
  end.

End subscriptionController.

(** ** Reserving and releasing usage

    The usage guide of the repository (SUBSCRIPTION_SYSTEM_GUIDE.md, "Usage
    Tracking") gives the protocol of a resource-creating operation: ask
    [Subscription.checkUsageLimit] and, when it allows, call
    [Subscription.updateUsage].  [checkAndReserve] is that sequence for one
    request that no other request overlaps; [reserveOverlapping] is the same
    two awaited calls made by two requests at once, both checks being
    answered before either update; [release] is [updateUsage] with the
    amount negated. *)
Module UsageLedger.



Section Writes.

Variable accepts : StoreWrite -> bool.



Definition release (subscriptionId : ObjectId) (resourceType : string)
    (amount : Z) : M Subscription.Doc :=
  Subscription.updateUsage accepts subscriptionId resourceType (- amount).



End Writes.



End UsageLedger.

(** ** Observations of the world *)

Definition stored_subscription (w : World) (id : ObjectId)
  : option subscriptionSchema.doc :=
  List.find (fun s => Nat.eqb (subscriptionSchema._id s) id) (subscriptions (db w)).

Definition subscription_of_razorpay (w : World) (rid : string)
  : option subscriptionSchema.doc :=
  List.find (fun s => (subscriptionSchema.razorpaySubscriptionId s =? rid)%string)
    (subscriptions (db w)).

Definition stored_user (w : World) (id : ObjectId) : option userSchema.doc :=
  List.find (fun u => Nat.eqb (userSchema._id u) id) (users (db w)).

Definition payments_of_razorpay (w : World) (pid : string) : list paymentSchema.doc :=
  filter (fun p => (paymentSchema.razorpayPaymentId (paymentSchema.data p) =? pid)%string)
    (payments (db w)).

Definition usage_counter (w : World) (id : ObjectId)
    (r : subscriptionSchema.Resource) : option subscriptionSchema.Counter :=
  option_map (fun s => subscriptionSchema.counter r (subscriptionSchema.usage s))
    (stored_subscription w id).

(** The [_id]s of the stored subscriptions are pairwise distinct. *)
Definition distinct_subscription_ids (w : World) : Prop :=
  NoDup (map subscriptionSchema._id (subscriptions (db w))).

(** ** Stores *)

(** A store that accepts every write. *)
Definition accept_all : StoreWrite -> bool := fun _ => true.

(** A store whose notification collection refuses every write. *)
Definition without_notifications : StoreWrite -> bool :=
  fun w => match w with SaveNotification _ => false | _ => true end.

(** The validators the schemas declare on the modelled paths: the enums (a
    path with a default may be absent; [paymentMethod.type] is required)
    and, for a payment, the required strings, which an empty string does not
    satisfy, the minimum of the amount, and the cast of [paymentMethod.card],
    which the schema declares with a key [type] and so compiles to a String
    path that refuses an object. *)
Definition schema_accepts : StoreWrite -> bool :=
  fun w =>
    match w with
    | SaveSubscription d =>
        includes subscriptionSchema.status_enum (subscriptionSchema.status d)
        && forallb (fun e => includes subscriptionSchema.action_enum
                               (subscriptionSchema.action e))
             (subscriptionSchema.history d)
        && includes subscriptionSchema.billingCycle_enum
             (subscriptionSchema.billingCycle d)
    | SavePayment p =>
        includes paymentSchema.status_enum (paymentSchema.status p)
        && match paymentSchema.currency p with
           | Some c => includes paymentSchema.currency_enum c
           | None => true
           end
        && match paymentSchema.type (paymentSchema.paymentMethod p) with
           | Some t => includes paymentSchema.paymentMethod_type_enum t
           | None => false
           end
        && negb (paymentSchema.razorpayPaymentId p =? "")%string
        && match paymentSchema.razorpayOrderId p with
           | Some o => negb (o =? "")%string
           | None => false
           end
        && Qle_bool 0 (paymentSchema.amount p)
        && negb (paymentSchema.description p =? "")%string
        && forallb (fun n => negb (paymentSchema.content n =? "")%string)
             (paymentSchema.notes p)
        && match paymentSchema.card (paymentSchema.paymentMethod p) with
           | Some _ => false
           | None => true
           end
    | SaveUser u =>
        includes userSchema.subscriptionStatus_enum (userSchema.subscriptionStatus u)
    | SaveNotification n =>
        includes notificationSchema.type_enum (notificationSchema.type n)
        && includes notificationSchema.relatedEntity_type_enum
             (notificationSchema.entity_type (notificationSchema.relatedEntity n))
        && includes notificationSchema.priority_enum (notificationSchema.priority n)
    end.

(** The same event delivered [n] times, whatever each delivery answers. *)
Fixpoint redeliver (accepts : StoreWrite -> bool) (n : nat) (event : string)
    (data : razorpay.data) (w : World) : World :=
  match n with
  | O => w
  | S n' =>
      redeliver accepts n' event data
        (snd (RazorpayWebhookService.handleWebhook accepts event data w))
  end.

(** The events of [handleWebhook] whose handler looks a payment up, and those
    whose handler looks a subscription up. *)
Definition payment_events : list string := ["payment.captured"; "payment.failed"].

Definition subscription_events : list string :=
  ["subscription.activated"; "subscription.charged"; "subscription.completed";
   "subscription.cancelled"; "subscription.paused"; "subscription.resumed";
   "subscription.halted"; "subscription.pending"; "subscription.updated"].

(** An event whose payload names a payment, or a subscription, that the
    store does not hold. *)
Definition orphan (event : string) (data : razorpay.data) (w : World) : bool :=
  if includes payment_events event then
    match razorpay.payment data with
    | Some p =>
        negb (existsb
                (fun q => (paymentSchema.razorpayPaymentId (paymentSchema.data q)
                           =? razorpay.id p)%string)
                (payments (db w)))
    | None => false
    end
  else if includes subscription_events event then
    match razorpay.subscription data with
    | Some s =>
        negb (existsb
                (fun q => (subscriptionSchema.razorpaySubscriptionId q
                           =? razorpay.subscription_id s)%string)
                (subscriptions (db w)))
    | None => false
    end
  else false.

(** ** A small world for the scenarios *)
Module Scenario.

Module S := subscriptionSchema.

Definition unused (l : Z) : S.Counter := {| S.current := 0; S.limit := l |}.

Definition no_features : S.Features :=
  {| S.aiEstimates := false; S.advancedAnalytics := false;
     S.customBranding := false; S.prioritySupport := false;
     S.apiAccess := false; S.whiteLabel := false |}.

(** The subscription of user 7: created, of status [status], with a
    quota of two projects and its period ending at [5000]. *)
Definition subscription (status : string) : S.doc :=
  {| S._id := 1%nat;
     S.user := 7%nat;
     S.plan := 3%nat;
     S.razorpaySubscriptionId := "sub_1";
     S.razorpayCustomerId := "cust_7";
     S.status := status;
     S.billingCycle := "monthly";
     S.startDate := 1000;
     S.endDate := Some 5000;
     S.nextBillingDate := Some 5000;
     S.cancelledAt := None;
     S.usage := {| S.teams := unused 1; S.users := unused 5;
                   S.projects := unused 2; S.clients := unused 50;
                   S.leads := unused 100; S.storage := unused 5 |};
     S.features := no_features;
     S.history := [{| S.action := "created"; S.date := 1000;
                      S.details := Str "Subscription created" |}];
     S.cancellation := None |}.

Definition customer : userSchema.doc :=
  {| userSchema._id := 7%nat;
     userSchema.email := "user@example.com";
     userSchema.razorpayCustomerId := Some "cust_7";
     userSchema.subscriptionStatus := "trial";
     userSchema.subscriptionExpiry := None |}.

(** The world at time [t] that holds that subscription and its user. *)
Definition world (status : string) (t : Date) : World :=
  {| db := {| subscriptions := [subscription status];
              payments := [];
              users := [customer];
              notifications := [] |};
     logs := [];
     clock := t |}.

Definition charge : razorpay.PaymentEntity :=
  {| razorpay.id := "pay_X";
     razorpay.order_id := Some "order_1";
     razorpay.amount := 49900;
     razorpay.currency := Some "INR";
     razorpay.method := Some "card";
     razorpay.created_at := 6;
     razorpay.card := None;
     razorpay.error_code := None;
     razorpay.error_description := None;
     razorpay.error_source := None;
     razorpay.error_step := None;
     razorpay.error_reason := None |}.

(** The payload of an event about [sub_1] whose period ends at second 9. *)
Definition event_data : razorpay.data :=
  {| razorpay.payment := Some charge;
     razorpay.subscription :=
       Some {| razorpay.subscription_id := "sub_1"; razorpay.current_end := 9 |} |}.

End Scenario.

(** ** Abbreviations used by the statements *)

Module S := subscriptionSchema.
Module P := paymentSchema.
Module U := userSchema.
Module N := notificationSchema.
Module R := razorpay.

Definition has_id {D} (id_of : D -> ObjectId) (id : ObjectId) (d : D) : bool :=
  Nat.eqb (id_of d) id.

(** The world once the pending changes of the subscription document [d] have
    reached the store. *)
Definition subscription_saved (d : Subscription.Doc) (w : World) : World :=
  set_db w
    (with_subscriptions (db w)
       (update_one S._id (S._id (paths d)) (flush S.apply d) (subscriptions (db w)))).

(** The history entry [updateSubscriptionStatus] pushes at time [t] on a
    subscription of status [oldStatus]. *)
Definition status_entry (oldStatus status : string) (details : option string)
    (t : Date) : S.HistoryEntry :=
  {| S.action := if (status =? "cancelled")%string then "cancelled" else "activated";
     S.date := t;
     S.details :=
       Str (or_else details
              ("Status changed from " ^^ oldStatus ^^ " to " ^^ status)) |}.

(** The document [updateSubscriptionStatus] saves, loaded as [s] at time [t]. *)
Definition status_document (s : S.doc) (status : string) (details : option string)
    (t : Date) : Subscription.Doc :=
  let d :=
    Subscription.assign
      (S.PushHistory (status_entry (S.status s) status details t))
      (Subscription.assign (S.SetStatus status) (hydrate s)) in
  if (status =? "cancelled")%string
  then Subscription.assign (S.SetCancelledAt t) d
  else d.

(** The document [updateUsage] saves: [s] with the counter of [r] set to [v]. *)
Definition usage_document (s : S.doc) (r : S.Resource) (v : Z) : Subscription.Doc :=
  Subscription.assign (S.SetCurrent r v) (hydrate s).


(** The answer of [checkUsageLimit] at the ceiling. *)
Definition limit_exceeded (c : S.Counter) : Subscription.UsageCheck :=
  {| Subscription.allowed := false;
     Subscription.reason := "Usage limit exceeded";
     Subscription.current := Some (S.current c);
     Subscription.limit := Some (S.limit c) |}.

(** The subscription [getUserActiveSubscription] selects for a user. *)
Definition active_subscription_of (w : World) (userId : ObjectId) : option S.doc :=
  List.find
    (fun s => Nat.eqb (S.user s) userId && includes ["active"; "trialing"] (S.status s))
    (subscriptions (db w)).

(** The usage and features that [getUsageStats] answers for a subscription. *)
Definition snapshot (s : S.doc) : subscriptionController.UsageStats :=
  {| subscriptionController.usage := S.usage s;
     subscriptionController.features := S.features s;
     subscriptionController.plan := S.plan s |}.

Definition payment_of_razorpay (w : World) (pid : string) : option P.doc :=
  List.find (fun p => (P.razorpayPaymentId (P.data p) =? pid)%string)
    (payments (db w)).

(** The user document [User.updateSubscriptionStatus] saves. *)
Definition user_with (u : U.doc) (status : string) (expiryDate : option Date) : U.doc :=
  {| U._id := U._id u;
     U.email := U.email u;
     U.razorpayCustomerId := U.razorpayCustomerId u;
     U.subscriptionStatus := status;
     U.subscriptionExpiry :=
       match expiryDate with
       | Some d => Some d
       | None => U.subscriptionExpiry u
       end |}.

Definition user_saved (u : U.doc) (w : World) : World :=
  set_db w (with_users (db w) (update_one U._id (U._id u) (fun _ => u) (users (db w)))).

Definition notification_created (n : N.fields) (w : World) : World :=
  set_db w
    (with_notifications (db w)
       (notifications (db w)
        ++ [{| N._id := fresh (map N._id (notifications (db w)));
               N.data := n;
               N.status := "unread" |}])).

Definition payment_created (p : P.fields) (w : World) : World :=
  set_db w
    (with_payments (db w)
       (payments (db w)
        ++ [{| P._id := fresh (map P._id (payments (db w))); P.data := p |}])).

(** The entry and the notification of [handleSubscriptionActivated]. *)
Definition activated_entry (t : Date) : S.HistoryEntry :=
  {| S.action := "activated"; S.date := t; S.details := Str "Subscription activated" |}.

Definition activation_notice (s : S.doc) : N.fields :=
  RazorpayWebhookService.subscription_notification "Subscription Activated"
    "Your subscription has been activated successfully" "success" "high" s.

(** The entry, the document, the payment and the notification of
    [handleSubscriptionCharged]. *)
Definition renewed_entry (paise : Z) (t : Date) : S.HistoryEntry :=
  {| S.action := "renewed"; S.date := t;
     S.details := Rupees "Subscription renewed. Payment: "
                    (RazorpayWebhookService.rupees paise) "" |}.

Definition charged_document (s : S.doc) (sub : R.SubscriptionEntity)
    (pay : R.PaymentEntity) (t : Date) : Subscription.Doc :=
  Subscription.assign (S.PushHistory (renewed_entry (R.amount pay) t))
    (Subscription.assign
       (S.SetEndDate (RazorpayWebhookService.seconds (R.current_end sub)))
       (Subscription.assign
          (S.SetNextBillingDate (RazorpayWebhookService.seconds (R.current_end sub)))
          (hydrate s))).

Definition recurring_payment (s : S.doc) (pay : R.PaymentEntity) : P.fields :=
  {| P.user := S.user s;
     P.subscription := Some (S._id s);
     P.razorpayPaymentId := R.id pay;
     P.razorpayOrderId := R.order_id pay;
     P.amount := RazorpayWebhookService.rupees (R.amount pay);
     P.currency := R.currency pay;
     P.status := "captured";
     P.paymentMethod := {| P.type := R.method pay; P.card := None |};
     P.paidAt := Some (RazorpayWebhookService.seconds (R.created_at pay));
     P.failedAt := None;
     P.description := "Recurring subscription payment";
     P.error := None;
     P.notes := [];
     P.receipt_number := None |}.

Definition renewal_notice (s : S.doc) (pay : R.PaymentEntity) : N.fields :=
  {| N.title := "Subscription Renewed";
     N.message :=
       Rupees "Your subscription has been renewed. Payment of "
         (RazorpayWebhookService.rupees (R.amount pay)) " processed.";
     N.type := "success";
     N.recipient := S.user s;
     N.relatedEntity := {| N.entity_type := "subscription"; N.entity_id := S._id s |};
     N.priority := "medium" |}.

(** The world [handleSubscriptionActivated] leaves before it creates its
    notification: the status change saved, the user updated, then the
    handler's own entry pushed from the document it had loaded first. *)
Definition activated_world (s : S.doc) (u : U.doc) (sub : R.SubscriptionEntity)
    (w : World) : World :=
  subscription_saved
    (Subscription.assign (S.PushHistory (activated_entry (clock w))) (hydrate s))
    (user_saved
       (user_with u "active"
          (Some (RazorpayWebhookService.seconds (R.current_end sub))))
       (subscription_saved (status_document s "active" None (clock w)) w)).

(** The store takes the three documents [handleSubscriptionActivated] saves
    at time [t] before its notification: the status change, the user, and
    the entry pushed on the document loaded before the status change. *)
Definition activated_writes_accepted (accepts : StoreWrite -> bool) (s : S.doc)
    (u : U.doc) (sub : R.SubscriptionEntity) (t : Date) : Prop :=
  accepts (SaveSubscription (paths (status_document s "active" None t))) = true
  /\ accepts (SaveUser (user_with u "active"
                          (Some (RazorpayWebhookService.seconds (R.current_end sub)))))
     = true
  /\ accepts (SaveSubscription (S.apply (S.PushHistory (activated_entry t)) s)) = true.

(** The world [handleSubscriptionCharged] leaves before it creates its
    notification: the renewal saved, the user updated, and the payment
    created when the store holds none of that [razorpayPaymentId]. *)
Definition charged_world (s : S.doc) (u : U.doc) (sub : R.SubscriptionEntity)
    (pay : R.PaymentEntity) (w : World) : World :=
  let w3 :=
    user_saved
      (user_with u "active"
         (Some (RazorpayWebhookService.seconds (R.current_end sub))))
      (subscription_saved (charged_document s sub pay (clock w)) w) in
  match payment_of_razorpay w (R.id pay) with
  | None =>
      payment_created
        (Payment.with_receipt (recurring_payment s pay) (P.RCP (clock w))) w3
  | Some _ => w3
  end.

(** The store takes the documents [handleSubscriptionCharged] saves at time
    [t] before its notification, for the subscription [s], the user [u] and
    the payment [existing] that [findOne] answers: the renewal, the user,
    and the payment when there is none yet. *)
Definition charged_writes_accepted (accepts : StoreWrite -> bool) (s : S.doc)
    (u : U.doc) (sub : R.SubscriptionEntity) (pay : R.PaymentEntity) (t : Date)
    (existing : option P.doc) : Prop :=
  accepts (SaveSubscription (paths (charged_document s sub pay t))) = true
  /\ accepts (SaveUser (user_with u "active"
                          (Some (RazorpayWebhookService.seconds (R.current_end sub)))))
     = true
  /\ (existing = None ->
      accepts (SavePayment (Payment.with_receipt (recurring_payment s pay) (P.RCP t)))
      = true).

(** The subscription [s] after [k] deliveries of the same
    [subscription.charged] at time [t]. *)
Definition charged_after (s : S.doc) (sub : R.SubscriptionEntity)
    (pay : R.PaymentEntity) (t : Date) (k : nat) : S.doc :=
  Nat.iter k (fun x => paths (charged_document x sub pay t)) s.

(** The store takes the documents that [n] deliveries of the same
    [subscription.charged] save before their notifications: the
    subscription after each delivery, the user (the same document at every
    delivery), and the payment when there is none yet. *)
Definition redelivered_writes_accepted (accepts : StoreWrite -> bool) (s : S.doc)
    (u : U.doc) (sub : R.SubscriptionEntity) (pay : R.PaymentEntity) (t : Date)
    (existing : option P.doc) (n : nat) : Prop :=
  (forall k, (k < n)%nat ->
             accepts (SaveSubscription (charged_after s sub pay t (S k))) = true)
  /\ accepts (SaveUser (user_with u "active"
                          (Some (RazorpayWebhookService.seconds (R.current_end sub)))))
     = true
  /\ (existing = None ->
      accepts (SavePayment (Payment.with_receipt (recurring_payment s pay) (P.RCP t)))
      = true).

(** No two stored payments share a [razorpayPaymentId]: what the unique
    index of the schema maintains. *)
Definition unique_payment_ids (w : World) : Prop :=
  NoDup (map (fun p => P.razorpayPaymentId (P.data p)) (payments (db w))).

(** A sequence of deliveries of any events, whatever each delivery answers. *)
Definition deliver (accepts : StoreWrite -> bool)
    (deliveries : list (string * R.data)) (w : World) : World :=
  fold_left
    (fun w d => snd (RazorpayWebhookService.handleWebhook accepts (fst d) (snd d) w))
    deliveries w.

(** [m] keeps the property [I] of the world, whether it returns or throws. *)
Definition preserves {A} (I : World -> Prop) (m : M A) : Prop :=
  forall w, I w -> I (snd (m w)).

(** The documents [cancelSubscription] and [renewSubscription] save. *)
Definition cancelled_document (s : S.doc) (reason feedback : option string)
    (cancelledBy : option ObjectId) (t : Date) : Subscription.Doc :=
  Subscription.assign
    (S.PushHistory
       {| S.action := "cancelled"; S.date := t;
          S.details := Str ("Subscription cancelled. Reason: "
                            ^^ or_else reason "Not specified") |})
    (Subscription.assign
       (S.SetCancellation {| S.reason := reason; S.feedback := feedback;
                             S.cancelledBy := cancelledBy |})
       (Subscription.assign (S.SetCancelledAt t)
          (Subscription.assign (S.SetStatus "cancelled") (hydrate s)))).

Definition renewed_document (s : S.doc) (nextBillingDate : Date) (t : Date)
  : Subscription.Doc :=
  Subscription.assign
    (S.PushHistory {| S.action := "renewed"; S.date := t;
                      S.details := Str "Subscription renewed" |})
    (Subscription.assign
       (S.SetEndDate
          (nextBillingDate
           + (if (S.billingCycle s =? "yearly")%string then 365 else 30)
             * 24 * 60 * 60 * 1000))
       (Subscription.assign (S.SetNextBillingDate nextBillingDate)
          (Subscription.assign (S.SetStatus "active") (hydrate s)))).

(** * Further code of the cited files, and abbreviations for its properties *)

(** ** subscriptionModel.js, [SubscriptionClass.createSubscription] *)
Module SubscriptionClass.

(** The object given to [createSubscription], with the paths the controller
    gives it; [status] may be absent, the schema then defaults it to
    'trialing'. *)
Record SubscriptionData := {
  user : ObjectId;
  plan : ObjectId;
  razorpaySubscriptionId : string;
  razorpayCustomerId : string;
  status : option string;
  billingCycle : string;
  startDate : Date;
  endDate : option Date;
  nextBillingDate : option Date;
  usage : S.Usage;
  features : S.Features }.

Definition BAD_REQUEST : Z := 400.

(** The document [Model.create] builds from the data and the history. *)
Definition document (id : ObjectId) (data : SubscriptionData)
    (history : list S.HistoryEntry) : S.doc :=
  {| S._id := id;
     S.user := user data;
     S.plan := plan data;
     S.razorpaySubscriptionId := razorpaySubscriptionId data;
     S.razorpayCustomerId := razorpayCustomerId data;
     S.status := match status data with
                 | Some s => s
                 | None => "trialing"
                 end;
     S.billingCycle := billingCycle data;
     S.startDate := startDate data;
     S.endDate := endDate data;
     S.nextBillingDate := nextBillingDate data;
     S.cancelledAt := None;
     S.usage := usage data;
     S.features := features data;
     S.history := history;
     S.cancellation := None |}.

Section Writes.

Variable accepts : StoreWrite -> bool.

(** [Model.create]: the validators, then the insertion, which the unique
    index on [razorpaySubscriptionId] refuses for a value already stored. *)
Definition create (data : SubscriptionData) (history : list S.HistoryEntry)
  : M Subscription.Doc :=
  store <- get_db ;;
  let d := document (fresh (map S._id (subscriptions store))) data history in
  if accepts (SaveSubscription d) then
    if existsb (fun s => (S.razorpaySubscriptionId s
                          =? razorpaySubscriptionId data)%string)
         (subscriptions store)
    then throw (DuplicateKey "razorpaySubscriptionId")
    else
      put_db (with_subscriptions store (subscriptions store ++ [d])) ;;;
      ret (hydrate d)
  else throw (ValidationError (SaveSubscription d)).

(** The method, for a call that no other call overlaps: the lookup and the
    insertion are two awaited calls, and no index of the schema is unique on
    the user and the status. *)
Definition createSubscription (subscriptionData : SubscriptionData)
  : M Subscription.Doc :=
  existingSubscription <-
    Subscription.getUserActiveSubscription (user subscriptionData) ;;
  match existingSubscription with
  | Some _ =>
      throw (APIError "User already has an active subscription" BAD_REQUEST)
  | None =>
      t <- now ;;
      create subscriptionData
        [{| S.action := "created"; S.date := t;
            S.details := Str "Subscription created" |}]
  end.

(** Two calls of [createSubscription] that overlap: the lookup of each is
    answered before the insertion of the other. *)
Definition createOverlapping (dataA dataB : SubscriptionData)
  : M (Result Subscription.Doc * Result Subscription.Doc) :=
  let insert subscriptionData (existingSubscription : option Subscription.Doc) :=
    match existingSubscription with
    | Some _ =>
        throw (APIError "User already has an active subscription" BAD_REQUEST)
    | None =>
        t <- now ;;
        create subscriptionData
          [{| S.action := "created"; S.date := t;
              S.details := Str "Subscription created" |}]
    end in
  overlapped
    (Subscription.getUserActiveSubscription (user dataA))
    (Subscription.getUserActiveSubscription (user dataB))
    (insert dataA) (insert dataB).

End Writes.

End SubscriptionClass.

(** ** razorpayService.js: the payment signature and two remote calls *)
Module razorpayService.

(** The payment entity [payments.fetch] answers, as [verifyPayment] reads it. *)
Record RemotePayment := {
  amount : Z;
  currency : option string;
  status : string;
  method : option string;
  created_at : Z;
  card : option R.CardEntity }.

Definition INTERNAL_SERVER_ERROR : Z := 500.

Section Remote.

(** [crypto.createHmac('sha256', key).update(body).digest('hex')]. *)
Variable hmac_sha256_hex : string -> string -> string.

(** [config.RAZORPAY_KEY_SECRET]. *)
Variable RAZORPAY_KEY_SECRET : option string.

(** Whether [this.razorpay.subscriptions.cancel] succeeds for a Razorpay
    subscription id, and what [this.razorpay.payments.fetch] answers for a
    payment id, [None] when it fails. *)
Variable subscriptions_cancel : string -> bool.
Variable payments_fetch : string -> option RemotePayment.

(** [orderId + '|' + paymentId] writes an id that is [undefined] as
    'undefined'; [createHmac] throws on a key that is [undefined]; the
    method catches, logs and answers [false].  The comparison is [===]. *)
Definition verifyPaymentSignature (orderId paymentId signature : option string)
  : M bool :=
  try_catch
    (let body := interpolate orderId ^^ "|" ^^ interpolate paymentId in
     match RAZORPAY_KEY_SECRET with
     | Some key =>
         let expectedSignature := hmac_sha256_hex key body in
         ret (match signature with
              | Some s => (expectedSignature =? s)%string
              | None => false
              end)
     | None => throw (TypeError "The key argument must be of type string")
     end)
    (fun _ => logger error "Error verifying payment signature:" ;;; ret false).

Definition cancelSubscription (subscriptionId : string) : M unit :=
  if subscriptions_cancel subscriptionId then
    logger info ("Razorpay subscription cancelled: " ^^ subscriptionId)
  else
    logger error "Error cancelling Razorpay subscription:" ;;;
    throw (APIError "Failed to cancel subscription" INTERNAL_SERVER_ERROR).

Definition getPayment (paymentId : string) : M RemotePayment :=
  match payments_fetch paymentId with
  | Some payment => ret payment
  | None =>
      logger error "Error fetching Razorpay payment:" ;;;
      throw (APIError "Failed to fetch payment" INTERNAL_SERVER_ERROR)
  end.

End Remote.

End razorpayService.

(** ** subscriptionController.js: [cancelSubscription] and [verifyPayment]

    [req.user.id] is the first argument, the parameters and the body of the
    request follow; the ids of the request are taken well formed and, for
    [verifyPayment], present. *)
Module subscriptionManagement.

Definition FORBIDDEN : Z := 403.

Section Routes.

Variable accepts : StoreWrite -> bool.
Variable hmac_sha256_hex : string -> string -> string.
Variable RAZORPAY_KEY_SECRET : option string.
Variable subscriptions_cancel : string -> bool.
Variable payments_fetch : string -> option razorpayService.RemotePayment.

(** [getSubscriptionById] populates [user], which is [null] when no user of
    that id is stored; the answer is the message of [res.json]. *)
Definition cancelSubscription (userId subscriptionId : ObjectId)
    (reason feedback : option string) : M string :=
  found <- Subscription.findById subscriptionId ;;
  match found with
  | None => throw (APIError "Subscription not found" NOT_FOUND)
  | Some subscription =>
      owner <- User.findById (S.user (paths subscription)) ;;
      match owner with
      | None => throw (TypeError "Cannot read properties of null (reading '_id')")
      | Some user =>
          if negb (Nat.eqb (U._id user) userId) then
            throw (APIError "Unauthorized access to subscription" FORBIDDEN)
          else
            razorpayService.cancelSubscription subscriptions_cancel
              (S.razorpaySubscriptionId (paths subscription)) ;;;
            Subscription.cancelSubscription accepts subscriptionId reason feedback
              (Some userId) ;;;
            Notification.createNotification accepts
              {| N.title := "Subscription Cancelled";
                 N.message := Str "Your subscription has been cancelled successfully";
                 N.type := "warning";
                 N.recipient := userId;
                 N.relatedEntity :=
                   {| N.entity_type := "subscription";
                      N.entity_id := S._id (paths subscription) |};
                 N.priority := "medium" |} ;;;
            ret "Subscription cancelled successfully"
      end
  end.

(** The answer is the [data] of [res.json]: the payment created. *)
Definition verifyPayment (userId : ObjectId) (orderId paymentId : string)
    (signature : option string) : M Payment.Doc :=
  isValidSignature <-
    razorpayService.verifyPaymentSignature hmac_sha256_hex RAZORPAY_KEY_SECRET
      (Some orderId) (Some paymentId) signature ;;
  if negb isValidSignature then
    throw (APIError "Invalid payment signature" SubscriptionClass.BAD_REQUEST)
  else
    razorpayPayment <- razorpayService.getPayment payments_fetch paymentId ;;
    t <- now ;;
    let captured := (razorpayService.status razorpayPayment =? "captured")%string in
    Payment.createPayment accepts
      {| P.user := userId;
         P.subscription := None;
         P.razorpayPaymentId := paymentId;
         P.razorpayOrderId := Some orderId;
         P.amount := Qmake (razorpayService.amount razorpayPayment) 100;
         P.currency := razorpayService.currency razorpayPayment;
         P.status := if captured then "captured" else "failed";
         P.paymentMethod :=
           {| P.type := razorpayService.method razorpayPayment;
              P.card :=
                option_map
                  (fun c => {| P.last4 := R.last4 c; P.network := R.network c;
                               P.card_type := R.type c |})
                  (razorpayService.card razorpayPayment) |};
         P.paidAt :=
           if captured
           then Some (razorpayService.created_at razorpayPayment * 1000)
           else None;
         P.failedAt := None;
         P.description := "Payment for subscription plan";
         P.error := None;
         P.notes := [];
         P.receipt_number := Some (P.RCP t) |}.

End Routes.

End subscriptionManagement.

(** ** Abbreviations for the further properties *)

(** The events [handleWebhook] has a case for. *)
Definition handled_events : list string := payment_events ++ subscription_events.

(** The world after [handleWebhook] has logged the reception of [event]. *)
Definition received (event : string) (w : World) : World :=
  add_log w info ("Razorpay webhook received: " ^^ event).

(** The world after [handleWebhook] has logged the error of [event]. *)
Definition failed (event : string) (w : World) : World :=
  add_log w error ("Error handling Razorpay webhook " ^^ event ^^ ":").

(** The paths of a subscription that no webhook handler assigns. *)
Definition subscription_frame (s : S.doc) :=
  (S._id s, S.user s, S.plan s, S.razorpaySubscriptionId s, S.razorpayCustomerId s,
   S.billingCycle s, S.startDate s, S.usage s, S.features s, S.cancellation s).

(** The changes the webhook handlers make to a subscription document: every
    one but an assignment of a usage counter or of the cancellation details. *)
Definition handler_change (c : S.change) : Prop :=
  match c with
  | S.SetCurrent _ _ | S.SetCancellation _ => False
  | _ => True
  end.

(** The paths of a user that [User.updateSubscriptionStatus] keeps. *)
Definition user_frame (u : U.doc) := (U._id u, U.email u, U.razorpayCustomerId u).

(** The paths of a payment that no method of the model assigns. *)
Definition payment_frame (p : P.doc) :=
  (P._id p, P.user (P.data p), P.subscription (P.data p),
   P.razorpayPaymentId (P.data p), P.razorpayOrderId (P.data p),
   P.amount (P.data p), P.currency (P.data p), P.description (P.data p),
   P.receipt_number (P.data p)).

(** [w] comes from [w0] without creating or deleting a subscription or a
    user, without touching their frames, the frames of the payments or any
    notification, and by appending only to the payments, the notifications
    and the log; the clock is the same. *)
Definition extends (w0 w : World) : Prop :=
  map subscription_frame (subscriptions (db w))
  = map subscription_frame (subscriptions (db w0))
  /\ map user_frame (users (db w)) = map user_frame (users (db w0))
  /\ (exists more, map payment_frame (payments (db w))
                   = map payment_frame (payments (db w0)) ++ more)
  /\ (exists more, notifications (db w) = notifications (db w0) ++ more)
  /\ (exists more, logs w = logs w0 ++ more)
  /\ clock w = clock w0.

(** [m] only extends the world, whether it returns or throws. *)
Definition conservative {A} (m : M A) : Prop := forall w, extends w (snd (m w)).

(** The answer of a method of the subscription model on an unknown id. *)
Definition subscription_not_found {A} : Result A :=
  Throw (APIError "Subscription not found" NOT_FOUND).

(** Milliseconds in [days] days: [days * 24 * 60 * 60 * 1000]. *)
Definition days_ms (days : Z) : Z := days * 24 * 60 * 60 * 1000.

(** The stored payment of identifier [id]. *)
Definition stored_payment (w : World) (id : ObjectId) : option P.doc :=
  List.find (fun p => Nat.eqb (P._id p) id) (payments (db w)).

(** [['active', 'trial'].includes(status) && (!expiry || expiry > now)]. *)
Definition entitled (status : string) (expiry : option Date) (t : Date) : bool :=
  ((status =? "active") || (status =? "trial"))%string
  && match expiry with
     | None => true
     | Some e => t <? e
     end.

(** The world once the pending changes of the payment document [d] have been
    sent to the store. *)
Definition payment_saved (d : Payment.Doc) (w : World) : World :=
  set_db w
    (with_payments (db w)
       (update_one P._id (P._id (paths d)) (flush P.apply d) (payments (db w)))).

(** The note [updatePaymentStatus] pushes at time [t]. *)
Definition status_note (oldStatus status : string) (t : Date) : P.Note :=
  {| P.content := "Payment status changed from " ^^ oldStatus ^^ " to " ^^ status;
     P.createdAt := t;
     P.createdBy := None |}.

(** The note [addNote] pushes at time [t] with no author. *)
Definition note_at (content : string) (t : Date) : P.Note :=
  {| P.content := content; P.createdAt := t; P.createdBy := None |}.

(** The notification [createNotification] stores for [n] in the world [w]. *)
Definition notification_of (n : N.fields) (w : World) : N.doc :=
  {| N._id := fresh (map N._id (notifications (db w)));
     N.data := n;
     N.status := "unread" |}.

(** The identifiers of the stored payments are pairwise distinct. *)
Definition distinct_payment_ids (w : World) : Prop :=
  NoDup (map P._id (payments (db w))).

(** A payment of user 7 awaiting its capture, and the world of
    [Scenario.world] holding it. *)
Definition pending_payment : P.doc :=
  {| P._id := 1%nat;
     P.data :=
       {| P.user := 7%nat;
          P.subscription := Some 1%nat;
          P.razorpayPaymentId := "pay_X";
          P.razorpayOrderId := Some "order_1";
          P.amount := Qmake 499 1;
          P.currency := Some "INR";
          P.status := "pending";
          P.paymentMethod := {| P.type := Some "card"; P.card := None |};
          P.paidAt := None;
          P.failedAt := None;
          P.description := "Subscription payment";
          P.error := None;
          P.notes := [];
          P.receipt_number := Some (P.RCP 1000) |} |}.

Definition checkout_world (t : Date) : World :=
  set_db (Scenario.world "active" t)
    (with_payments (db (Scenario.world "active" t)) [pending_payment]).

(** The world of [Scenario.world] once the user of the subscription is gone. *)
Definition userless_world (status : string) (t : Date) : World :=
  set_db (Scenario.world status t) (with_users (db (Scenario.world status t)) []).

(** The entry a handler pushes by itself at time [t]. *)
Definition handler_entry (action details : string) (t : Date) : S.HistoryEntry :=
  {| S.action := action; S.date := t; S.details := Str details |}.

(** The stored subscriptions of [userId] whose status is 'active' or
    'trialing'. *)
Definition active_subscriptions_of (w : World) (userId : ObjectId) : list S.doc :=
  filter
    (fun s => Nat.eqb (S.user s) userId && includes ["active"; "trialing"] (S.status s))
    (subscriptions (db w)).

(** No user has two subscriptions of status 'active' or 'trialing'. *)
Definition one_active_per_user (w : World) : Prop :=
  forall userId, (List.length (active_subscriptions_of w userId) <= 1)%nat.

(** The data of a first subscription for user 8, with no status given. *)
Definition first_subscription : SubscriptionClass.SubscriptionData :=
  {| SubscriptionClass.user := 8%nat;
     SubscriptionClass.plan := 3%nat;
     SubscriptionClass.razorpaySubscriptionId := "sub_2";
     SubscriptionClass.razorpayCustomerId := "cust_8";
     SubscriptionClass.status := None;
     SubscriptionClass.billingCycle := "yearly";
     SubscriptionClass.startDate := 2000;
     SubscriptionClass.endDate := None;
     SubscriptionClass.nextBillingDate := None;
     SubscriptionClass.usage := S.usage (Scenario.subscription "active");
     SubscriptionClass.features := Scenario.no_features |}.

(** The notification the route [cancelSubscription] creates. *)
Definition cancellation_notice (userId : ObjectId) (s : S.doc) : N.fields :=
  {| N.title := "Subscription Cancelled";
     N.message := Str "Your subscription has been cancelled successfully";
     N.type := "warning";
     N.recipient := userId;
     N.relatedEntity := {| N.entity_type := "subscription"; N.entity_id := S._id s |};
     N.priority := "medium" |}.

(** A gateway that performs every cancellation, one that performs none, and
    one that knows the payment [pay_X] in the given status. *)
Definition gateway_up : string -> bool := fun _ => true.

Definition gateway_down : string -> bool := fun _ => false.

Definition gateway_payment (status : string) (paymentId : string)
  : option razorpayService.RemotePayment :=
  if (paymentId =? "pay_X")%string then
    Some {| razorpayService.amount := 49900;
            razorpayService.currency := Some "INR";
            razorpayService.status := status;
            razorpayService.method := Some "card";
            razorpayService.created_at := 6;
            razorpayService.card := None |}
  else None.

(** The document [updatePaymentStatus] saves at time [t] for the stored
    payment [p]: the status, the date of the status, the additional data,
    then the note of the change. *)
Definition status_changed_payment (p : P.doc) (status : string)
    (additionalData : list P.change) (t : Date) : Payment.Doc :=
  Payment.assign (P.PushNote (status_note (P.status (P.data p)) status t))
    (fold_left (fun d c => Payment.assign c d) additionalData
       (if (status =? "captured")%string
        then Payment.assign (P.SetPaidAt t)
               (Payment.assign (P.SetStatus status) (hydrate p))
        else if (status =? "failed")%string
        then Payment.assign (P.SetFailedAt t)
               (Payment.assign (P.SetStatus status) (hydrate p))
        else Payment.assign (P.SetStatus status) (hydrate p))).

(** The document [addNote] saves at time [t] from the payment [p] as it was
    loaded. *)
Definition noted_payment (p : P.doc) (content : string) (t : Date) : Payment.Doc :=
  Payment.assign (P.PushNote (note_at content t)) (hydrate p).

(** The additional data [handlePaymentCaptured] and [handlePaymentFailed]
    pass to [updatePaymentStatus], and the notifications they create. *)
Definition captured_data (pay : R.PaymentEntity) : list P.change :=
  [P.SetPaidAt (RazorpayWebhookService.seconds (R.created_at pay));
   P.SetPaymentMethod
     {| P.type := R.method pay;
        P.card :=
          option_map
            (fun c => {| P.last4 := R.last4 c; P.network := R.network c;
                         P.card_type := R.type c |})
            (R.card pay) |}].

Definition failed_data (pay : R.PaymentEntity) : list P.change :=
  [P.SetFailedAt (RazorpayWebhookService.seconds (R.created_at pay));
   P.SetError
     {| P.error_code := R.error_code pay;
        P.error_description := R.error_description pay;
        P.error_source := R.error_source pay;
        P.error_step := R.error_step pay;
        P.error_reason := R.error_reason pay |}].

Definition captured_notice (pay : R.PaymentEntity) (p : P.doc) : N.fields :=
  RazorpayWebhookService.payment_notification "Payment Successful"
    (Rupees "Your payment of " (RazorpayWebhookService.rupees (R.amount pay))
       " has been processed successfully")
    "success" p.

Definition failed_notice (pay : R.PaymentEntity) (p : P.doc) : N.fields :=
  RazorpayWebhookService.payment_notification "Payment Failed"
    (Rupees "Your payment of " (RazorpayWebhookService.rupees (R.amount pay))
       " failed. Please try again.")
    "error" p.

(** The payment [pay_X] of [Scenario.charge], declined by the bank. *)
Definition declined_charge : R.PaymentEntity :=
  {| R.id := "pay_X";
     R.order_id := Some "order_1";
     R.amount := 49900;
     R.currency := Some "INR";
     R.method := Some "card";
     R.created_at := 6;
     R.card := None;
     R.error_code := Some "BAD_REQUEST_ERROR";
     R.error_description := Some "Card declined";
     R.error_source := Some "bank";
     R.error_step := Some "payment_authorization";
     R.error_reason := Some "payment_failed" |}.

(** The document a status handler saves at time [t] for its own entry: the
    subscription [s] as it was loaded before the status change, with the
    entry pushed. *)
Definition stale_entry_document (s : S.doc) (action details : string) (t : Date)
  : Subscription.Doc :=
  Subscription.assign (S.PushHistory (handler_entry action details t)) (hydrate s).

(** The notifications [handleSubscriptionCancelled] and
    [handleSubscriptionPaused] create. *)
Definition cancelled_notice (s : S.doc) : N.fields :=
  RazorpayWebhookService.subscription_notification "Subscription Cancelled"
    "Your subscription has been cancelled. You can still use the service until the current billing period ends."
    "warning" "medium" s.

Definition paused_notice (s : S.doc) : N.fields :=
  RazorpayWebhookService.subscription_notification "Subscription Paused"
    "Your subscription has been paused. You can resume it anytime."
    "info" "medium" s.

(** The document [createSubscription] inserts at time [t] in a store that
    holds [stored]. *)
Definition created_subscription (stored : list S.doc)
    (data : SubscriptionClass.SubscriptionData) (t : Date) : S.doc :=
  SubscriptionClass.document (fresh (map S._id stored)) data
    [handler_entry "created" "Subscription created" t].

(** A second subscription asked for user 8 while [first_subscription] is. *)
Definition second_subscription : SubscriptionClass.SubscriptionData :=
  {| SubscriptionClass.user := 8%nat;
     SubscriptionClass.plan := 3%nat;
     SubscriptionClass.razorpaySubscriptionId := "sub_3";
     SubscriptionClass.razorpayCustomerId := "cust_8";
     SubscriptionClass.status := None;
     SubscriptionClass.billingCycle := "monthly";
     SubscriptionClass.startDate := 2000;
     SubscriptionClass.endDate := None;
     SubscriptionClass.nextBillingDate := None;
     SubscriptionClass.usage := S.usage (Scenario.subscription "active");
     SubscriptionClass.features := Scenario.no_features |}.

(** The payment the route [verifyPayment] records at time [t] for what
    Razorpay answers. *)
Definition verified_payment (userId : ObjectId) (orderId paymentId : string)
    (remote : razorpayService.RemotePayment) (t : Date) : P.fields :=
  {| P.user := userId;
     P.subscription := None;
     P.razorpayPaymentId := paymentId;
     P.razorpayOrderId := Some orderId;
     P.amount := Qmake (razorpayService.amount remote) 100;
     P.currency := razorpayService.currency remote;
     P.status := if (razorpayService.status remote =? "captured")%string
                 then "captured" else "failed";
     P.paymentMethod :=
       {| P.type := razorpayService.method remote;
          P.card :=
            option_map
              (fun c => {| P.last4 := R.last4 c; P.network := R.network c;
                           P.card_type := R.type c |})
              (razorpayService.card remote) |};
     P.paidAt := if (razorpayService.status remote =? "captured")%string
                 then Some (razorpayService.created_at remote * 1000)
                 else None;
     P.failedAt := None;
     P.description := "Payment for subscription plan";
     P.error := None;
     P.notes := [];
     P.receipt_number := Some (P.RCP t) |}.

(** A stand-in for the HMAC, for the examples only: the key and the body
    side by side. *)
Definition toy_hmac (key body : string) : string := key ^^ ":" ^^ body.

(** * Properties *)

(** ** Collections *)

Section Find.

Context {D : Type}.

Lemma find_existsb (p : D -> bool) (l : list D) (d : D) :
  List.find p l = Some d -> existsb p l = true.
Proof.
  induction l as [|x l IH]; simpl; [discriminate|].
  destruct (p x); auto.
Qed.

Lemma existsb_false_find (p : D -> bool) (l : list D) :
  existsb p l = false -> List.find p l = None.
Proof.
  induction l as [|x l IH]; simpl; [reflexivity|].
  destruct (p x); simpl; [discriminate|auto].
Qed.

Lemma find_none_existsb (p : D -> bool) (l : list D) :
  List.find p l = None -> existsb p l = false.
Proof.
  induction l as [|x l IH]; simpl; [reflexivity|].
  destruct (p x); simpl; [discriminate|auto].
Qed.

Lemma find_holds (p : D -> bool) (l : list D) (d : D) :
  List.find p l = Some d -> p d = true /\ In d l.
Proof.
  intros H. apply find_some in H. tauto.
Qed.

End Find.

Section Collections.

Context {D : Type} (id_of : D -> ObjectId).

Variable id : ObjectId.
Variable f : D -> D.
Hypothesis f_keeps_id : forall d, id_of d = id -> id_of (f d) = id.

Lemma update_one_ids (l : list D) :
  map id_of (update_one id_of id f l) = map id_of l.
Proof.
  induction l as [|x l IH]; simpl; [reflexivity|].
  destruct (Nat.eqb (id_of x) id) eqn:E; simpl; [|congruence].
  apply Nat.eqb_eq in E. now rewrite (f_keeps_id x E), E.
Qed.

Lemma find_update_one (l : list D) (d : D) :
  List.find (has_id id_of id) l = Some d ->
  List.find (has_id id_of id) (update_one id_of id f l) = Some (f d).
Proof.
  unfold has_id. induction l as [|x l IH]; simpl; [discriminate|].
  destruct (Nat.eqb (id_of x) id) eqn:E; simpl.
  - intros [= ->]. apply Nat.eqb_eq in E.
    now rewrite (f_keeps_id d E), Nat.eqb_refl.
  - now rewrite E.
Qed.


(** A property of the documents that [f] keeps selects the same first
    document, changed by [f] when it is the updated one. *)
Lemma find_update_one_stable (p : D -> bool) (l : list D) (d : D) :
  (forall x, p (f x) = p x) ->
  NoDup (map id_of l) ->
  List.find p l = Some d ->
  List.find p (update_one id_of id f l)
  = Some (if Nat.eqb (id_of d) id then f d else d).
Proof.
  intros Hp. induction l as [|x l IH]; simpl; [discriminate|].
  intros Hnd Hfind. inversion Hnd as [|? ? Hnotin Hnd']; subst.
  destruct (Nat.eqb (id_of x) id) eqn:E; simpl.
  - rewrite Hp. destruct (p x) eqn:Px.
    + injection Hfind as <-. now rewrite E.
    + destruct (Nat.eqb (id_of d) id) eqn:E'; [|exact Hfind].
      exfalso. apply Hnotin. apply Nat.eqb_eq in E, E'.
      apply find_some in Hfind. destruct Hfind as [Hin _].
      rewrite E, <- E'. now apply in_map.
  - destruct (p x) eqn:Px.
    + injection Hfind as <-. now rewrite E.
    + now apply IH.
Qed.

End Collections.

(** With distinct identifiers, the first document that satisfies [p] is the
    document of its identifier. *)
Lemma find_by_id_of_find {D} (id_of : D -> ObjectId) (p : D -> bool) (l : list D)
    (d : D) :
  NoDup (map id_of l) ->
  List.find p l = Some d ->
  List.find (has_id id_of (id_of d)) l = Some d.
Proof.
  unfold has_id. induction l as [|x l IH]; simpl; [discriminate|].
  intros Hnd Hfind. inversion Hnd as [|? ? Hnotin Hnd']; subst.
  destruct (p x) eqn:Px.
  - injection Hfind as <-. now rewrite Nat.eqb_refl.
  - destruct (Nat.eqb (id_of x) (id_of d)) eqn:E.
    + exfalso. apply Hnotin. apply Nat.eqb_eq in E. rewrite E.
      apply find_some in Hfind. now apply in_map.
    + now apply IH.
Qed.

Lemma subscription_flush_id (d : Subscription.Doc) (s : subscriptionSchema.doc) :
  subscriptionSchema._id (flush subscriptionSchema.apply d s) = subscriptionSchema._id s.
Proof.
  unfold flush. generalize dependent s.
  induction (pending d) as [|c l IH]; intros s; simpl; [reflexivity|].
  now rewrite IH.
Qed.

(** ** The monad *)

Lemma overlapped_ok {A B} (firstA firstB : M A) (nextA nextB : A -> M B)
    (w w1 w2 w3 w4 : World) (a b : A) (outcomeA outcomeB : Result B) :
  firstA w = (Ok a, w1) ->
  firstB w1 = (Ok b, w2) ->
  nextA a w2 = (outcomeA, w3) ->
  nextB b w3 = (outcomeB, w4) ->
  overlapped firstA firstB nextA nextB w = (Ok (outcomeA, outcomeB), w4).
Proof.
  intros HA HB HnA HnB. unfold overlapped, settled, bind, ret.
  rewrite HA. cbn [fst snd]. rewrite HB. cbn [fst snd].
  rewrite HnA. cbn [fst snd]. now rewrite HnB.
Qed.

Lemma bind_ok {A B} (m : M A) (k : A -> M B) (w w' : World) (a : A) :
  m w = (Ok a, w') -> bind m k w = k a w'.
Proof. unfold bind. now intros ->. Qed.

(** ** The subscription model *)

Section SubscriptionModel.

Variable accepts : StoreWrite -> bool.

Lemma findById_stored (id : ObjectId) (w : World) :
  Subscription.findById id w = (Ok (option_map hydrate (stored_subscription w id)), w).
Proof. reflexivity. Qed.

Lemma findOne_razorpay_stored (rid : string) (w : World) :
  Subscription.findOne_razorpaySubscriptionId rid w
  = (Ok (option_map hydrate (subscription_of_razorpay w rid)), w).
Proof. reflexivity. Qed.

Lemma save_accepted (d : Subscription.Doc) (w : World) (s : S.doc) :
  accepts (SaveSubscription (paths d)) = true ->
  stored_subscription w (S._id (paths d)) = Some s ->
  Subscription.save accepts d w = (Ok (saved d), subscription_saved d w).
Proof.
  intros Hacc Hs. unfold Subscription.save. rewrite Hacc.
  unfold bind, get_db, put_db, ret. cbn beta iota.
  apply find_existsb in Hs. unfold Subscription.S._id in *.
  now rewrite Hs.
Qed.

Lemma save_refused (d : Subscription.Doc) (w : World) :
  accepts (SaveSubscription (paths d)) = false ->
  Subscription.save accepts d w
  = (Throw (ValidationError (SaveSubscription (paths d))), w).
Proof. intros Hacc. unfold Subscription.save. now rewrite Hacc. Qed.

Lemma stored_after_save (d : Subscription.Doc) (w : World) (s : S.doc) :
  stored_subscription w (S._id (paths d)) = Some s ->
  stored_subscription (subscription_saved d w) (S._id (paths d))
  = Some (flush S.apply d s).
Proof.
  intros Hs. unfold stored_subscription, subscription_saved. simpl.
  apply (find_update_one S._id); [|exact Hs].
  intros x Hx. now rewrite subscription_flush_id.
Qed.


Lemma updateSubscriptionStatus_found (id : ObjectId) (status : string)
    (details : option string) (w : World) (s : S.doc) :
  stored_subscription w id = Some s ->
  Subscription.updateSubscriptionStatus accepts id status details w
  = Subscription.save accepts (status_document s status details (clock w)) w.
Proof.
  intros Hs. unfold Subscription.updateSubscriptionStatus.
  rewrite (bind_ok _ _ _ _ _ (findById_stored id w)), Hs. cbn [option_map].
  unfold status_document, status_entry, bind, now, ret. cbn beta iota.
  destruct (status =? "cancelled")%string; reflexivity.
Qed.

Lemma updateSubscriptionStatus_missing (id : ObjectId) (status : string)
    (details : option string) (w : World) :
  stored_subscription w id = None ->
  Subscription.updateSubscriptionStatus accepts id status details w
  = (Throw (APIError "Subscription not found" NOT_FOUND), w).
Proof.
  intros Hs. unfold Subscription.updateSubscriptionStatus.
  now rewrite (bind_ok _ _ _ _ _ (findById_stored id w)), Hs.
Qed.

Lemma status_document_id (s : S.doc) (status : string) (details : option string)
    (t : Date) :
  S._id (paths (status_document s status details t)) = S._id s.
Proof. unfold status_document. destruct (status =? "cancelled")%string; reflexivity. Qed.

Lemma status_document_flush (s : S.doc) (status : string) (details : option string)
    (t : Date) :
  flush S.apply (status_document s status details t) s
  = paths (status_document s status details t).
Proof. unfold status_document. destruct (status =? "cancelled")%string; reflexivity. Qed.

Lemma stored_id (w : World) (id : ObjectId) (s : S.doc) :
  stored_subscription w id = Some s -> S._id s = id.
Proof.
  intros H. apply find_holds in H. destruct H as [H _].
  cbv beta in H. apply Nat.eqb_eq in H. exact H.
Qed.

(** A document loaded as [s], changed and saved: the store holds its paths. *)
Lemma save_loaded (d : Subscription.Doc) (w : World) (s : S.doc) :
  accepts (SaveSubscription (paths d)) = true ->
  stored_subscription w (S._id s) = Some s ->
  S._id (paths d) = S._id s ->
  flush S.apply d s = paths d ->
  Subscription.save accepts d w = (Ok (saved d), subscription_saved d w)
  /\ stored_subscription (subscription_saved d w) (S._id s) = Some (paths d).
Proof.
  intros Hacc Hs Hid Hflush. split.
  - apply (save_accepted d w s Hacc). now rewrite Hid.
  - rewrite <- Hid at 1. rewrite (stored_after_save d w s) by now rewrite Hid.
    now rewrite Hflush.
Qed.

Lemma cancelSubscription_found (id : ObjectId) (reason feedback : option string)
    (cancelledBy : option ObjectId) (w : World) (s : S.doc) :
  stored_subscription w id = Some s ->
  Subscription.cancelSubscription accepts id reason feedback cancelledBy w
  = Subscription.save accepts
      (cancelled_document s reason feedback cancelledBy (clock w)) w.
Proof.
  intros Hs. unfold Subscription.cancelSubscription.
  rewrite (bind_ok _ _ _ _ _ (findById_stored id w)), Hs. reflexivity.
Qed.

Lemma renewSubscription_found (id : ObjectId) (nextBillingDate : Date) (w : World)
    (s : S.doc) :
  stored_subscription w id = Some s ->
  Subscription.renewSubscription accepts id nextBillingDate w
  = Subscription.save accepts (renewed_document s nextBillingDate (clock w)) w.
Proof.
  intros Hs. unfold Subscription.renewSubscription.
  rewrite (bind_ok _ _ _ _ _ (findById_stored id w)), Hs. reflexivity.
Qed.

(** Each lifecycle method of the model appends one entry to the history of
    the subscription it is called on. *)
Lemma lifecycle_methods_append_one_entry (w : World) (s : S.doc) :
  stored_subscription w (S._id s) = Some s ->
  (forall status details,
      accepts (SaveSubscription (paths (status_document s status details (clock w))))
      = true ->
      exists d w' s',
        Subscription.updateSubscriptionStatus accepts (S._id s) status details w
        = (Ok d, w')
        /\ stored_subscription w' (S._id s) = Some s'
        /\ S.history s'
           = S.history s ++ [status_entry (S.status s) status details (clock w)])
  /\ (forall reason feedback cancelledBy,
         accepts (SaveSubscription
                    (paths (cancelled_document s reason feedback cancelledBy (clock w))))
         = true ->
         exists d w' s' entry,
           Subscription.cancelSubscription accepts (S._id s) reason feedback
             cancelledBy w = (Ok d, w')
           /\ stored_subscription w' (S._id s) = Some s'
           /\ S.history s' = S.history s ++ [entry]
           /\ S.action entry = "cancelled")
  /\ (forall nextBillingDate,
         accepts (SaveSubscription
                    (paths (renewed_document s nextBillingDate (clock w))))
         = true ->
         exists d w' s' entry,
           Subscription.renewSubscription accepts (S._id s) nextBillingDate w
           = (Ok d, w')
           /\ stored_subscription w' (S._id s) = Some s'
           /\ S.history s' = S.history s ++ [entry]
           /\ S.action entry = "renewed").
Proof.
  intros Hs. split; [|split].
  - intros status details Hacc.
    set (d := status_document s status details (clock w)).
    destruct (save_loaded d w s Hacc Hs) as [Hcall Hstored].
    + apply status_document_id.
    + apply status_document_flush.
    + exists (saved d), (subscription_saved d w), (paths d).
      rewrite (updateSubscriptionStatus_found (S._id s) status details w s Hs).
      split; [exact Hcall|]. split; [exact Hstored|].
      unfold d, status_document. destruct (status =? "cancelled")%string; reflexivity.
  - intros reason feedback cancelledBy Hacc.
    set (d := cancelled_document s reason feedback cancelledBy (clock w)).
    destruct (save_loaded d w s Hacc Hs eq_refl eq_refl) as [Hcall Hstored].
    eexists (saved d), (subscription_saved d w), (paths d), _.
    rewrite (cancelSubscription_found (S._id s) reason feedback cancelledBy w s Hs).
    split; [exact Hcall|]. split; [exact Hstored|]. split; reflexivity.
  - intros nextBillingDate Hacc.
    set (d := renewed_document s nextBillingDate (clock w)).
    destruct (save_loaded d w s Hacc Hs eq_refl eq_refl) as [Hcall Hstored].
    eexists (saved d), (subscription_saved d w), (paths d), _.
    rewrite (renewSubscription_found (S._id s) nextBillingDate w s Hs).
    split; [exact Hcall|]. split; [exact Hstored|]. split; reflexivity.
Qed.

End SubscriptionModel.

(** ** Status changes: [Subscription.updateSubscriptionStatus] *)

(** C10.  A call of [updateSubscriptionStatus] on a stored subscription, when
    the store takes the document the call saves, with a target status
    other than ['cancelled'], appends to the history one
    entry whose action is ['activated'], whatever the target status is
    (['paused'], ['past_due'], ['trialing'], ...); with the target
    ['cancelled'] the action of the entry is ['cancelled']. *)
Theorem updateSubscriptionStatus_history_action :
  forall (accepts : StoreWrite -> bool) (w : World) (subscriptionId : ObjectId)
         (status : string) (details : option string) (s : S.doc),
    stored_subscription w subscriptionId = Some s ->
    accepts (SaveSubscription (paths (status_document s status details (clock w))))
    = true ->
    exists (d : Subscription.Doc) (w' : World) (s' : S.doc) (entry : S.HistoryEntry),
      Subscription.updateSubscriptionStatus accepts subscriptionId status details w
      = (Ok d, w')
      /\ stored_subscription w' subscriptionId = Some s'
      /\ S.history s' = S.history s ++ [entry]
      /\ (status <> "cancelled" -> S.action entry = "activated")
      /\ (status = "cancelled" -> S.action entry = "cancelled").
Proof.
  intros accepts w id status details s Hs Hacc.
  pose (d := status_document s status details (clock w)).
  assert (Hid : S._id (paths d) = id).
  { unfold d. rewrite status_document_id. now apply (stored_id w). }
  exists (saved d), (subscription_saved d w), (paths d),
    (status_entry (S.status s) status details (clock w)).
  split; [|split; [|split; [|split]]].
  - rewrite (updateSubscriptionStatus_found accepts id status details w s Hs).
    apply (save_accepted accepts d w s); [exact Hacc | now rewrite Hid].
  - rewrite <- Hid at 1. rewrite (stored_after_save d w s) by now rewrite Hid.
    unfold d. now rewrite status_document_flush.
  - unfold d, status_document. destruct (status =? "cancelled")%string; reflexivity.
  - intros Hne. unfold status_entry. simpl.
    destruct (String.eqb_spec status "cancelled"); [contradiction|reflexivity].
  - intros ->. reflexivity.
Qed.

Lemma updateSubscriptionStatus_history_action_witness :
  stored_subscription (Scenario.world "active" 2000) 1%nat
  = Some (Scenario.subscription "active")
  /\ schema_accepts
       (SaveSubscription
          (paths (status_document (Scenario.subscription "active") "paused" None 2000)))
     = true
  /\ exists d w' s' entry,
       Subscription.updateSubscriptionStatus schema_accepts 1%nat "paused" None
         (Scenario.world "active" 2000) = (Ok d, w')
       /\ stored_subscription w' 1%nat = Some s'
       /\ S.history s' = S.history (Scenario.subscription "active") ++ [entry]
       /\ S.action entry = "activated".
Proof.
  assert (Hs : stored_subscription (Scenario.world "active" 2000) 1%nat
               = Some (Scenario.subscription "active")) by reflexivity.
  assert (Hacc : schema_accepts
                   (SaveSubscription
                      (paths (status_document (Scenario.subscription "active")
                                "paused" None 2000)))
                 = true) by reflexivity.
  split; [exact Hs|]. split; [exact Hacc|].
  destruct (updateSubscriptionStatus_history_action schema_accepts
              (Scenario.world "active" 2000) 1%nat "paused" None
              (Scenario.subscription "active") Hs Hacc)
    as (d & w' & s' & entry & Hcall & Hstored & Hhist & Hact & _).
  exists d, w', s', entry. repeat split; try assumption.
  apply Hact. discriminate.
Defined.




(** ** Usage counters: [checkUsageLimit] and [updateUsage] *)


Lemma counter_set_same (r : S.Resource) (c : S.Counter) (u : S.Usage) :
  S.counter r (S.set_counter r c u) = c.
Proof. destruct r; reflexivity. Qed.

Lemma counter_set_other (r r' : S.Resource) (c : S.Counter) (u : S.Usage) :
  r' <> r -> S.counter r' (S.set_counter r c u) = S.counter r' u.
Proof. destruct r, r'; intros H; try reflexivity; contradiction. Qed.

Section UsageFacts.

Variable accepts : StoreWrite -> bool.

Lemma checkUsageLimit_found (id : ObjectId) (rt : string) (w : World)
    (s : S.doc) (r : S.Resource) :
  stored_subscription w id = Some s ->
  S.resource_of_key rt = Some r ->
  let c := S.counter r (S.usage s) in
  Subscription.checkUsageLimit id rt w
  = (Ok (if S.limit c =? -1
         then {| Subscription.allowed := true; Subscription.reason := "Unlimited";
                 Subscription.current := None; Subscription.limit := None |}
         else if S.current c <? S.limit c
         then {| Subscription.allowed := true; Subscription.reason := "Within limit";
                 Subscription.current := None; Subscription.limit := None |}
         else limit_exceeded c), w).
Proof.
  intros Hs Hr c. unfold Subscription.checkUsageLimit.
  rewrite (bind_ok _ _ _ _ _ (findById_stored id w)), Hs. cbn [option_map].
  cbv iota beta. rewrite Hr.
  change (S.counter r (S.usage (paths (hydrate s)))) with c.
  destruct (S.limit c =? -1); [reflexivity|].
  destruct (S.current c <? S.limit c); reflexivity.
Qed.


Lemma updateUsage_found (id : ObjectId) (rt : string) (increment : Z) (w : World)
    (s : S.doc) (r : S.Resource) :
  stored_subscription w id = Some s ->
  S.resource_of_key rt = Some r ->
  Subscription.updateUsage accepts id rt increment w
  = Subscription.save accepts
      (usage_document s r (S.current (S.counter r (S.usage s)) + increment)) w.
Proof.
  intros Hs Hr. unfold Subscription.updateUsage.
  rewrite (bind_ok _ _ _ _ _ (findById_stored id w)), Hs. cbn [option_map].
  cbv iota beta. now rewrite Hr.
Qed.



End UsageFacts.



Lemma set_current_twice (r : S.Resource) (v v' : Z) (s : S.doc) :
  S.apply (S.SetCurrent r v') (S.apply (S.SetCurrent r v) s)
  = S.apply (S.SetCurrent r v') s.
Proof. unfold S.apply. cbn. f_equal. destruct r; reflexivity. Qed.


Section Ledger.

Variable accepts : StoreWrite -> bool.

(** [updateUsage] on a stored subscription and a key of the schema, when the
    store takes the document: the counter is set and the document saved. *)
Lemma updateUsage_accepted (id : ObjectId) (rt : string) (increment : Z) (w : World)
    (s : S.doc) (r : S.Resource) :
  stored_subscription w id = Some s ->
  S.resource_of_key rt = Some r ->
  let d := usage_document s r (S.current (S.counter r (S.usage s)) + increment) in
  accepts (SaveSubscription (paths d)) = true ->
  Subscription.updateUsage accepts id rt increment w
  = (Ok (saved d), subscription_saved d w)
  /\ stored_subscription (subscription_saved d w) id = Some (paths d)
  /\ usage_counter (subscription_saved d w) id r
     = Some (S.with_current (S.counter r (S.usage s))
               (S.current (S.counter r (S.usage s)) + increment)).
Proof.
  intros Hs Hr d Hacc. pose proof (stored_id w id s Hs) as Hid. subst id.
  rewrite (updateUsage_found accepts (S._id s) rt increment w s r Hs Hr). fold d.
  destruct (save_loaded accepts d w s Hacc Hs eq_refl eq_refl) as [Hcall Hst].
  split; [exact Hcall|]. split; [exact Hst|].
  unfold usage_counter. rewrite Hst. cbn [option_map]. f_equal.
  unfold d, usage_document. simpl. apply counter_set_same.
Qed.






End Ledger.




(** C9, as the specification states it, fails: a release of one project at
    [current = 0] leaves [current = -1]. *)
Lemma release_below_zero :
  usage_counter
    (snd (UsageLedger.release accept_all 1%nat "projects" 1
            (Scenario.world "active" 2000)))
    1%nat S.Projects
  = Some {| S.current := -1; S.limit := 2 |}
  /\ -1 < 0.
Proof. split; [reflexivity|lia]. Qed.

(** C9, amended.  [updateUsage] applies no floor: a release of [amount] (an
    update by the amount negated) on a stored subscription, for counters and
    amounts that are safe integers and when the store takes the document,
    succeeds and stores [current - amount], whether or not that is below 0;
    the limit, the other counters and the history are left as they were. *)
Theorem release_subtracts_without_floor :
  forall (accepts : StoreWrite -> bool) (w : World) (subscriptionId : ObjectId)
         (resourceType : string) (amount : Z) (r : S.Resource) (s : S.doc),
    stored_subscription w subscriptionId = Some s ->
    S.resource_of_key resourceType = Some r ->
    let c := S.counter r (S.usage s) in
    safe_integer (S.current c) ->
    safe_integer amount ->
    safe_integer (S.current c - amount) ->
    accepts (SaveSubscription (paths (usage_document s r (S.current c - amount))))
    = true ->
    exists d w' s',
      UsageLedger.release accepts subscriptionId resourceType amount w = (Ok d, w')
      /\ stored_subscription w' subscriptionId = Some s'
      /\ S.counter r (S.usage s')
         = {| S.current := S.current c - amount; S.limit := S.limit c |}
      /\ (forall r', r' <> r -> S.counter r' (S.usage s') = S.counter r' (S.usage s))
      /\ S.history s' = S.history s
      /\ S.status s' = S.status s.
Proof.
  intros accepts w id rt amount r s Hs Hr c _ _ _ Hacc.
  destruct (updateUsage_accepted accepts id rt (- amount) w s r Hs Hr Hacc)
    as (Hcall & Hst & _).
  fold c in Hcall, Hst. set (d := usage_document s r (S.current c + - amount)) in *.
  exists (saved d), (subscription_saved d w), (paths d).
  split; [exact Hcall|]. split; [exact Hst|].
  split; [|split; [|split; reflexivity]].
  - unfold d, usage_document. simpl. rewrite counter_set_same. reflexivity.
  - intros r' Hne. unfold d, usage_document. simpl. now apply counter_set_other.
Qed.

Lemma release_subtracts_without_floor_witness :
  stored_subscription (Scenario.world "active" 2000) 1%nat
  = Some (Scenario.subscription "active")
  /\ S.resource_of_key "projects" = Some S.Projects
  /\ safe_integer 0
  /\ safe_integer 1
  /\ safe_integer (0 - 1)
  /\ schema_accepts
       (SaveSubscription
          (paths (usage_document (Scenario.subscription "active") S.Projects (0 - 1))))
     = true
  /\ exists d w' s',
       UsageLedger.release schema_accepts 1%nat "projects" 1
         (Scenario.world "active" 2000) = (Ok d, w')
       /\ stored_subscription w' 1%nat = Some s'
       /\ S.counter S.Projects (S.usage s') = {| S.current := -1; S.limit := 2 |}.
Proof.
  assert (H0 : safe_integer 0) by (unfold safe_integer; lia).
  assert (H1 : safe_integer 1) by (unfold safe_integer; lia).
  assert (Hm : safe_integer (0 - 1)) by (unfold safe_integer; lia).
  split; [reflexivity|]. split; [reflexivity|]. split; [exact H0|].
  split; [exact H1|]. split; [exact Hm|]. split; [reflexivity|].
  destruct (release_subtracts_without_floor schema_accepts
              (Scenario.world "active" 2000) 1%nat "projects" 1 S.Projects
              (Scenario.subscription "active") eq_refl eq_refl H0 H1 Hm eq_refl)
    as (d & w' & s' & Hcall & Hst & Hcount & _).
  exists d, w', s'. split; [exact Hcall|]. split; [exact Hst|exact Hcount].
Defined.

(** ** Entitlement: [getUserActiveSubscription] and [getUsageStats] *)

Lemma includes_active_trialing (st : string) :
  includes ["active"; "trialing"] st = true <-> st = "active" \/ st = "trialing".
Proof.
  unfold includes. cbn [existsb]. rewrite !orb_true_iff, !String.eqb_eq.
  intuition discriminate.
Qed.

Lemma getUserActiveSubscription_selects (userId : ObjectId) (w : World) :
  Subscription.getUserActiveSubscription userId w
  = (Ok (option_map hydrate (active_subscription_of w userId)), w).
Proof. reflexivity. Qed.

Lemma getSubscriptionInfo_isActive (userId : ObjectId) (w : World) (u : U.doc) :
  stored_user w userId = Some u ->
  exists i,
    User.getSubscriptionInfo userId w = (Ok (Some i), w)
    /\ User.status i = U.subscriptionStatus u
    /\ User.expiry i = U.subscriptionExpiry u
    /\ User.isActive i = User.active_at (clock w) u.
Proof.
  intros Hu. unfold User.getSubscriptionInfo, User.findById, bind, get_db, ret, now.
  cbv beta iota. fold (stored_user w userId). rewrite Hu.
  eexists. split; [reflexivity|]. repeat split.
Qed.

(** C7, as the specification states it, fails.  At time 9999, after the
    [endDate] 5000 of the active subscription of user 7, the snapshot of that
    subscription is still answered; and for a user whose only subscription
    is cancelled the answer is the error "No active subscription found", not
    a free-tier constant. *)
Lemma entitlement_ignores_endDate :
  subscriptionController.getUsageStats 7%nat (Scenario.world "active" 9999)
  = (Ok (snapshot (Scenario.subscription "active")), Scenario.world "active" 9999)
  /\ S.endDate (Scenario.subscription "active") = Some 5000
  /\ 5000 < clock (Scenario.world "active" 9999)
  /\ subscriptionController.getUsageStats 7%nat (Scenario.world "cancelled" 2000)
     = (Throw (APIError "No active subscription found" NOT_FOUND),
        Scenario.world "cancelled" 2000).
Proof. repeat split. Qed.

(** C7, amended.  The entitlement lookup of the source, [getUsageStats] over
    [getUserActiveSubscription], answers the stored usage and features of
    the first subscription of the user whose status is ['active'] or
    ['trialing'], whatever its [endDate], and there is one exactly when the
    user has a subscription of such a status; otherwise it fails with "No
    active subscription found" (404): there is no free-tier constant.  In
    both cases the world is left as it was.  The test on the expiry is on
    the user document: [hasActiveSubscription] is true exactly when the
    user is stored, its [subscriptionStatus] is ['active'] or ['trial'] and
    its [subscriptionExpiry] is unset or later than the clock. *)
Theorem getUsageStats_of_active_status :
  forall (w : World) (userId : ObjectId),
    match active_subscription_of w userId with
    | Some s =>
        subscriptionController.getUsageStats userId w = (Ok (snapshot s), w)
        /\ In s (subscriptions (db w))
        /\ S.user s = userId
        /\ (S.status s = "active" \/ S.status s = "trialing")
    | None =>
        subscriptionController.getUsageStats userId w
        = (Throw (APIError "No active subscription found" NOT_FOUND), w)
        /\ forall s, In s (subscriptions (db w)) -> S.user s = userId ->
                     S.status s <> "active" /\ S.status s <> "trialing"
    end
    /\ exists b,
         User.hasActiveSubscription userId w = (Ok b, w)
         /\ (b = true <->
             exists u, stored_user w userId = Some u
                       /\ (U.subscriptionStatus u = "active"
                           \/ U.subscriptionStatus u = "trial")
                       /\ (U.subscriptionExpiry u = None
                           \/ exists e, U.subscriptionExpiry u = Some e /\ clock w < e)).
Proof.
  intros w uid. split.
  - unfold subscriptionController.getUsageStats.
    rewrite (bind_ok _ _ _ _ _ (getUserActiveSubscription_selects uid w)).
    destruct (active_subscription_of w uid) as [s|] eqn:Hfind; cbn [option_map].
    + apply find_holds in Hfind. destruct Hfind as [Hp Hin]. cbv beta in Hp.
      apply andb_true_iff in Hp. destruct Hp as [Hu Hst].
      apply Nat.eqb_eq in Hu. apply includes_active_trialing in Hst.
      repeat split; auto.
    + split; [reflexivity|]. intros s Hin Hu.
      unfold active_subscription_of in Hfind.
      pose proof (find_none _ _ Hfind s Hin) as Hp. cbv beta in Hp.
      rewrite Hu, Nat.eqb_refl in Hp. cbn [andb] in Hp.
      split; intros Hst; rewrite Hst in Hp; discriminate.
  - unfold User.hasActiveSubscription, User.findById, bind, get_db, ret, now.
    cbv beta iota. fold (stored_user w uid).
    destruct (stored_user w uid) as [u|] eqn:Hu.
    + exists (User.active_at (clock w) u). split; [reflexivity|].
      unfold User.active_at, includes. cbn [existsb].
      rewrite andb_true_iff, !orb_true_iff, !String.eqb_eq. split.
      * intros [Hst Hexp]. exists u. split; [reflexivity|]. split.
        -- intuition discriminate.
        -- destruct (U.subscriptionExpiry u) as [e|]; [|now left].
           right. exists e. split; [reflexivity|]. now apply Z.ltb_lt.
      * intros (u' & [= <-] & Hst & Hexp). split; [intuition|].
        destruct Hexp as [-> | (e & -> & Hlt)]; [reflexivity|].
        now apply Z.ltb_lt.
    + exists false. split; [reflexivity|]. split; [discriminate|].
      intros (u & Habs & _). discriminate.
Qed.

Lemma getUsageStats_of_active_status_witness :
  subscriptionController.getUsageStats 7%nat (Scenario.world "trialing" 9999)
  = (Ok (snapshot (Scenario.subscription "trialing")), Scenario.world "trialing" 9999)
  /\ User.hasActiveSubscription 7%nat (Scenario.world "trialing" 9999)
     = (Ok true, Scenario.world "trialing" 9999).
Proof.
  pose proof (getUsageStats_of_active_status (Scenario.world "trialing" 9999) 7%nat)
    as [H _].
  change (active_subscription_of (Scenario.world "trialing" 9999) 7%nat)
    with (Some (Scenario.subscription "trialing")) in H.
  split; [apply H|reflexivity].
Defined.

(** ** Webhook events about unknown payments and subscriptions *)

Section Orphans.

Variable accepts : StoreWrite -> bool.

Ltac run_handler H Hfind :=
  rewrite H; unfold RazorpayWebhookService.prop, bind, ret; cbv beta iota;
  rewrite Hfind; reflexivity.

Lemma payment_handlers_orphan (data : R.data) (w : World) (p : R.PaymentEntity) :
  R.payment data = Some p ->
  Payment.findOne_razorpayPaymentId (R.id p) w = (Ok None, w) ->
  RazorpayWebhookService.handlePaymentCaptured accepts data w = (Ok tt, w)
  /\ RazorpayWebhookService.handlePaymentFailed accepts data w = (Ok tt, w).
Proof.
  intros H Hfind. split.
  - unfold RazorpayWebhookService.handlePaymentCaptured. run_handler H Hfind.
  - unfold RazorpayWebhookService.handlePaymentFailed. run_handler H Hfind.
Qed.

Lemma subscription_handlers_orphan (data : R.data) (w : World)
    (s : R.SubscriptionEntity) :
  R.subscription data = Some s ->
  Subscription.findOne_razorpaySubscriptionId (R.subscription_id s) w = (Ok None, w) ->
  RazorpayWebhookService.handleSubscriptionActivated accepts data w = (Ok tt, w)
  /\ RazorpayWebhookService.handleSubscriptionCharged accepts data w = (Ok tt, w)
  /\ RazorpayWebhookService.handleSubscriptionCompleted accepts data w = (Ok tt, w)
  /\ RazorpayWebhookService.handleSubscriptionCancelled accepts data w = (Ok tt, w)
  /\ RazorpayWebhookService.handleSubscriptionPaused accepts data w = (Ok tt, w)
  /\ RazorpayWebhookService.handleSubscriptionResumed accepts data w = (Ok tt, w)
  /\ RazorpayWebhookService.handleSubscriptionHalted accepts data w = (Ok tt, w)
  /\ RazorpayWebhookService.handleSubscriptionPending accepts data w = (Ok tt, w)
  /\ RazorpayWebhookService.handleSubscriptionUpdated accepts data w = (Ok tt, w).
Proof.
  intros H Hfind. repeat split.
  - unfold RazorpayWebhookService.handleSubscriptionActivated. run_handler H Hfind.
  - unfold RazorpayWebhookService.handleSubscriptionCharged. run_handler H Hfind.
  - unfold RazorpayWebhookService.handleSubscriptionCompleted. run_handler H Hfind.
  - unfold RazorpayWebhookService.handleSubscriptionCancelled. run_handler H Hfind.
  - unfold RazorpayWebhookService.handleSubscriptionPaused. run_handler H Hfind.
  - unfold RazorpayWebhookService.handleSubscriptionResumed. run_handler H Hfind.
  - unfold RazorpayWebhookService.handleSubscriptionHalted. run_handler H Hfind.
  - unfold RazorpayWebhookService.handleSubscriptionPending. run_handler H Hfind.
  - unfold RazorpayWebhookService.handleSubscriptionUpdated. run_handler H Hfind.
Qed.

Lemma handleWebhook_of_dispatch (event : string) (data : R.data) (w : World) :
  RazorpayWebhookService.dispatch accepts event data
    (add_log w info ("Razorpay webhook received: " ^^ event))
  = (Ok tt, add_log w info ("Razorpay webhook received: " ^^ event)) ->
  RazorpayWebhookService.handleWebhook accepts event data w
  = (Ok tt, add_log w info ("Razorpay webhook received: " ^^ event)).
Proof.
  intros H. unfold RazorpayWebhookService.handleWebhook, bind, logger, try_catch.
  now rewrite H.
Qed.

End Orphans.

(** C6.  An event whose payload names a payment, or a subscription, that the
    store does not hold is processed without error and without any change to
    the database: [handleWebhook] returns, having only logged the reception
    of the event. *)
Theorem handleWebhook_orphan_event :
  forall (accepts : StoreWrite -> bool) (event : string) (data : R.data) (w : World),
    orphan event data w = true ->
    RazorpayWebhookService.handleWebhook accepts event data w
    = (Ok tt, add_log w info ("Razorpay webhook received: " ^^ event))
    /\ db (snd (RazorpayWebhookService.handleWebhook accepts event data w)) = db w.
Proof.
  intros accepts event data w Horphan.
  assert (Hcall : RazorpayWebhookService.handleWebhook accepts event data w
                  = (Ok tt, add_log w info ("Razorpay webhook received: " ^^ event))).
  { apply handleWebhook_of_dispatch.
    set (w1 := add_log w info _).
    unfold orphan in Horphan.
    destruct (includes payment_events event) eqn:Hpay.
    - destruct (R.payment data) as [p|] eqn:Hp; [|discriminate].
      apply negb_true_iff, existsb_false_find in Horphan.
      assert (Hfind : Payment.findOne_razorpayPaymentId (R.id p) w1 = (Ok None, w1)).
      { unfold Payment.findOne_razorpayPaymentId, Payment.find, bind, get_db, ret.
        cbv beta iota. change (payments (db w1)) with (payments (db w)).
        now rewrite Horphan. }
      destruct (payment_handlers_orphan accepts data w1 p Hp Hfind) as [Hc Hf].
      unfold includes, payment_events in Hpay. cbn [existsb] in Hpay.
      rewrite !orb_true_iff, !String.eqb_eq in Hpay.
      destruct Hpay as [-> | [-> | Habs]]; [exact Hc | exact Hf | discriminate].
    - destruct (includes subscription_events event) eqn:Hsub; [|discriminate].
      destruct (R.subscription data) as [s|] eqn:Hs; [|discriminate].
      apply negb_true_iff, existsb_false_find in Horphan.
      assert (Hfind : Subscription.findOne_razorpaySubscriptionId
                        (R.subscription_id s) w1 = (Ok None, w1)).
      { unfold Subscription.findOne_razorpaySubscriptionId, Subscription.find,
          bind, get_db, ret.
        cbv beta iota. change (subscriptions (db w1)) with (subscriptions (db w)).
        now rewrite Horphan. }
      destruct (subscription_handlers_orphan accepts data w1 s Hs Hfind)
        as (H1 & H2 & H3 & H4 & H5 & H6 & H7 & H8 & H9).
      unfold includes, subscription_events in Hsub. cbn [existsb] in Hsub.
      rewrite !orb_true_iff, !String.eqb_eq in Hsub.
      destruct Hsub
        as [-> | [-> | [-> | [-> | [-> | [-> | [-> | [-> | [-> | Habs]]]]]]]]];
        [exact H1 | exact H2 | exact H3 | exact H4 | exact H5 | exact H6
        | exact H7 | exact H8 | exact H9 | discriminate]. }
  split; [exact Hcall|]. now rewrite Hcall.
Qed.

Lemma handleWebhook_orphan_event_witness :
  orphan "subscription.cancelled"
    {| R.payment := None;
       R.subscription :=
         Some {| R.subscription_id := "sub_unknown"; R.current_end := 9 |} |}
    (Scenario.world "active" 2000) = true
  /\ RazorpayWebhookService.handleWebhook accept_all "subscription.cancelled"
       {| R.payment := None;
          R.subscription :=
            Some {| R.subscription_id := "sub_unknown"; R.current_end := 9 |} |}
       (Scenario.world "active" 2000)
     = (Ok tt,
        add_log (Scenario.world "active" 2000) info
          "Razorpay webhook received: subscription.cancelled").
Proof.
  split; [reflexivity|].
  apply (handleWebhook_orphan_event accept_all "subscription.cancelled"
           {| R.payment := None;
              R.subscription :=
                Some {| R.subscription_id := "sub_unknown"; R.current_end := 9 |} |}
           (Scenario.world "active" 2000)).
  reflexivity.
Defined.

(** ** The signature of a webhook *)

Lemma length_append (a b : string) :
  String.length (a ^^ b) = (String.length a + String.length b)%nat.
Proof. induction a as [|c a IH]; simpl; [reflexivity|now rewrite IH]. Qed.

Lemma eqb_append_char (a : string) : (a =? a ^^ "x")%string = false.
Proof.
  apply String.eqb_neq. intros H.
  apply (f_equal String.length) in H. rewrite length_append in H. simpl in H. lia.
Qed.

(** [verifyWebhookSignature] answers [true] exactly for the hexadecimal
    HMAC-SHA256 of the body under the webhook secret, and never throws. *)
Lemma verifyWebhookSignature_true_iff (hmac : string -> string -> string)
    (secret body signature : option string) (w : World) :
  exists b w',
    RazorpayService.verifyWebhookSignature hmac secret body signature w = (Ok b, w')
    /\ db w' = db w
    /\ (b = true <->
        exists key payload,
          secret = Some key /\ body = Some payload
          /\ signature = Some (hmac key payload)).
Proof.
  unfold RazorpayService.verifyWebhookSignature, try_catch.
  destruct secret as [key|], body as [payload|];
    try (exists false; eexists; split; [reflexivity|]; split; [reflexivity|];
         split; [discriminate|]; intros (k & p & H1 & H2 & _); discriminate).
  destruct signature as [sig|]; cbn.
  - exists (hmac key payload =? sig)%string, w. split; [reflexivity|].
    split; [reflexivity|]. rewrite String.eqb_eq. split.
    + intros <-. now exists key, payload.
    + intros (k & p & [= <-] & [= <-] & [= ->]). reflexivity.
  - exists false, w. split; [reflexivity|]. split; [reflexivity|].
    split; [discriminate|]. intros (k & p & _ & _ & H). discriminate.
Qed.

(** C4.  The code at the failing input.  Whatever the HMAC function, the
    secret and the body, the signature altered by one character is refused
    by [verifyWebhookSignature]; but [handleWebhook] takes the event and its
    data only, verifies nothing, and processes the event: the subscription
    of the payload is cancelled. *)
Theorem handleWebhook_processes_unverified_event :
  forall (hmac : string -> string -> string) (secret body : string),
    let w := Scenario.world "active" 2000 in
    let tampered := Some (hmac secret body ^^ "x") in
    let delivery :=
      RazorpayWebhookService.handleWebhook accept_all "subscription.cancelled"
        Scenario.event_data w in
    RazorpayService.verifyWebhookSignature hmac (Some secret) (Some body) tampered w
    = (Ok false, w)
    /\ option_map S.status (stored_subscription (snd delivery) 1%nat)
       = Some "cancelled"
    /\ option_map U.subscriptionStatus (stored_user (snd delivery) 7%nat)
       = Some "cancelled".
Proof.
  intros hmac secret body. cbv zeta. split.
  - unfold RazorpayService.verifyWebhookSignature, try_catch, ret.
    now rewrite eqb_append_char.
  - repeat split.
Qed.

(** ** Users, notifications and payments *)

Section Writes.

Variable accepts : StoreWrite -> bool.

Lemma user_update_found (id : ObjectId) (status : string) (expiryDate : option Date)
    (w : World) (u : U.doc) :
  stored_user w id = Some u ->
  accepts (SaveUser (user_with u status expiryDate)) = true ->
  User.updateSubscriptionStatus accepts id status expiryDate w
  = (Ok (user_with u status expiryDate), user_saved (user_with u status expiryDate) w).
Proof.
  intros Hu Hacc. unfold User.updateSubscriptionStatus, User.findById.
  unfold bind at 1. unfold bind at 1. unfold get_db, ret. cbv beta iota.
  fold (stored_user w id). rewrite Hu.
  change (User.save accepts (user_with u status expiryDate) w
          = (Ok (user_with u status expiryDate),
             user_saved (user_with u status expiryDate) w)).
  unfold User.save. rewrite Hacc. unfold bind, get_db, put_db, ret. cbv beta iota.
  assert (Hex : existsb (fun x => Nat.eqb (U._id x) (U._id (user_with u status expiryDate)))
                  (users (db w)) = true).
  { apply (find_existsb _ _ u).
    assert (Hid : U._id u = id).
    { apply find_holds in Hu. destruct Hu as [Hu _]. cbv beta in Hu.
      now apply Nat.eqb_eq in Hu. }
    cbn [user_with U._id]. rewrite Hid. exact Hu. }
  now rewrite Hex.
Qed.

Lemma stored_user_saved (u' : U.doc) (w : World) (u : U.doc) :
  stored_user w (U._id u') = Some u ->
  stored_user (user_saved u' w) (U._id u') = Some u'.
Proof.
  intros Hu. unfold stored_user, user_saved. simpl.
  exact (find_update_one U._id (U._id u') (fun _ => u') (fun _ _ => eq_refl)
           (users (db w)) u Hu).
Qed.

Lemma createNotification_outcome (n : N.fields) (w : World) :
  Notification.createNotification accepts n w
  = if accepts (SaveNotification n)
    then (Ok {| N._id := fresh (map N._id (notifications (db w)));
                N.data := n; N.status := "unread" |},
          notification_created n w)
    else (Throw (ValidationError (SaveNotification n)), w).
Proof.
  unfold Notification.createNotification.
  destruct (accepts (SaveNotification n)); reflexivity.
Qed.

Lemma payment_find_stored (pid : string) (w : World) :
  Payment.findOne_razorpayPaymentId pid w
  = (Ok (option_map hydrate (payment_of_razorpay w pid)), w).
Proof. reflexivity. Qed.

Lemma createPayment_new (p : P.fields) (w : World) :
  P.receipt_number p = None ->
  accepts (SavePayment (Payment.with_receipt p (P.RCP (clock w)))) = true ->
  payment_of_razorpay w (P.razorpayPaymentId p) = None ->
  exists d,
    Payment.createPayment accepts p w
    = (Ok d, payment_created (Payment.with_receipt p (P.RCP (clock w))) w).
Proof.
  intros Hr Hacc Hnone. unfold Payment.createPayment. rewrite Hr.
  unfold bind at 1. unfold now. cbv beta iota.
  unfold Payment.create. rewrite Hacc. unfold bind, get_db, put_db, ret. cbv beta iota.
  apply find_none_existsb in Hnone. cbn [Payment.with_receipt P.razorpayPaymentId].
  unfold payment_of_razorpay in Hnone. rewrite Hnone. eexists. reflexivity.
Qed.

End Writes.

(** ** The handler of [subscription.activated] *)

Section Activation.

Variable accepts : StoreWrite -> bool.

Lemma stored_of_razorpay (w : World) (rid : string) (s : S.doc) :
  distinct_subscription_ids w ->
  subscription_of_razorpay w rid = Some s ->
  stored_subscription w (S._id s) = Some s.
Proof.
  intros Hnd Hfind. exact (find_by_id_of_find S._id _ _ s Hnd Hfind).
Qed.

Lemma updateSubscriptionStatus_accepted (status : string) (details : option string)
    (w : World) (s : S.doc) :
  stored_subscription w (S._id s) = Some s ->
  accepts (SaveSubscription (paths (status_document s status details (clock w))))
  = true ->
  Subscription.updateSubscriptionStatus accepts (S._id s) status details w
  = (Ok (saved (status_document s status details (clock w))),
     subscription_saved (status_document s status details (clock w)) w).
Proof.
  intros Hs Hacc. rewrite (updateSubscriptionStatus_found accepts _ status details w s Hs).
  apply (save_accepted accepts _ w s); [exact Hacc|].
  now rewrite status_document_id.
Qed.

Lemma push_history_and_save_accepted (d : Subscription.Doc) (action : string)
    (details : Text) (w : World) (s : S.doc) :
  stored_subscription w (S._id (paths d)) = Some s ->
  let d' :=
    Subscription.assign
      (S.PushHistory {| S.action := action; S.date := clock w; S.details := details |})
      d in
  accepts (SaveSubscription (paths d')) = true ->
  RazorpayWebhookService.push_history_and_save accepts d action details w
  = (Ok (saved d'), subscription_saved d' w).
Proof.
  intros Hs d' Hacc. unfold RazorpayWebhookService.push_history_and_save.
  unfold bind, now. cbv beta iota.
  apply (save_accepted accepts d' w s); [exact Hacc | exact Hs].
Qed.

Lemma handleSubscriptionActivated_runs (data : R.data) (w : World)
    (sub : R.SubscriptionEntity) (s : S.doc) (u : U.doc) :
  R.subscription data = Some sub ->
  subscription_of_razorpay w (R.subscription_id sub) = Some s ->
  distinct_subscription_ids w ->
  stored_user w (S.user s) = Some u ->
  accepts (SaveSubscription (paths (status_document s "active" None (clock w))))
  = true ->
  accepts (SaveUser (user_with u "active"
                       (Some (RazorpayWebhookService.seconds (R.current_end sub)))))
  = true ->
  accepts (SaveSubscription (S.apply (S.PushHistory (activated_entry (clock w))) s))
  = true ->
  RazorpayWebhookService.handleSubscriptionActivated accepts data w
  = if accepts (SaveNotification (activation_notice s))
    then (Ok tt, notification_created (activation_notice s) (activated_world s u sub w))
    else (Throw (ValidationError (SaveNotification (activation_notice s))),
          activated_world s u sub w).
Proof.
  intros Hsub Hfind Hnd Hu Hacc1 Hacc2 Hacc3.
  pose proof (stored_of_razorpay w _ s Hnd Hfind) as Hs.
  unfold RazorpayWebhookService.handleSubscriptionActivated.
  rewrite Hsub. unfold bind. unfold RazorpayWebhookService.prop at 1. unfold ret at 1.
  cbv beta iota.
  rewrite findOne_razorpay_stored, Hfind. cbn [option_map]. cbv beta iota.
  cbn [paths hydrate].
  rewrite (updateSubscriptionStatus_accepted "active" None w s Hs Hacc1).
  set (d1 := status_document s "active" None (clock w)).
  set (w2 := subscription_saved d1 w).
  rewrite (user_update_found accepts (S.user s) "active" _ w2 u Hu Hacc2).
  set (w3 := user_saved _ w2).
  assert (Hs3 : stored_subscription w3 (S._id (paths (hydrate s : Subscription.Doc)))
                = Some (paths d1)).
  { change (stored_subscription w2 (S._id s) = Some (paths d1)).
    unfold w2. rewrite <- (status_document_id s "active" None (clock w)) at 1.
    fold d1. rewrite (stored_after_save d1 w s).
    - unfold d1. now rewrite status_document_flush.
    - unfold d1. now rewrite status_document_id. }
  rewrite (push_history_and_save_accepted (hydrate s) "activated" _ w3 _ Hs3 Hacc3).

  cbn [paths saved]. rewrite createNotification_outcome.
  change (RazorpayWebhookService.subscription_notification _ _ _ _ _)
    with (activation_notice s).
  destruct (accepts (SaveNotification (activation_notice s))); reflexivity.
Qed.

End Activation.

Lemma activated_world_subscription (s : S.doc) (u : U.doc) (sub : R.SubscriptionEntity)
    (w : World) :
  stored_subscription w (S._id s) = Some s ->
  stored_subscription (activated_world s u sub w) (S._id s)
  = Some (S.apply (S.PushHistory (activated_entry (clock w)))
            (paths (status_document s "active" None (clock w)))).
Proof.
  intros Hs. unfold activated_world.
  set (d1 := status_document s "active" None (clock w)).
  set (d2 := Subscription.assign _ (hydrate s)).
  set (w3 := user_saved _ _).
  assert (Hs3 : stored_subscription w3 (S._id (paths d2)) = Some (paths d1)).
  { change (stored_subscription (subscription_saved d1 w) (S._id s) = Some (paths d1)).
    rewrite <- (status_document_id s "active" None (clock w)) at 1. fold d1.
    rewrite (stored_after_save d1 w s).
    - unfold d1. now rewrite status_document_flush.
    - unfold d1. now rewrite status_document_id. }
  change (S._id s) with (S._id (paths d2)).
  now rewrite (stored_after_save d2 w3 (paths d1) Hs3).
Qed.

Lemma user_id_of_stored (w : World) (id : ObjectId) (u : U.doc) :
  stored_user w id = Some u -> U._id u = id.
Proof.
  intros H. apply find_holds in H. destruct H as [H _].
  cbv beta in H. apply Nat.eqb_eq in H. exact H.
Qed.

Lemma activated_world_user (s : S.doc) (u : U.doc) (sub : R.SubscriptionEntity)
    (w : World) :
  stored_user w (S.user s) = Some u ->
  stored_user (activated_world s u sub w) (S.user s)
  = Some (user_with u "active"
            (Some (RazorpayWebhookService.seconds (R.current_end sub)))).
Proof.
  intros Hu. pose proof (user_id_of_stored w _ u Hu) as Hid.
  unfold activated_world. set (u' := user_with u _ _).
  change (stored_user (user_saved u' w) (S.user s) = Some u').
  rewrite <- Hid. change (U._id u) with (U._id u').
  apply (stored_user_saved u' w u). cbn [u' user_with U._id]. now rewrite Hid.
Qed.

Lemma handleWebhook_activated (accepts : StoreWrite -> bool) (data : R.data)
    (w : World) (sub : R.SubscriptionEntity) (s : S.doc) (u : U.doc) :
  R.subscription data = Some sub ->
  subscription_of_razorpay w (R.subscription_id sub) = Some s ->
  distinct_subscription_ids w ->
  stored_user w (S.user s) = Some u ->
  activated_writes_accepted accepts s u sub (clock w) ->
  let w1 := add_log w info "Razorpay webhook received: subscription.activated" in
  RazorpayWebhookService.handleWebhook accepts "subscription.activated" data w
  = if accepts (SaveNotification (activation_notice s))
    then (Ok tt, notification_created (activation_notice s) (activated_world s u sub w1))
    else (Throw (ValidationError (SaveNotification (activation_notice s))),
          add_log (activated_world s u sub w1) error
            "Error handling Razorpay webhook subscription.activated:").
Proof.
  intros Hsub Hfind Hnd Hu (Hacc1 & Hacc2 & Hacc3) w1.
  unfold RazorpayWebhookService.handleWebhook, bind, logger, try_catch. cbv beta iota.
  cbn [String.append]. fold w1.
  change (RazorpayWebhookService.dispatch accepts "subscription.activated" data w1)
    with (RazorpayWebhookService.handleSubscriptionActivated accepts data w1).
  rewrite (handleSubscriptionActivated_runs accepts data w1 sub s u
             Hsub Hfind Hnd Hu Hacc1 Hacc2 Hacc3).
  destruct (accepts (SaveNotification (activation_notice s))); reflexivity.
Qed.

(** C5, as the specification states it, fails.  For the trialing
    subscription [sub_1], whose next billing date is 5000, the event
    [subscription.activated] with a period end of 9 seconds appends two
    entries to the history, and leaves the next billing date at 5000: the
    period end, 9000, goes to the expiry of the user. *)
Lemma activated_appends_two_entries :
  let w' :=
    snd (RazorpayWebhookService.handleWebhook accept_all "subscription.activated"
           Scenario.event_data (Scenario.world "trialing" 2000)) in
  option_map S.status (stored_subscription w' 1%nat) = Some "active"
  /\ option_map S.history (stored_subscription w' 1%nat)
     = Some [ {| S.action := "created"; S.date := 1000;
                 S.details := Str "Subscription created" |};
              {| S.action := "activated"; S.date := 2000;
                 S.details := Str "Status changed from trialing to active" |};
              {| S.action := "activated"; S.date := 2000;
                 S.details := Str "Subscription activated" |} ]
  /\ option_map S.nextBillingDate (stored_subscription w' 1%nat) = Some (Some 5000)
  /\ option_map U.subscriptionExpiry (stored_user w' 7%nat) = Some (Some 9000).
Proof. cbv zeta. repeat split. Qed.

(** C5, amended.  Each lifecycle method of the model
    ([updateSubscriptionStatus], [cancelSubscription], [renewSubscription])
    appends exactly one history entry per call, when the store takes the
    document it saves; the handler of [subscription.activated] calls
    [updateSubscriptionStatus] and then pushes an entry of its own.  For a
    stored subscription (trialing or not) whose user is stored, when the
    store takes the three documents the handler saves (the status change,
    the user, the handler's entry), processing [subscription.activated] sets
    the status to ['active'], appends two entries of action ['activated'] to
    the history, leaves [nextBillingDate] and [endDate] as they were, and
    sets the user's [subscriptionStatus] to ['active'] and
    [subscriptionExpiry] to the period end of the payload; this is so
    whether the notification that follows is stored or, as with the
    validators of the repository, refused (the delivery then throws after
    these writes, see C8). *)
Theorem handleSubscriptionActivated_effect :
  forall (accepts : StoreWrite -> bool) (data : R.data) (w : World)
         (sub : R.SubscriptionEntity) (s : S.doc) (u : U.doc),
    R.subscription data = Some sub ->
    subscription_of_razorpay w (R.subscription_id sub) = Some s ->
    distinct_subscription_ids w ->
    stored_user w (S.user s) = Some u ->
    let w' :=
      snd (RazorpayWebhookService.handleWebhook accepts "subscription.activated"
             data w) in
    (forall status details,
        accepts (SaveSubscription (paths (status_document s status details (clock w))))
        = true ->
        exists d w1 s1,
          Subscription.updateSubscriptionStatus accepts (S._id s) status details w
          = (Ok d, w1)
          /\ stored_subscription w1 (S._id s) = Some s1
          /\ S.history s1
             = S.history s ++ [status_entry (S.status s) status details (clock w)])
    /\ (forall reason feedback cancelledBy,
           accepts (SaveSubscription
                      (paths (cancelled_document s reason feedback cancelledBy
                                (clock w))))
           = true ->
           exists d w1 s1 entry,
             Subscription.cancelSubscription accepts (S._id s) reason feedback
               cancelledBy w = (Ok d, w1)
             /\ stored_subscription w1 (S._id s) = Some s1
             /\ S.history s1 = S.history s ++ [entry]
             /\ S.action entry = "cancelled")
    /\ (forall nextBillingDate,
           accepts (SaveSubscription
                      (paths (renewed_document s nextBillingDate (clock w))))
           = true ->
           exists d w1 s1 entry,
             Subscription.renewSubscription accepts (S._id s) nextBillingDate w
             = (Ok d, w1)
             /\ stored_subscription w1 (S._id s) = Some s1
             /\ S.history s1 = S.history s ++ [entry]
             /\ S.action entry = "renewed")
    /\ (activated_writes_accepted accepts s u sub (clock w) ->
        exists s' u',
          stored_subscription w' (S._id s) = Some s'
          /\ S.status s' = "active"
          /\ S.history s'
             = S.history s
               ++ [status_entry (S.status s) "active" None (clock w);
                   activated_entry (clock w)]
          /\ S.action (status_entry (S.status s) "active" None (clock w)) = "activated"
          /\ S.action (activated_entry (clock w)) = "activated"
          /\ S.nextBillingDate s' = S.nextBillingDate s
          /\ S.endDate s' = S.endDate s
          /\ stored_user w' (S.user s) = Some u'
          /\ U.subscriptionStatus u' = "active"
          /\ U.subscriptionExpiry u' = Some (R.current_end sub * 1000)).
Proof.
  intros accepts data w sub s u Hsub Hfind Hnd Hu w'.
  set (w1 := add_log w info "Razorpay webhook received: subscription.activated").
  pose proof (stored_of_razorpay w _ s Hnd Hfind) as Hs.
  destruct (lifecycle_methods_append_one_entry accepts w s Hs)
    as (Hstatus & Hcancel & Hrenew).
  split; [exact Hstatus|]. split; [exact Hcancel|]. split; [exact Hrenew|].
  intros Hwrites.
  pose proof (activated_world_subscription s u sub w1 Hs) as Hs'.
  pose proof (activated_world_user s u sub w1 Hu) as Hu'.
  exists (S.apply (S.PushHistory (activated_entry (clock w)))
            (paths (status_document s "active" None (clock w)))),
    (user_with u "active" (Some (RazorpayWebhookService.seconds (R.current_end sub)))).
  assert (Hw' : stored_subscription w' = stored_subscription (activated_world s u sub w1)
                /\ stored_user w' = stored_user (activated_world s u sub w1)).
  { unfold w'.
    rewrite (handleWebhook_activated accepts data w sub s u Hsub Hfind Hnd Hu Hwrites).
    fold w1. destruct (accepts (SaveNotification (activation_notice s)));
      split; reflexivity. }
  destruct Hw' as [-> ->].
  split; [exact Hs'|]. split; [reflexivity|]. split.
  { cbn. now rewrite <- app_assoc. }
  repeat split. exact Hu'.
Qed.

Lemma handleSubscriptionActivated_effect_witness :
  R.subscription Scenario.event_data
  = Some {| R.subscription_id := "sub_1"; R.current_end := 9 |}
  /\ subscription_of_razorpay (Scenario.world "trialing" 2000) "sub_1"
     = Some (Scenario.subscription "trialing")
  /\ distinct_subscription_ids (Scenario.world "trialing" 2000)
  /\ stored_user (Scenario.world "trialing" 2000) 7%nat = Some Scenario.customer
  /\ activated_writes_accepted schema_accepts (Scenario.subscription "trialing")
       Scenario.customer {| R.subscription_id := "sub_1"; R.current_end := 9 |} 2000
  /\ exists s' u',
       stored_subscription
         (snd (RazorpayWebhookService.handleWebhook schema_accepts
                 "subscription.activated" Scenario.event_data
                 (Scenario.world "trialing" 2000))) 1%nat = Some s'
       /\ S.status s' = "active"
       /\ List.length (S.history s') = 3%nat
       /\ stored_user
            (snd (RazorpayWebhookService.handleWebhook schema_accepts
                    "subscription.activated" Scenario.event_data
                    (Scenario.world "trialing" 2000))) 7%nat = Some u'
       /\ U.subscriptionExpiry u' = Some 9000.
Proof.
  assert (Hnd : distinct_subscription_ids (Scenario.world "trialing" 2000)).
  { repeat constructor. simpl. tauto. }
  assert (Hwrites : activated_writes_accepted schema_accepts
                      (Scenario.subscription "trialing") Scenario.customer
                      {| R.subscription_id := "sub_1"; R.current_end := 9 |} 2000).
  { repeat split. }
  split; [reflexivity|]. split; [reflexivity|]. split; [exact Hnd|].
  split; [reflexivity|]. split; [exact Hwrites|].
  destruct (handleSubscriptionActivated_effect schema_accepts Scenario.event_data
              (Scenario.world "trialing" 2000)
              {| R.subscription_id := "sub_1"; R.current_end := 9 |}
              (Scenario.subscription "trialing") Scenario.customer
              eq_refl eq_refl Hnd eq_refl)
    as (_ & _ & _ & Heffect).
  destruct (Heffect Hwrites)
    as (s' & u' & Hs' & Hst & Hh & _ & _ & _ & _ & Hu' & _ & Hexp).
  exists s', u'. repeat split; try assumption.
  rewrite Hh. reflexivity.
Defined.

(** ** The validators of the schemas and the handlers

    The [relatedEntity.type] of a notification is validated against the
    enum of the schema, which lists neither ['subscription'] nor
    ['payment'], the values the webhook handlers pass; and ['completed'],
    the status [handleSubscriptionCompleted] asks for, is not in the enum of
    the subscription status. *)
Lemma schema_refuses_handler_writes :
  (forall title message type priority s,
      schema_accepts
        (SaveNotification
           (RazorpayWebhookService.subscription_notification title message type
              priority s)) = false)
  /\ (forall title message type p,
         schema_accepts
           (SaveNotification
              (RazorpayWebhookService.payment_notification title message type p))
         = false)
  /\ (forall s pay, schema_accepts (SaveNotification (renewal_notice s pay)) = false)
  /\ (forall s details t,
         schema_accepts
           (SaveSubscription (paths (status_document s "completed" details t)))
         = false).
Proof.
  repeat split; intros; cbn [schema_accepts];
    apply andb_false_iff; left; apply andb_false_iff; right; reflexivity.
Qed.

(** C8, as the specification states it, fails.  With a notification store
    that refuses its writes, processing [subscription.activated] for the
    trialing subscription [sub_1] does not complete successfully:
    [handleWebhook] throws the error of the notification, after having made
    the subscription active. *)
Lemma notification_failure_fails_the_webhook :
  let call :=
    RazorpayWebhookService.handleWebhook without_notifications
      "subscription.activated" Scenario.event_data (Scenario.world "trialing" 2000) in
  fst call
  = Throw (ValidationError
             (SaveNotification (activation_notice (Scenario.subscription "trialing"))))
  /\ fst call <> Ok tt
  /\ option_map S.status (stored_subscription (snd call) 1%nat) = Some "active".
Proof. cbv zeta. repeat split. discriminate. Qed.

(** C8, amended.  When the store takes the three documents
    [subscription.activated] saves (the status change, the user, the
    handler's entry) and the notification that follows is refused, as the
    [relatedEntity.type] enum of the notification schema refuses it, the
    transition is not rolled back: the stored subscription is ['active'] and
    the user is updated.  But the failure is not contained: [handleWebhook]
    logs the error and throws it again, so the processing of the event is
    reported as failed; no notification is stored. *)
Theorem notification_failure_propagates :
  forall (accepts : StoreWrite -> bool) (data : R.data) (w : World)
         (sub : R.SubscriptionEntity) (s : S.doc) (u : U.doc),
    R.subscription data = Some sub ->
    subscription_of_razorpay w (R.subscription_id sub) = Some s ->
    distinct_subscription_ids w ->
    stored_user w (S.user s) = Some u ->
    activated_writes_accepted accepts s u sub (clock w) ->
    accepts (SaveNotification (activation_notice s)) = false ->
    let call :=
      RazorpayWebhookService.handleWebhook accepts "subscription.activated" data w in
    fst call = Throw (ValidationError (SaveNotification (activation_notice s)))
    /\ (exists s', stored_subscription (snd call) (S._id s) = Some s'
                   /\ S.status s' = "active")
    /\ (exists u', stored_user (snd call) (S.user s) = Some u'
                   /\ U.subscriptionStatus u' = "active")
    /\ notifications (db (snd call)) = notifications (db w)
    /\ logs (snd call)
       = logs w
         ++ [(info, "Razorpay webhook received: subscription.activated");
             (error, "Error handling Razorpay webhook subscription.activated:")].
Proof.
  intros accepts data w sub s u Hsub Hfind Hnd Hu Hwrites Hrefused call.
  set (w1 := add_log w info "Razorpay webhook received: subscription.activated").
  pose proof (stored_of_razorpay w _ s Hnd Hfind) as Hs.
  pose proof (activated_world_subscription s u sub w1 Hs) as Hs'.
  pose proof (activated_world_user s u sub w1 Hu) as Hu'.
  unfold call.
  rewrite (handleWebhook_activated accepts data w sub s u Hsub Hfind Hnd Hu Hwrites).
  rewrite Hrefused. fold w1. cbn [fst snd].
  split; [reflexivity|]. split; [|split; [|split]].
  - eexists. split; [exact Hs'|reflexivity].
  - eexists. split; [exact Hu'|reflexivity].
  - reflexivity.
  - cbn. now rewrite <- app_assoc.
Qed.

Lemma notification_failure_propagates_witness :
  R.subscription Scenario.event_data
  = Some {| R.subscription_id := "sub_1"; R.current_end := 9 |}
  /\ subscription_of_razorpay (Scenario.world "trialing" 2000) "sub_1"
     = Some (Scenario.subscription "trialing")
  /\ distinct_subscription_ids (Scenario.world "trialing" 2000)
  /\ stored_user (Scenario.world "trialing" 2000) 7%nat = Some Scenario.customer
  /\ activated_writes_accepted schema_accepts (Scenario.subscription "trialing")
       Scenario.customer {| R.subscription_id := "sub_1"; R.current_end := 9 |} 2000
  /\ schema_accepts
       (SaveNotification (activation_notice (Scenario.subscription "trialing")))
     = false
  /\ fst (RazorpayWebhookService.handleWebhook schema_accepts
            "subscription.activated" Scenario.event_data
            (Scenario.world "trialing" 2000))
     = Throw (ValidationError
                (SaveNotification
                   (activation_notice (Scenario.subscription "trialing")))).
Proof.
  assert (Hnd : distinct_subscription_ids (Scenario.world "trialing" 2000)).
  { repeat constructor. simpl. tauto. }
  assert (Hwrites : activated_writes_accepted schema_accepts
                      (Scenario.subscription "trialing") Scenario.customer
                      {| R.subscription_id := "sub_1"; R.current_end := 9 |} 2000).
  { repeat split. }
  split; [reflexivity|]. split; [reflexivity|]. split; [exact Hnd|].
  split; [reflexivity|]. split; [exact Hwrites|]. split; [reflexivity|].
  exact (proj1 (notification_failure_propagates schema_accepts
                  Scenario.event_data (Scenario.world "trialing" 2000)
                  {| R.subscription_id := "sub_1"; R.current_end := 9 |}
                  (Scenario.subscription "trialing") Scenario.customer
                  eq_refl eq_refl Hnd eq_refl Hwrites eq_refl)).
Defined.

(** ** The handler of [subscription.charged] *)

Section Charge.

Variable accepts : StoreWrite -> bool.

Lemma handleSubscriptionCharged_runs (data : R.data) (w : World)
    (sub : R.SubscriptionEntity) (pay : R.PaymentEntity) (s : S.doc) (u : U.doc) :
  R.subscription data = Some sub ->
  R.payment data = Some pay ->
  subscription_of_razorpay w (R.subscription_id sub) = Some s ->
  distinct_subscription_ids w ->
  stored_user w (S.user s) = Some u ->
  charged_writes_accepted accepts s u sub pay (clock w)
    (payment_of_razorpay w (R.id pay)) ->
  RazorpayWebhookService.handleSubscriptionCharged accepts data w
  = if accepts (SaveNotification (renewal_notice s pay))
    then (Ok tt, notification_created (renewal_notice s pay)
                   (charged_world s u sub pay w))
    else (Throw (ValidationError (SaveNotification (renewal_notice s pay))),
          charged_world s u sub pay w).
Proof.
  intros Hsub Hpay Hfind Hnd Hu (Hacc1 & Hacc2 & Hacc3).
  pose proof (stored_of_razorpay w _ s Hnd Hfind) as Hs.
  unfold RazorpayWebhookService.handleSubscriptionCharged.
  rewrite Hsub, Hpay. unfold bind. unfold RazorpayWebhookService.prop, ret.
  cbv beta iota.
  rewrite findOne_razorpay_stored, Hfind. cbn [option_map]. cbv beta iota.
  set (d0 := Subscription.assign (S.SetEndDate _) _).
  assert (Hs0 : stored_subscription w (S._id (paths d0)) = Some s) by exact Hs.
  rewrite (push_history_and_save_accepted accepts d0 "renewed" _ w s Hs0 Hacc1).
  change (Subscription.assign _ d0) with (charged_document s sub pay (clock w)).
  set (d := charged_document s sub pay (clock w)).
  set (w2 := subscription_saved d w).
  cbn [paths saved].
  change (S.user (paths d)) with (S.user s).
  rewrite (user_update_found accepts (S.user s) "active" _ w2 u Hu Hacc2).
  set (w3 := user_saved _ w2).
  rewrite payment_find_stored.
  change (payment_of_razorpay w3 (R.id pay)) with (payment_of_razorpay w (R.id pay)).
  unfold charged_world. fold d. fold w2. fold w3.
  destruct (payment_of_razorpay w (R.id pay)) as [existing|] eqn:Hexisting;
    cbn [option_map].
  - rewrite createNotification_outcome.
    change (accepts (SaveNotification _))
      with (accepts (SaveNotification (renewal_notice s pay))).
    destruct (accepts (SaveNotification (renewal_notice s pay))); reflexivity.
  - change {| P.user := _ |} with (recurring_payment s pay).
    destruct (createPayment_new accepts (recurring_payment s pay) w3 eq_refl
                (Hacc3 eq_refl))
      as [created Hcreated]; [exact Hexisting|].
    rewrite Hcreated. rewrite createNotification_outcome.
    change (accepts (SaveNotification _))
      with (accepts (SaveNotification (renewal_notice s pay))).
    destruct (accepts (SaveNotification (renewal_notice s pay))); reflexivity.
Qed.

End Charge.

Lemma find_none_filter {D} (p : D -> bool) (l : list D) :
  List.find p l = None -> filter p l = [].
Proof.
  induction l as [|x l IH]; simpl; [reflexivity|].
  destruct (p x); [discriminate|exact IH].
Qed.

Lemma find_some_filter {D} (p : D -> bool) (l : list D) (d : D) :
  List.find p l = Some d -> (1 <= List.length (filter p l))%nat.
Proof.
  induction l as [|x l IH]; simpl; [discriminate|].
  destruct (p x); simpl; [lia|exact IH].
Qed.

Lemma subscription_flush_razorpay (d : Subscription.Doc) (s : S.doc) :
  S.razorpaySubscriptionId (flush S.apply d s) = S.razorpaySubscriptionId s.
Proof.
  unfold flush. generalize dependent s.
  induction (pending d) as [|c l IH]; intros s; simpl; [reflexivity|].
  now rewrite IH.
Qed.

Lemma distinct_after_save (d : Subscription.Doc) (w : World) :
  distinct_subscription_ids w -> distinct_subscription_ids (subscription_saved d w).
Proof.
  unfold distinct_subscription_ids, subscription_saved. simpl.
  rewrite (update_one_ids S._id); [auto|].
  intros x Hx. now rewrite subscription_flush_id.
Qed.

Lemma of_razorpay_after_save (d : Subscription.Doc) (w : World) (rid : string)
    (s : S.doc) :
  distinct_subscription_ids w ->
  subscription_of_razorpay w rid = Some s ->
  S._id (paths d) = S._id s ->
  subscription_of_razorpay (subscription_saved d w) rid = Some (flush S.apply d s).
Proof.
  intros Hnd Hfind Hid. unfold subscription_of_razorpay, subscription_saved. simpl.
  rewrite (find_update_one_stable S._id (S._id (paths d)) (flush S.apply d)
             (fun x => (S.razorpaySubscriptionId x =? rid)%string)
             (subscriptions (db w)) s).
  - now rewrite Hid, Nat.eqb_refl.
  - intros x. now rewrite subscription_flush_razorpay.
  - exact Hnd.
  - exact Hfind.
Qed.

(** What one delivery of [subscription.charged] leaves. *)
Lemma charged_delivery (accepts : StoreWrite -> bool) (data : R.data) (w : World)
    (sub : R.SubscriptionEntity) (pay : R.PaymentEntity) (s : S.doc) (u : U.doc) :
  R.subscription data = Some sub ->
  R.payment data = Some pay ->
  subscription_of_razorpay w (R.subscription_id sub) = Some s ->
  distinct_subscription_ids w ->
  stored_user w (S.user s) = Some u ->
  (List.length (payments_of_razorpay w (R.id pay)) <= 1)%nat ->
  charged_writes_accepted accepts s u sub pay (clock w)
    (payment_of_razorpay w (R.id pay)) ->
  let call := RazorpayWebhookService.handleWebhook accepts "subscription.charged"
                data w in
  let w' := snd call in
  let s' := paths (charged_document s sub pay (clock w)) in
  subscription_of_razorpay w' (R.subscription_id sub) = Some s'
  /\ distinct_subscription_ids w'
  /\ stored_user w' (S.user s)
     = Some (user_with u "active"
               (Some (RazorpayWebhookService.seconds (R.current_end sub))))
  /\ List.length (payments_of_razorpay w' (R.id pay)) = 1%nat
  /\ clock w' = clock w
  /\ List.length (notifications (db w'))
     = (if accepts (SaveNotification (renewal_notice s pay))
        then S (List.length (notifications (db w)))
        else List.length (notifications (db w)))
  /\ fst call
     = (if accepts (SaveNotification (renewal_notice s pay))
        then Ok tt
        else Throw (ValidationError (SaveNotification (renewal_notice s pay)))).
Proof.
  intros Hsub Hpay Hfind Hnd Hu Hle Hwrites call w' s'.
  set (w1 := add_log w info "Razorpay webhook received: subscription.charged").
  set (wc := charged_world s u sub pay w1).
  assert (Hcall : call = if accepts (SaveNotification (renewal_notice s pay))
                         then (Ok tt, notification_created (renewal_notice s pay) wc)
                         else (Throw (ValidationError
                                        (SaveNotification (renewal_notice s pay))),
                               add_log wc error
                                 "Error handling Razorpay webhook subscription.charged:")).
  { unfold call, RazorpayWebhookService.handleWebhook, bind, logger, try_catch.
    cbv beta iota. cbn [String.append]. fold w1.
    change (RazorpayWebhookService.dispatch accepts "subscription.charged" data w1)
      with (RazorpayWebhookService.handleSubscriptionCharged accepts data w1).
    rewrite (handleSubscriptionCharged_runs accepts data w1 sub pay
               s u Hsub Hpay Hfind Hnd Hu Hwrites).
    fold wc. destruct (accepts (SaveNotification (renewal_notice s pay))); reflexivity. }
  assert (Hw' : w' = if accepts (SaveNotification (renewal_notice s pay))
                     then notification_created (renewal_notice s pay) wc
                     else add_log wc error
                            "Error handling Razorpay webhook subscription.charged:").
  { unfold w'. rewrite Hcall.
    destruct (accepts (SaveNotification (renewal_notice s pay))); reflexivity. }
  set (d := charged_document s sub pay (clock w)).
  set (w2 := subscription_saved d w).
  set (u' := user_with u "active"
               (Some (RazorpayWebhookService.seconds (R.current_end sub)))).
  assert (Hsubs_c : subscriptions (db wc) = subscriptions (db w2)).
  { unfold wc, charged_world.
    destruct (payment_of_razorpay w1 (R.id pay)); reflexivity. }
  assert (Husers_c : users (db wc) = users (db (user_saved u' w))).
  { unfold wc, charged_world.
    destruct (payment_of_razorpay w1 (R.id pay)); reflexivity. }
  assert (Hpays_c : List.length (payments_of_razorpay wc (R.id pay)) = 1%nat).
  { unfold wc, w1, charged_world, payments_of_razorpay.
    change (payment_of_razorpay (add_log w info _) (R.id pay))
      with (payment_of_razorpay w (R.id pay)).
    destruct (payment_of_razorpay w (R.id pay)) as [existing|] eqn:Hexisting.
    - apply find_some_filter in Hexisting.
      change (List.length (payments_of_razorpay w (R.id pay)) = 1%nat).
      unfold payments_of_razorpay in *. lia.
    - cbn [payment_created set_db db with_payments payments user_saved
             subscription_saved with_users with_subscriptions add_log].
      rewrite filter_app. apply find_none_filter in Hexisting.
      unfold payment_of_razorpay in Hexisting. rewrite Hexisting.
      cbn. now rewrite String.eqb_refl. }
  assert (Hclock_c : clock wc = clock w).
  { unfold wc, charged_world.
    destruct (payment_of_razorpay w1 (R.id pay)); reflexivity. }
  assert (Hnot_c : notifications (db wc) = notifications (db w)).
  { unfold wc, charged_world.
    destruct (payment_of_razorpay w1 (R.id pay)); reflexivity. }
  assert (Hid : S._id (paths d) = S._id s) by reflexivity.
  assert (H1 : subscription_of_razorpay w2 (R.subscription_id sub) = Some s').
  { unfold w2. now rewrite (of_razorpay_after_save d w _ s Hnd Hfind Hid). }
  assert (H2 : distinct_subscription_ids w2) by now apply distinct_after_save.
  assert (H3 : stored_user (user_saved u' w) (S.user s) = Some u').
  { pose proof (user_id_of_stored w _ u Hu) as Huid.
    rewrite <- Huid. change (U._id u) with (U._id u').
    apply (stored_user_saved u' w u). cbn [u' user_with U._id]. now rewrite Huid. }
  assert (Hobs : subscription_of_razorpay w' (R.subscription_id sub)
                 = subscription_of_razorpay w2 (R.subscription_id sub)
                 /\ (distinct_subscription_ids w' <-> distinct_subscription_ids w2)
                 /\ stored_user w' (S.user s) = stored_user (user_saved u' w) (S.user s)
                 /\ payments_of_razorpay w' (R.id pay) = payments_of_razorpay wc (R.id pay)
                 /\ clock w' = clock wc).
  { rewrite Hw'. unfold subscription_of_razorpay, distinct_subscription_ids,
      stored_user, payments_of_razorpay.
    destruct (accepts (SaveNotification (renewal_notice s pay)));
      cbn [notification_created add_log set_db db with_notifications subscriptions
             users payments clock];
      rewrite Hsubs_c, Husers_c; repeat split; auto. }
  destruct Hobs as (-> & Hd & -> & -> & ->).
  split; [exact H1|]. split; [now apply Hd|]. split; [exact H3|].
  split; [exact Hpays_c|]. split; [exact Hclock_c|]. split.
  - rewrite Hw'. destruct (accepts (SaveNotification (renewal_notice s pay))).
    + cbn [notification_created set_db db with_notifications notifications].
      rewrite length_app, Hnot_c. cbn. lia.
    + cbn [add_log db]. now rewrite Hnot_c.
  - rewrite Hcall.
    destruct (accepts (SaveNotification (renewal_notice s pay))); reflexivity.
Qed.

Lemma charged_after_succ (s : S.doc) (sub : R.SubscriptionEntity)
    (pay : R.PaymentEntity) (t : Date) (k : nat) :
  charged_after (paths (charged_document s sub pay t)) sub pay t k
  = charged_after s sub pay t (S k).
Proof.
  unfold charged_after. symmetry. apply Nat.iter_succ_r.
Qed.

Lemma charged_after_frame (s : S.doc) (sub : R.SubscriptionEntity)
    (pay : R.PaymentEntity) (t : Date) (k : nat) :
  S._id (charged_after s sub pay t k) = S._id s
  /\ S.user (charged_after s sub pay t k) = S.user s
  /\ S.history (charged_after s sub pay t k)
     = S.history s ++ repeat (renewed_entry (R.amount pay) t) k.
Proof.
  unfold charged_after. induction k as [|k (IH1 & IH2 & IH3)].
  - cbn. now rewrite app_nil_r.
  - rewrite Nat.iter_succ. set (x := Nat.iter k _ s) in *.
    split; [exact IH1|]. split; [exact IH2|].
    change (S.history (paths (charged_document x sub pay t)))
      with (S.history x ++ [renewed_entry (R.amount pay) t]).
    rewrite IH3, <- app_assoc. f_equal.
    change [renewed_entry (R.amount pay) t]
      with (repeat (renewed_entry (R.amount pay) t) 1).
    rewrite <- repeat_app. now rewrite Nat.add_1_r.
Qed.

Lemma count_of_find {D} (p : D -> bool) (l : list D) :
  List.length (filter p l) = 1%nat -> List.find p l <> None.
Proof.
  intros Hlen Hnone. rewrite (find_none_filter p l Hnone) in Hlen. discriminate.
Qed.

Lemma redeliver_charged (accepts : StoreWrite -> bool) (data : R.data)
    (sub : R.SubscriptionEntity) (pay : R.PaymentEntity) :
  R.subscription data = Some sub ->
  R.payment data = Some pay ->
  forall (n : nat) (w : World) (s : S.doc) (u : U.doc),
    subscription_of_razorpay w (R.subscription_id sub) = Some s ->
    distinct_subscription_ids w ->
    stored_user w (S.user s) = Some u ->
    (List.length (payments_of_razorpay w (R.id pay)) <= 1)%nat ->
    redelivered_writes_accepted accepts s u sub pay (clock w)
      (payment_of_razorpay w (R.id pay)) n ->
    let w' := redeliver accepts n "subscription.charged" data w in
    exists s' u',
      subscription_of_razorpay w' (R.subscription_id sub) = Some s'
      /\ S._id s' = S._id s
      /\ S.user s' = S.user s
      /\ S.history s'
         = S.history s ++ repeat (renewed_entry (R.amount pay) (clock w)) n
      /\ distinct_subscription_ids w'
      /\ stored_user w' (S.user s) = Some u'
      /\ (List.length (payments_of_razorpay w' (R.id pay)) <= 1)%nat
      /\ (n <> 0%nat -> List.length (payments_of_razorpay w' (R.id pay)) = 1%nat)
      /\ clock w' = clock w
      /\ List.length (notifications (db w'))
         = (if accepts (SaveNotification (renewal_notice s pay))
            then (List.length (notifications (db w)) + n)%nat
            else List.length (notifications (db w))).
Proof.
  intros Hsub Hpay.
  induction n as [|n IH]; intros w s u Hfind Hnd Hu Hle Hwrites w'.
  - exists s, u. cbn [repeat]. rewrite app_nil_r. unfold w'. cbn [redeliver].
    split; [exact Hfind|]. split; [reflexivity|]. split; [reflexivity|].
    split; [reflexivity|]. split; [exact Hnd|]. split; [exact Hu|].
    split; [exact Hle|]. split; [intros Habs; now contradiction Habs|].
    split; [reflexivity|].
    destruct (accepts (SaveNotification (renewal_notice s pay))); lia.
  - destruct Hwrites as (Hsubs & Huser & Hpayment).
    assert (Hfirst : charged_writes_accepted accepts s u sub pay (clock w)
                       (payment_of_razorpay w (R.id pay))).
    { split; [|split; [exact Huser|exact Hpayment]].
      apply (Hsubs 0%nat). lia. }
    destruct (charged_delivery accepts data w sub pay s u Hsub Hpay
                Hfind Hnd Hu Hle Hfirst)
      as (Hfind1 & Hnd1 & Hu1 & Hpay1 & Hclock1 & Hnot1 & _).
    set (w1 := snd (RazorpayWebhookService.handleWebhook accepts
                      "subscription.charged" data w)) in *.
    set (s1 := paths (charged_document s sub pay (clock w))) in *.
    assert (Hle1 : (List.length (payments_of_razorpay w1 (R.id pay)) <= 1)%nat) by lia.
    assert (Hwrites1 : redelivered_writes_accepted accepts s1
                         (user_with u "active"
                            (Some (RazorpayWebhookService.seconds (R.current_end sub))))
                         sub pay (clock w1) (payment_of_razorpay w1 (R.id pay)) n).
    { rewrite Hclock1. split; [|split].
      - intros k Hk. unfold s1. rewrite charged_after_succ. apply Hsubs. lia.
      - exact Huser.
      - intros Hnone. exfalso.
        exact (count_of_find _ _ Hpay1 Hnone). }
    destruct (IH w1 s1 _ Hfind1 Hnd1 Hu1 Hle1 Hwrites1)
      as (s' & u' & Hfind' & Hid' & Huser' & Hhist' & Hnd' & Hu' & Hle' & Hone'
          & Hclock' & Hnot').
    change (redeliver accepts n "subscription.charged" data w1) with w' in *.
    exists s', u'. split; [exact Hfind'|]. split; [exact Hid'|].
    split; [exact Huser'|]. split.
    { rewrite Hhist', Hclock1. cbn [repeat]. unfold s1. cbn.
      now rewrite <- app_assoc. }
    split; [exact Hnd'|]. split; [exact Hu'|]. split; [exact Hle'|]. split.
    { intros _. destruct n as [|n']; [exact Hpay1|]. apply Hone'. discriminate. }
    split; [congruence|].
    rewrite Hnot', Hnot1.
    change (renewal_notice s1 pay) with (renewal_notice s pay).
    destruct (accepts (SaveNotification (renewal_notice s pay))); lia.
Qed.

(** ** The unique [razorpayPaymentId] under every delivery *)

Section Preservation.

Context {A : Type} (I : World -> Prop).

Lemma preserves_ret (a : A) : preserves I (ret a).
Proof. intros w H. exact H. Qed.

Lemma preserves_throw (e : Error) : preserves I (@throw A e).
Proof. intros w H. exact H. Qed.

Lemma preserves_bind {B} (m : M B) (k : B -> M A) :
  preserves I m -> (forall b, preserves I (k b)) -> preserves I (bind m k).
Proof.
  intros Hm Hk w H. unfold bind. specialize (Hm w H).
  destruct (m w) as [[b|e] w']; cbn [snd] in *; [now apply Hk|exact Hm].
Qed.

Lemma preserves_try_catch (m : M A) (h : Error -> M A) :
  preserves I m -> (forall e, preserves I (h e)) -> preserves I (try_catch m h).
Proof.
  intros Hm Hh w H. unfold try_catch. specialize (Hm w H).
  destruct (m w) as [[a|e] w']; cbn [snd] in *; [exact Hm|now apply Hh].
Qed.

End Preservation.

Create HintDb preserve.

Ltac preserve :=
  repeat first
    [ apply preserves_ret
    | apply preserves_throw
    | solve [auto with preserve]
    | apply preserves_bind; [|intros ?]
    | apply preserves_try_catch; [|intros ?]
    | match goal with
      | |- preserves _ (match ?x with _ => _ end) => destruct x
      end ].

Lemma map_update_one {D K} (id_of : D -> ObjectId) (key : D -> K) (id : ObjectId)
    (f : D -> D) (l : list D) :
  (forall x, key (f x) = key x) ->
  map key (update_one id_of id f l) = map key l.
Proof.
  intros Hkey. induction l as [|x l IH]; simpl; [reflexivity|].
  destruct (Nat.eqb (id_of x) id); simpl; congruence.
Qed.

Lemma payment_flush_razorpay (d : Payment.Doc) (p : P.doc) :
  P.razorpayPaymentId (P.data (flush P.apply d p)) = P.razorpayPaymentId (P.data p).
Proof.
  unfold flush. generalize dependent p.
  induction (pending d) as [|c l IH]; intros p; simpl; [reflexivity|].
  now rewrite IH.
Qed.

Section UniquePayments.

Variable accepts : StoreWrite -> bool.

Local Abbreviation keeps := (preserves unique_payment_ids).

Lemma keeps_get_db : keeps get_db.
Proof. intros w H. exact H. Qed.

Lemma keeps_now : keeps now.
Proof. intros w H. exact H. Qed.

Lemma keeps_logger (l : Level) (line : string) : keeps (logger l line).
Proof. intros w H. exact H. Qed.

Lemma keeps_prop {B} (name : string) (x : option B) :
  keeps (RazorpayWebhookService.prop name x).
Proof. destruct x; intros w H; exact H. Qed.

Lemma keeps_subscription_find (p : S.doc -> bool) : keeps (Subscription.find p).
Proof. intros w H. exact H. Qed.

Lemma keeps_payment_find (p : P.doc -> bool) : keeps (Payment.find p).
Proof. intros w H. exact H. Qed.

Lemma keeps_user_findById (id : ObjectId) : keeps (User.findById id).
Proof. intros w H. exact H. Qed.

Lemma keeps_subscription_save (d : Subscription.Doc) : keeps (Subscription.save accepts d).
Proof.
  intros w H. unfold Subscription.save.
  destruct (accepts (SaveSubscription (paths d))); [|exact H].
  unfold bind, get_db, put_db, ret, throw. cbv beta iota.
  destruct (existsb _ (subscriptions (db w))); exact H.
Qed.

Lemma keeps_user_save (u : U.doc) : keeps (User.save accepts u).
Proof.
  intros w H. unfold User.save.
  destruct (accepts (SaveUser u)); [|exact H].
  unfold bind, get_db, put_db, ret, throw. cbv beta iota.
  destruct (existsb _ (users (db w))); exact H.
Qed.

Lemma keeps_createNotification (n : N.fields) :
  keeps (Notification.createNotification accepts n).
Proof.
  intros w H. rewrite createNotification_outcome.
  destruct (accepts (SaveNotification n)); exact H.
Qed.

Lemma keeps_payment_save (d : Payment.Doc) : keeps (Payment.save accepts d).
Proof.
  intros w H. unfold Payment.save.
  destruct (accepts (SavePayment (P.data (paths d)))); [|exact H].
  unfold bind, get_db, put_db, ret, throw. cbv beta iota.
  destruct (existsb _ (payments (db w))); [|exact H].
  unfold unique_payment_ids in *. cbn [snd set_db db with_payments payments].
  rewrite (map_update_one P._id); [exact H|].
  intros x. apply payment_flush_razorpay.
Qed.

Lemma keeps_payment_create (p : P.fields) : keeps (Payment.create accepts p).
Proof.
  intros w H. unfold Payment.create.
  destruct (accepts (SavePayment p)); [|exact H].
  unfold bind, get_db, put_db, ret, throw. cbv beta iota.
  destruct (existsb _ (payments (db w))) eqn:Hdup; [exact H|].
  unfold unique_payment_ids in *. cbn [snd set_db db with_payments payments].
  rewrite map_app. cbn [map P.data].
  apply NoDup_app; [exact H | repeat constructor; intros [] |].
  intros k Hin [<-|[]]. apply in_map_iff in Hin. destruct Hin as (q & Hq & Hin).
  apply not_true_iff_false in Hdup. apply Hdup.
  apply existsb_exists. exists q. split; [exact Hin|]. now apply String.eqb_eq.
Qed.

#[local] Hint Resolve keeps_get_db keeps_now keeps_logger keeps_prop keeps_subscription_find
  keeps_payment_find keeps_user_findById keeps_subscription_save keeps_user_save
  keeps_createNotification keeps_payment_save keeps_payment_create : preserve.

Lemma keeps_updateSubscriptionStatus (id : ObjectId) (status : string)
    (details : option string) :
  keeps (Subscription.updateSubscriptionStatus accepts id status details).
Proof.
  unfold Subscription.updateSubscriptionStatus, Subscription.findById. preserve.
Qed.

Lemma keeps_push_history_and_save (d : Subscription.Doc) (action : string)
    (details : Text) :
  keeps (RazorpayWebhookService.push_history_and_save accepts d action details).
Proof. unfold RazorpayWebhookService.push_history_and_save. preserve. Qed.

Lemma keeps_user_update (id : ObjectId) (status : string) (expiryDate : option Date) :
  keeps (User.updateSubscriptionStatus accepts id status expiryDate).
Proof. unfold User.updateSubscriptionStatus. preserve. Qed.

Lemma keeps_updatePaymentStatus (id : ObjectId) (status : string)
    (additionalData : list P.change) :
  keeps (Payment.updatePaymentStatus accepts id status additionalData).
Proof.
  unfold Payment.updatePaymentStatus, Payment.findById. preserve.
Qed.

Lemma keeps_addNote (this : Payment.Doc) (content : string)
    (createdBy : option ObjectId) :
  keeps (Payment.addNote accepts this content createdBy).
Proof. unfold Payment.addNote. preserve. Qed.

Lemma keeps_createPayment (p : P.fields) : keeps (Payment.createPayment accepts p).
Proof. unfold Payment.createPayment. preserve. Qed.

#[local] Hint Resolve keeps_updateSubscriptionStatus keeps_push_history_and_save
  keeps_user_update keeps_updatePaymentStatus keeps_addNote keeps_createPayment
  : preserve.

Lemma keeps_dispatch (event : string) (data : R.data) :
  keeps (RazorpayWebhookService.dispatch accepts event data).
Proof.
  unfold RazorpayWebhookService.dispatch,
    RazorpayWebhookService.handlePaymentCaptured,
    RazorpayWebhookService.handlePaymentFailed,
    RazorpayWebhookService.handleSubscriptionActivated,
    RazorpayWebhookService.handleSubscriptionCharged,
    RazorpayWebhookService.handleSubscriptionCompleted,
    RazorpayWebhookService.handleSubscriptionCancelled,
    RazorpayWebhookService.handleSubscriptionPaused,
    RazorpayWebhookService.handleSubscriptionResumed,
    RazorpayWebhookService.handleSubscriptionHalted,
    RazorpayWebhookService.handleSubscriptionPending,
    RazorpayWebhookService.handleSubscriptionUpdated,
    Subscription.findOne_razorpaySubscriptionId, Payment.findOne_razorpayPaymentId.
  preserve.
Qed.

Lemma keeps_handleWebhook (event : string) (data : R.data) :
  keeps (RazorpayWebhookService.handleWebhook accepts event data).
Proof.
  unfold RazorpayWebhookService.handleWebhook. preserve. apply keeps_dispatch.
Qed.

Lemma deliver_unique_payment_ids (deliveries : list (string * R.data)) :
  forall w, unique_payment_ids w -> unique_payment_ids (deliver accepts deliveries w).
Proof.
  induction deliveries as [|[event data] l IH]; intros w H; [exact H|].
  unfold deliver. cbn [fold_left fst snd]. apply IH. now apply keeps_handleWebhook.
Qed.

End UniquePayments.

Lemma unique_at_most_one (w : World) (pid : string) :
  unique_payment_ids w -> (List.length (payments_of_razorpay w pid) <= 1)%nat.
Proof.
  unfold unique_payment_ids, payments_of_razorpay.
  induction (payments (db w)) as [|p l IH]; simpl; [lia|].
  intros Hnd. inversion Hnd as [|? ? Hnotin Hnd']; subst.
  destruct (String.eqb_spec (P.razorpayPaymentId (P.data p)) pid) as [E|_];
    [|now apply IH].
  assert (Hnone : filter (fun q => (P.razorpayPaymentId (P.data q) =? pid)%string) l
                  = []).
  { destruct (filter _ l) as [|q l'] eqn:Hf; [reflexivity|].
    exfalso. apply Hnotin.
    assert (Hin : In q (filter (fun q => (P.razorpayPaymentId (P.data q) =? pid)%string) l))
      by (rewrite Hf; now left).
    apply filter_In in Hin. destruct Hin as [Hin Hq]. apply String.eqb_eq in Hq.
    rewrite E, <- Hq.
    exact (in_map (fun x => P.razorpayPaymentId (P.data x)) l q Hin). }
  rewrite Hnone. simpl. lia.
Qed.

(** C2, as the specification states it, fails.  [subscription.charged] for
    the payment [pay_X], delivered once and delivered twice: one Payment of
    that [razorpayPaymentId] in both cases, but the second delivery is
    applied again, so that the state after it is not the state after the
    first: the history of the subscription has one ['renewed'] entry more. *)
Lemma redelivery_is_applied_again :
  let w0 := Scenario.world "active" 2000 in
  let once := redeliver accept_all 1 "subscription.charged" Scenario.event_data w0 in
  let twice := redeliver accept_all 2 "subscription.charged" Scenario.event_data w0 in
  List.length (payments_of_razorpay once "pay_X") = 1%nat
  /\ List.length (payments_of_razorpay twice "pay_X") = 1%nat
  /\ option_map (fun s => map S.action (S.history s)) (stored_subscription once 1%nat)
     = Some ["created"; "renewed"]
  /\ option_map (fun s => map S.action (S.history s)) (stored_subscription twice 1%nat)
     = Some ["created"; "renewed"; "renewed"]
  /\ db twice <> db once.
Proof. cbv zeta. repeat split. discriminate. Qed.

(** C2, amended.  Whatever events are delivered, in whatever order and
    however often, one after the other, and whatever writes the store
    accepts, no second Payment of a [razorpayPaymentId] is ever stored: from
    a store where these identifiers are unique, at most one Payment of each
    exists after any sequence of deliveries.  For [subscription.charged]
    replayed one or more times for a stored subscription and user, when the
    store takes the documents the deliveries save (the subscription after
    each delivery, the user, and the payment if there is none yet), exactly
    one Payment of the identifier of the payload exists.  The replay is not
    idempotent on the rest of the state: each delivery appends one more
    ['renewed'] entry to the history of the subscription; and each delivery
    creates one more notification where the store takes the notice, while
    where the store refuses it, as the validators of the repository do for
    every subscription and payment, no notification is stored and the
    delivery rethrows the validation error after its writes. *)
Theorem charged_redelivery_keeps_one_payment :
  forall (accepts : StoreWrite -> bool) (w : World),
    unique_payment_ids w ->
    (forall (deliveries : list (string * R.data)) (pid : string),
        (List.length (payments_of_razorpay (deliver accepts deliveries w) pid) <= 1)%nat)
    /\ (forall (data : R.data) (sub : R.SubscriptionEntity) (pay : R.PaymentEntity)
               (s : S.doc) (u : U.doc) (n : nat),
           R.subscription data = Some sub ->
           R.payment data = Some pay ->
           subscription_of_razorpay w (R.subscription_id sub) = Some s ->
           distinct_subscription_ids w ->
           stored_user w (S.user s) = Some u ->
           redelivered_writes_accepted accepts s u sub pay (clock w)
             (payment_of_razorpay w (R.id pay)) (S n) ->
           let w' := redeliver accepts (S n) "subscription.charged" data w in
           List.length (payments_of_razorpay w' (R.id pay)) = 1%nat
           /\ (exists s',
                 stored_subscription w' (S._id s) = Some s'
                 /\ S.history s'
                    = S.history s
                      ++ repeat (renewed_entry (R.amount pay) (clock w)) (S n))
           /\ List.length (notifications (db w'))
              = (if accepts (SaveNotification (renewal_notice s pay))
                 then (List.length (notifications (db w)) + S n)%nat
                 else List.length (notifications (db w)))
           /\ fst (RazorpayWebhookService.handleWebhook accepts
                     "subscription.charged" data w)
              = (if accepts (SaveNotification (renewal_notice s pay))
                 then Ok tt
                 else Throw (ValidationError
                               (SaveNotification (renewal_notice s pay)))))
    /\ (forall (s : S.doc) (pay : R.PaymentEntity),
           schema_accepts (SaveNotification (renewal_notice s pay)) = false).
Proof.
  intros accepts w Hunique. split; [|split].
  - intros deliveries pid. apply unique_at_most_one.
    now apply deliver_unique_payment_ids.
  - intros data sub pay s u n Hsub Hpay Hfind Hnd Hu Hwrites w'.
    pose proof (unique_at_most_one w (R.id pay) Hunique) as Hle.
    destruct (redeliver_charged accepts data sub pay Hsub Hpay
                (S n) w s u Hfind Hnd Hu Hle Hwrites)
      as (s' & u' & Hfind' & Hid' & _ & Hhist' & Hnd' & _ & _ & Hone' & _ & Hnot').
    fold w' in Hfind', Hnd', Hone', Hnot'.
    split; [apply Hone'; discriminate|]. split; [|split; [exact Hnot'|]].
    + exists s'. split; [|exact Hhist'].
      rewrite <- Hid'. exact (stored_of_razorpay w' _ s' Hnd' Hfind').
    + destruct Hwrites as (Hsubs & Huser & Hpayment).
      assert (Hfirst : charged_writes_accepted accepts s u sub pay (clock w)
                         (payment_of_razorpay w (R.id pay))).
      { split; [|split; [exact Huser|exact Hpayment]]. apply (Hsubs 0%nat). lia. }
      exact (proj2 (proj2 (proj2 (proj2 (proj2 (proj2
               (charged_delivery accepts data w sub pay s u Hsub Hpay Hfind Hnd Hu
                  Hle Hfirst))))))).
  - exact (proj1 (proj2 (proj2 schema_refuses_handler_writes))).
Qed.

Lemma charged_redelivery_keeps_one_payment_witness :
  unique_payment_ids (Scenario.world "active" 2000)
  /\ redelivered_writes_accepted schema_accepts (Scenario.subscription "active")
       Scenario.customer {| R.subscription_id := "sub_1"; R.current_end := 9 |}
       Scenario.charge 2000 None 3
  /\ payments_of_razorpay (Scenario.world "active" 2000) "pay_X" = []
  /\ List.length
       (payments_of_razorpay
          (redeliver schema_accepts 3 "subscription.charged" Scenario.event_data
             (Scenario.world "active" 2000)) "pay_X") = 1%nat
  /\ notifications
       (db (redeliver schema_accepts 3 "subscription.charged" Scenario.event_data
              (Scenario.world "active" 2000))) = [].
Proof.
  assert (Hunique : unique_payment_ids (Scenario.world "active" 2000))
    by constructor.
  assert (Hwrites : redelivered_writes_accepted schema_accepts
                      (Scenario.subscription "active") Scenario.customer
                      {| R.subscription_id := "sub_1"; R.current_end := 9 |}
                      Scenario.charge 2000 None 3).
  { split; [|split; [reflexivity|intros _; reflexivity]].
    intros k Hk. destruct k as [|[|[|k]]]; [reflexivity..|lia]. }
  split; [exact Hunique|]. split; [exact Hwrites|]. split; [reflexivity|].
  split; [|reflexivity].
  refine (proj1 (proj1 (proj2 (charged_redelivery_keeps_one_payment schema_accepts
                                 (Scenario.world "active" 2000) Hunique))
                   Scenario.event_data
                   {| R.subscription_id := "sub_1"; R.current_end := 9 |}
                   Scenario.charge (Scenario.subscription "active") Scenario.customer
                   2%nat eq_refl eq_refl eq_refl _ eq_refl Hwrites)).
  repeat constructor. simpl. tauto.
Defined.

(** * Further properties *)

(** ** Events without a handler, payloads without their entity *)

Lemma handleWebhook_thrown (accepts : StoreWrite -> bool) (event : string)
    (data : R.data) (w : World) (e : Error) (w' : World) :
  RazorpayWebhookService.dispatch accepts event data (received event w)
  = (Throw e, w') ->
  RazorpayWebhookService.handleWebhook accepts event data w
  = (Throw e, failed event w').
Proof.
  intros H. unfold RazorpayWebhookService.handleWebhook, bind, logger, try_catch.
  cbv beta iota. fold (received event w). now rewrite H.
Qed.

Lemma handleWebhook_returned (accepts : StoreWrite -> bool) (event : string)
    (data : R.data) (w w' : World) :
  RazorpayWebhookService.dispatch accepts event data (received event w)
  = (Ok tt, w') ->
  RazorpayWebhookService.handleWebhook accepts event data w = (Ok tt, w').
Proof.
  intros H. unfold RazorpayWebhookService.handleWebhook, bind, logger, try_catch.
  cbv beta iota. fold (received event w). now rewrite H.
Qed.

(** X1.  An event that [handleWebhook] has no case for is logged twice, as
    received and as unhandled, and acknowledged: no error, and the database
    is left as it was, whatever the payload. *)
Theorem handleWebhook_unhandled_event :
  forall (accepts : StoreWrite -> bool) (event : string) (data : R.data) (w : World),
    includes handled_events event = false ->
    RazorpayWebhookService.handleWebhook accepts event data w
    = (Ok tt,
       add_log (received event w) warn ("Unhandled Razorpay webhook event: " ^^ event))
    /\ db (snd (RazorpayWebhookService.handleWebhook accepts event data w)) = db w.
Proof.
  intros accepts event data w H.
  assert (Hcall : RazorpayWebhookService.handleWebhook accepts event data w
                  = (Ok tt, add_log (received event w) warn
                              ("Unhandled Razorpay webhook event: " ^^ event))).
  { apply handleWebhook_returned. unfold RazorpayWebhookService.dispatch.
    unfold includes, handled_events, payment_events, subscription_events in H.
    cbn [existsb app] in H. rewrite !orb_false_iff in H.
    destruct H as (H1 & H2 & H3 & H4 & H5 & H6 & H7 & H8 & H9 & H10 & H11 & _).
    now rewrite H1, H2, H3, H4, H5, H6, H7, H8, H9, H10, H11. }
  split; [exact Hcall|]. now rewrite Hcall.
Qed.

Lemma handleWebhook_unhandled_event_witness :
  includes handled_events "invoice.paid" = false
  /\ RazorpayWebhookService.handleWebhook accept_all "invoice.paid"
       Scenario.event_data (Scenario.world "active" 2000)
     = (Ok tt,
        add_log (received "invoice.paid" (Scenario.world "active" 2000)) warn
          "Unhandled Razorpay webhook event: invoice.paid").
Proof.
  split; [reflexivity|].
  apply (handleWebhook_unhandled_event accept_all "invoice.paid" Scenario.event_data
           (Scenario.world "active" 2000)).
  reflexivity.
Defined.

Ltac to_handler h :=
  match goal with
  | |- RazorpayWebhookService.dispatch ?a _ ?d ?w = ?r => change (h a d w = r)
  end;
  unfold h.

(** X2.  A handled event whose payload lacks the entity its handler reads (a
    payment event without [payment], a subscription event without
    [subscription]) makes the handler throw a [TypeError] before any read of
    the store: [handleWebhook] logs the error and throws it again, and the
    database is left as it was. *)
Theorem handleWebhook_missing_entity :
  forall (accepts : StoreWrite -> bool) (event : string) (data : R.data) (w : World),
    (includes payment_events event = true /\ R.payment data = None)
    \/ (includes subscription_events event = true /\ R.subscription data = None) ->
    exists message,
      RazorpayWebhookService.handleWebhook accepts event data w
      = (Throw (TypeError message), failed event (received event w))
      /\ db (failed event (received event w)) = db w.
Proof.
  intros accepts event data w H.
  exists "Cannot read properties of undefined (reading 'id')".
  split; [|reflexivity].
  apply handleWebhook_thrown.
  destruct H as [[Hev Hnone] | [Hev Hnone]].
  - unfold includes, payment_events in Hev. cbn [existsb] in Hev.
    rewrite !orb_true_iff, !String.eqb_eq in Hev.
    destruct Hev as [-> | [-> | Habs]]; [| | discriminate].
    + to_handler RazorpayWebhookService.handlePaymentCaptured. now rewrite Hnone.
    + to_handler RazorpayWebhookService.handlePaymentFailed. now rewrite Hnone.
  - unfold includes, subscription_events in Hev. cbn [existsb] in Hev.
    rewrite !orb_true_iff, !String.eqb_eq in Hev.
    destruct Hev
      as [-> | [-> | [-> | [-> | [-> | [-> | [-> | [-> | [-> | Habs]]]]]]]]];
      [| | | | | | | | | discriminate].
    + to_handler RazorpayWebhookService.handleSubscriptionActivated. now rewrite Hnone.
    + to_handler RazorpayWebhookService.handleSubscriptionCharged. now rewrite Hnone.
    + to_handler RazorpayWebhookService.handleSubscriptionCompleted. now rewrite Hnone.
    + to_handler RazorpayWebhookService.handleSubscriptionCancelled. now rewrite Hnone.
    + to_handler RazorpayWebhookService.handleSubscriptionPaused. now rewrite Hnone.
    + to_handler RazorpayWebhookService.handleSubscriptionResumed. now rewrite Hnone.
    + to_handler RazorpayWebhookService.handleSubscriptionHalted. now rewrite Hnone.
    + to_handler RazorpayWebhookService.handleSubscriptionPending. now rewrite Hnone.
    + to_handler RazorpayWebhookService.handleSubscriptionUpdated. now rewrite Hnone.
Qed.

Lemma handleWebhook_missing_entity_witness :
  (includes payment_events "payment.captured" = true
   /\ R.payment {| R.payment := None; R.subscription := None |} = None)
  /\ exists message,
       RazorpayWebhookService.handleWebhook accept_all "payment.captured"
         {| R.payment := None; R.subscription := None |} (Scenario.world "active" 2000)
       = (Throw (TypeError message),
          failed "payment.captured"
            (received "payment.captured" (Scenario.world "active" 2000))).
Proof.
  assert (H : includes payment_events "payment.captured" = true
              /\ R.payment {| R.payment := None; R.subscription := None |} = None)
    by (split; reflexivity).
  split; [exact H|].
  destruct (handleWebhook_missing_entity accept_all "payment.captured"
              {| R.payment := None; R.subscription := None |}
              (Scenario.world "active" 2000) (or_introl H))
    as (message & Hcall & _).
  now exists message.
Defined.

(** ** What no delivery does *)

Lemma extends_refl (w : World) : extends w w.
Proof.
  repeat split; try (exists []; now rewrite app_nil_r).
Qed.

Lemma extends_trans (w0 w1 w2 : World) :
  extends w0 w1 -> extends w1 w2 -> extends w0 w2.
Proof.
  intros (Hs & Hu & [p Hp] & [n Hn] & [l Hl] & Hc)
         (Hs' & Hu' & [p' Hp'] & [n' Hn'] & [l' Hl'] & Hc').
  repeat split; try congruence.
  - exists (p ++ p'). now rewrite Hp', Hp, app_assoc.
  - exists (n ++ n'). now rewrite Hn', Hn, app_assoc.
  - exists (l ++ l'). now rewrite Hl', Hl, app_assoc.
Qed.

Section Conservation.

Context {A : Type}.

Lemma conservative_ret (a : A) : conservative (ret a).
Proof. intros w. apply extends_refl. Qed.

Lemma conservative_throw (e : Error) : conservative (@throw A e).
Proof. intros w. apply extends_refl. Qed.

Lemma conservative_bind {B} (m : M B) (k : B -> M A) :
  conservative m -> (forall b, conservative (k b)) -> conservative (bind m k).
Proof.
  intros Hm Hk w. unfold bind. specialize (Hm w).
  destruct (m w) as [[b|e] w']; cbn [snd] in *; [|exact Hm].
  exact (extends_trans _ _ _ Hm (Hk b w')).
Qed.

Lemma conservative_try_catch (m : M A) (h : Error -> M A) :
  conservative m -> (forall e, conservative (h e)) -> conservative (try_catch m h).
Proof.
  intros Hm Hh w. unfold try_catch. specialize (Hm w).
  destruct (m w) as [[a|e] w']; cbn [snd] in *; [exact Hm|].
  exact (extends_trans _ _ _ Hm (Hh e w')).
Qed.

End Conservation.

Create HintDb conserve.

Lemma map_update_one_found {D K} (id_of : D -> ObjectId) (key : D -> K)
    (id : ObjectId) (f : D -> D) (l : list D) (d : D) :
  List.find (has_id id_of id) l = Some d ->
  key (f d) = key d ->
  map key (update_one id_of id f l) = map key l.
Proof.
  unfold has_id. intros Hfind Hkey. induction l as [|x l IH]; simpl; [reflexivity|].
  simpl in Hfind. destruct (Nat.eqb (id_of x) id); simpl.
  - injection Hfind as ->. now rewrite Hkey.
  - now rewrite IH.
Qed.

Lemma flush_subscription_frame (d : Subscription.Doc) (s : S.doc) :
  Forall handler_change (pending d) ->
  subscription_frame (flush S.apply d s) = subscription_frame s.
Proof.
  unfold flush. generalize dependent s.
  induction (pending d) as [|c l IH]; intros s Hall; simpl; [reflexivity|].
  inversion Hall as [|? ? Hc Hl]; subst. rewrite (IH _ Hl).
  destruct c; try reflexivity; contradiction.
Qed.

Lemma flush_payment_frame (d : Payment.Doc) (p : P.doc) :
  payment_frame (flush P.apply d p) = payment_frame p.
Proof.
  unfold flush. generalize dependent p.
  induction (pending d) as [|c l IH]; intros p; simpl; [reflexivity|].
  now rewrite IH.
Qed.

Section Conservative.

Variable accepts : StoreWrite -> bool.

Lemma conservative_get_db : conservative get_db.
Proof. intros w. apply extends_refl. Qed.

Lemma conservative_now : conservative now.
Proof. intros w. apply extends_refl. Qed.

Lemma conservative_logger (l : Level) (line : string) : conservative (logger l line).
Proof.
  intros w. repeat split; try (exists []; now rewrite app_nil_r).
  now exists [(l, line)].
Qed.

Lemma conservative_prop {B} (name : string) (x : option B) :
  conservative (RazorpayWebhookService.prop name x).
Proof. destruct x; intros w; apply extends_refl. Qed.

Lemma conservative_subscription_find (p : S.doc -> bool) :
  conservative (Subscription.find p).
Proof. intros w. apply extends_refl. Qed.

Lemma conservative_payment_find (p : P.doc -> bool) : conservative (Payment.find p).
Proof. intros w. apply extends_refl. Qed.

Lemma conservative_bind_find {B} (p : S.doc -> bool)
    (k : option Subscription.Doc -> M B) :
  (forall found, match found with
                 | Some d => pending d = []
                 | None => True
                 end -> conservative (k found)) ->
  conservative (bind (Subscription.find p) k).
Proof.
  intros Hk w. unfold Subscription.find. cbv [bind get_db ret].
  apply Hk. now destruct (List.find p (subscriptions (db w))).
Qed.

Lemma conservative_subscription_save (d : Subscription.Doc) :
  Forall handler_change (pending d) ->
  conservative (Subscription.save accepts d).
Proof.
  intros Hall w. unfold Subscription.save.
  destruct (accepts (SaveSubscription (paths d))); [|apply extends_refl].
  unfold bind, get_db, put_db, ret, throw. cbv beta iota.
  destruct (existsb _ (subscriptions (db w))); [|apply extends_refl].
  repeat split; try (exists []; now rewrite app_nil_r).
  cbn [snd set_db db with_subscriptions subscriptions].
  apply map_update_one. intros x. now apply flush_subscription_frame.
Qed.

Lemma conservative_payment_save (d : Payment.Doc) : conservative (Payment.save accepts d).
Proof.
  intros w. unfold Payment.save.
  destruct (accepts (SavePayment (P.data (paths d)))); [|apply extends_refl].
  unfold bind, get_db, put_db, ret, throw. cbv beta iota.
  destruct (existsb _ (payments (db w))); [|apply extends_refl].
  repeat split; try (exists []; now rewrite app_nil_r).
  exists []. rewrite app_nil_r. cbn [snd set_db db with_payments payments].
  apply map_update_one. intros x. apply flush_payment_frame.
Qed.

Lemma conservative_payment_create (p : P.fields) :
  conservative (Payment.create accepts p).
Proof.
  intros w. unfold Payment.create.
  destruct (accepts (SavePayment p)); [|apply extends_refl].
  unfold bind, get_db, put_db, ret, throw. cbv beta iota.
  destruct (existsb _ (payments (db w))); [apply extends_refl|].
  repeat split; try (exists []; now rewrite app_nil_r).
  cbn [snd set_db db with_payments payments]. rewrite map_app. now eexists.
Qed.

Lemma conservative_createNotification (n : N.fields) :
  conservative (Notification.createNotification accepts n).
Proof.
  intros w. rewrite createNotification_outcome.
  destruct (accepts (SaveNotification n)); [|apply extends_refl].
  repeat split; try (exists []; now rewrite app_nil_r). now eexists.
Qed.

Lemma conservative_user_update (id : ObjectId) (status : string)
    (expiryDate : option Date) :
  conservative (User.updateSubscriptionStatus accepts id status expiryDate).
Proof.
  intros w. unfold User.updateSubscriptionStatus, User.findById.
  unfold bind at 1. unfold bind at 1. unfold get_db, ret. cbv beta iota.
  fold (stored_user w id).
  destruct (stored_user w id) as [u|] eqn:Hu; [|apply extends_refl].
  fold (user_with u status expiryDate). set (u' := user_with u status expiryDate).
  unfold User.save. destruct (accepts (SaveUser u')); [|apply extends_refl].
  unfold bind, get_db, put_db, ret, throw. cbv beta iota.
  destruct (existsb _ (users (db w))); [|apply extends_refl].
  repeat split; try (exists []; now rewrite app_nil_r).
  cbn [snd set_db db with_users users].
  apply (map_update_one_found U._id user_frame (U._id u') (fun _ => u') _ u);
    [|reflexivity].
  cbn [u' user_with U._id]. rewrite (user_id_of_stored w id u Hu). exact Hu.
Qed.

Ltac conserve_step :=
  first
    [ apply conservative_ret
    | apply conservative_throw
    | solve [auto with conserve]
    | apply conservative_bind_find; intros [?|] ?
    | apply conservative_bind; [|intros ?]
    | apply conservative_try_catch; [|intros ?]
    | match goal with
      | |- conservative (match ?x with _ => _ end) => destruct x
      end ].

Ltac conserve := repeat conserve_step.

#[local] Hint Resolve conservative_get_db conservative_now conservative_logger
  conservative_prop conservative_subscription_find conservative_payment_find
  conservative_payment_save conservative_payment_create
  conservative_createNotification conservative_user_update : conserve.

Lemma conservative_updateSubscriptionStatus (id : ObjectId) (status : string)
    (details : option string) :
  conservative (Subscription.updateSubscriptionStatus accepts id status details).
Proof.
  unfold Subscription.updateSubscriptionStatus, Subscription.findById.
  apply conservative_bind_find. intros [subscription|] Hclean; [|conserve].
  apply conservative_bind; [conserve|]. intros t.
  destruct (status =? "cancelled")%string; intros w; cbv [bind now ret];
    apply conservative_subscription_save;
    cbn [Subscription.assign modify pending]; rewrite Hclean; repeat constructor.
Qed.

Lemma conservative_push_history_and_save (d : Subscription.Doc) (action : string)
    (details : Text) :
  Forall handler_change (pending d) ->
  conservative (RazorpayWebhookService.push_history_and_save accepts d action details).
Proof.
  intros Hall. unfold RazorpayWebhookService.push_history_and_save. conserve.
  apply conservative_subscription_save. cbn [Subscription.assign modify pending].
  apply Forall_app. split; [exact Hall|repeat constructor].
Qed.

Lemma conservative_updatePaymentStatus (id : ObjectId) (status : string)
    (additionalData : list P.change) :
  conservative (Payment.updatePaymentStatus accepts id status additionalData).
Proof. unfold Payment.updatePaymentStatus, Payment.findById. conserve. Qed.

Lemma conservative_addNote (this : Payment.Doc) (content : string)
    (createdBy : option ObjectId) :
  conservative (Payment.addNote accepts this content createdBy).
Proof. unfold Payment.addNote. conserve. Qed.

Lemma conservative_createPayment (p : P.fields) :
  conservative (Payment.createPayment accepts p).
Proof. unfold Payment.createPayment. conserve. Qed.

#[local] Hint Resolve conservative_updateSubscriptionStatus
  conservative_updatePaymentStatus conservative_addNote conservative_createPayment
  : conserve.

Lemma conservative_dispatch (event : string) (data : R.data) :
  conservative (RazorpayWebhookService.dispatch accepts event data).
Proof.
  unfold RazorpayWebhookService.dispatch,
    RazorpayWebhookService.handlePaymentCaptured,
    RazorpayWebhookService.handlePaymentFailed,
    RazorpayWebhookService.handleSubscriptionActivated,
    RazorpayWebhookService.handleSubscriptionCharged,
    RazorpayWebhookService.handleSubscriptionCompleted,
    RazorpayWebhookService.handleSubscriptionCancelled,
    RazorpayWebhookService.handleSubscriptionPaused,
    RazorpayWebhookService.handleSubscriptionResumed,
    RazorpayWebhookService.handleSubscriptionHalted,
    RazorpayWebhookService.handleSubscriptionPending,
    RazorpayWebhookService.handleSubscriptionUpdated,
    Subscription.findOne_razorpaySubscriptionId, Payment.findOne_razorpayPaymentId.
  repeat first
    [ apply conservative_push_history_and_save;
      cbn [Subscription.assign modify pending];
      match goal with H : pending _ = [] |- _ => rewrite H end; repeat constructor
    | conserve_step ].
Qed.

Lemma conservative_handleWebhook (event : string) (data : R.data) :
  conservative (RazorpayWebhookService.handleWebhook accepts event data).
Proof.
  unfold RazorpayWebhookService.handleWebhook. conserve. apply conservative_dispatch.
Qed.

End Conservative.

(** X3.  Whatever events are delivered, whatever their payloads and
    whatever the store accepts, the webhook service creates and deletes no
    subscription and no user; it never assigns the user, the plan, the
    Razorpay identifiers, the billing cycle, the start date, the usage
    counters and limits, the features or the cancellation details of a
    subscription, nor the identity of a user or of a stored payment; stored
    notifications are never modified; payments, notifications and log lines
    are only appended. *)
Theorem deliveries_only_extend :
  forall (accepts : StoreWrite -> bool) (deliveries : list (string * R.data))
         (w : World),
    extends w (deliver accepts deliveries w).
Proof.
  intros accepts deliveries. induction deliveries as [|[event data] l IH]; intros w.
  - apply extends_refl.
  - unfold deliver. cbn [fold_left fst snd].
    exact (extends_trans _ _ _ (conservative_handleWebhook accepts event data w)
             (IH _)).
Qed.

(** ** The subscription model on its own *)

(** X4.  On an id that no stored subscription has, [updateSubscriptionStatus],
    [cancelSubscription], [renewSubscription] and [updateUsage] throw the
    APIError 'Subscription not found' with code 404, while [checkUsageLimit]
    throws nothing and answers [{ allowed: false, reason: 'Subscription not
    found' }]; none of them changes anything. *)
Theorem subscription_methods_on_unknown_id :
  forall (accepts : StoreWrite -> bool) (id : ObjectId) (w : World),
    stored_subscription w id = None ->
    (forall status details,
        Subscription.updateSubscriptionStatus accepts id status details w
        = (subscription_not_found, w))
    /\ (forall reason feedback cancelledBy,
           Subscription.cancelSubscription accepts id reason feedback cancelledBy w
           = (subscription_not_found, w))
    /\ (forall nextBillingDate,
           Subscription.renewSubscription accepts id nextBillingDate w
           = (subscription_not_found, w))
    /\ (forall resourceType increment,
           Subscription.updateUsage accepts id resourceType increment w
           = (subscription_not_found, w))
    /\ (forall resourceType,
           Subscription.checkUsageLimit id resourceType w
           = (Ok {| Subscription.allowed := false;
                    Subscription.reason := "Subscription not found";
                    Subscription.current := None;
                    Subscription.limit := None |}, w)).
Proof.
  intros accepts id w Hs. repeat split; intros.
  - now apply updateSubscriptionStatus_missing.
  - unfold Subscription.cancelSubscription.
    now rewrite (bind_ok _ _ _ _ _ (findById_stored id w)), Hs.
  - unfold Subscription.renewSubscription.
    now rewrite (bind_ok _ _ _ _ _ (findById_stored id w)), Hs.
  - unfold Subscription.updateUsage.
    now rewrite (bind_ok _ _ _ _ _ (findById_stored id w)), Hs.
  - unfold Subscription.checkUsageLimit.
    now rewrite (bind_ok _ _ _ _ _ (findById_stored id w)), Hs.
Qed.

Lemma subscription_methods_on_unknown_id_witness :
  stored_subscription (Scenario.world "active" 0) 9%nat = None
  /\ Subscription.updateUsage accept_all 9%nat "projects" 1 (Scenario.world "active" 0)
     = (subscription_not_found, Scenario.world "active" 0).
Proof.
  split; [reflexivity|].
  apply (subscription_methods_on_unknown_id accept_all 9%nat (Scenario.world "active" 0)).
  reflexivity.
Defined.

(** X5.  [renewSubscription] on a stored subscription, when the store takes
    the renewed document it saves, makes it 'active' whatever its status
    was, sets [nextBillingDate] to the given date and [endDate] 365 days
    after it for a 'yearly' billing cycle and 30 days after it for any
    other, and appends one 'renewed' entry dated now; the cancellation date
    and the other paths of the model ([user], [plan], the Razorpay
    identifiers, [startDate], [usage], [features], [cancellation]) stay as
    they were. *)
Theorem renewSubscription_effect :
  forall (accepts : StoreWrite -> bool) (id : ObjectId) (nextBillingDate : Date)
         (w : World) (s : S.doc),
    stored_subscription w id = Some s ->
    accepts (SaveSubscription (paths (renewed_document s nextBillingDate (clock w))))
    = true ->
    exists d s',
      fst (Subscription.renewSubscription accepts id nextBillingDate w) = Ok d
      /\ stored_subscription
           (snd (Subscription.renewSubscription accepts id nextBillingDate w)) id
         = Some s'
      /\ paths d = s'
      /\ S.status s' = "active"
      /\ S.nextBillingDate s' = Some nextBillingDate
      /\ S.endDate s'
         = Some (nextBillingDate
                 + days_ms (if (S.billingCycle s =? "yearly")%string
                            then 365 else 30))
      /\ S.history s'
         = S.history s
           ++ [{| S.action := "renewed"; S.date := clock w;
                  S.details := Str "Subscription renewed" |}]
      /\ S.cancelledAt s' = S.cancelledAt s
      /\ subscription_frame s' = subscription_frame s.
Proof.
  intros accepts id next w s Hs Hacc.
  pose proof (stored_id w id s Hs) as Hid. subst id.
  set (d := renewed_document s next (clock w)).
  destruct (save_loaded accepts d w s Hacc Hs eq_refl eq_refl) as [Hcall Hst].
  rewrite (renewSubscription_found accepts (S._id s) next w s Hs). fold d.
  rewrite Hcall.
  exists (saved d), (paths d). cbn [fst snd].
  split; [reflexivity|]. split; [exact Hst|]. split; [reflexivity|].
  split; [reflexivity|]. split; [reflexivity|].
  split; [|repeat split].
  reflexivity.
Qed.

Lemma renewSubscription_effect_witness :
  stored_subscription (Scenario.world "cancelled" 0) 1%nat
  = Some (Scenario.subscription "cancelled")
  /\ schema_accepts
       (SaveSubscription
          (paths (renewed_document (Scenario.subscription "cancelled") 1000 0)))
     = true
  /\ exists d s',
      fst (Subscription.renewSubscription schema_accepts 1%nat 1000
             (Scenario.world "cancelled" 0)) = Ok d
      /\ stored_subscription
           (snd (Subscription.renewSubscription schema_accepts 1%nat 1000
                   (Scenario.world "cancelled" 0))) 1%nat = Some s'
      /\ paths d = s'
      /\ S.status s' = "active"
      /\ S.nextBillingDate s' = Some 1000
      /\ S.endDate s'
         = Some (1000
                 + days_ms (if (S.billingCycle (Scenario.subscription "cancelled")
                                =? "yearly")%string
                            then 365 else 30))
      /\ S.history s'
         = S.history (Scenario.subscription "cancelled")
           ++ [{| S.action := "renewed";
                  S.date := clock (Scenario.world "cancelled" 0);
                  S.details := Str "Subscription renewed" |}]
      /\ S.cancelledAt s' = S.cancelledAt (Scenario.subscription "cancelled")
      /\ subscription_frame s' = subscription_frame (Scenario.subscription "cancelled").
Proof.
  split; [reflexivity|]. split; [reflexivity|].
  apply (renewSubscription_effect schema_accepts 1%nat 1000
           (Scenario.world "cancelled" 0) (Scenario.subscription "cancelled")).
  - reflexivity.
  - reflexivity.
Defined.

Lemma in_update_one {D} (id_of : D -> ObjectId) (id : ObjectId) (f : D -> D)
    (l : list D) (x : D) :
  (forall d, id_of d = id -> id_of (f d) = id) ->
  NoDup (map id_of l) ->
  In x (update_one id_of id f l) ->
  id_of x = id ->
  exists d, List.find (has_id id_of id) l = Some d /\ x = f d.
Proof.
  unfold has_id. intros Hf. induction l as [|y l IH]; simpl; [contradiction|].
  intros Hnd Hin Hx. inversion Hnd as [|? ? Hnotin Hnd']; subst.
  destruct (Nat.eqb (id_of y) (id_of x)) eqn:E.
  - destruct Hin as [<-|Hin]; [now exists y|].
    exfalso. apply Hnotin. apply Nat.eqb_eq in E. rewrite E. now apply in_map.
  - destruct Hin as [<-|Hin]; [now rewrite Nat.eqb_refl in E|].
    now apply IH.
Qed.

(** X6.  [cancelSubscription] on a stored subscription, when the store takes
    the cancelled document it saves, makes it 'cancelled', dates the
    cancellation now, records the reason, the feedback and who cancelled,
    and appends one 'cancelled' entry whose details name the reason, or
    'Not specified' when none or an empty one is given.  Afterwards
    [getUserActiveSubscription] no longer answers that subscription for any
    user (identifiers being distinct). *)
Theorem cancelSubscription_effect :
  forall (accepts : StoreWrite -> bool) (id : ObjectId)
         (reason feedback : option string) (cancelledBy : option ObjectId)
         (w : World) (s : S.doc),
    distinct_subscription_ids w ->
    stored_subscription w id = Some s ->
    accepts (SaveSubscription
               (paths (cancelled_document s reason feedback cancelledBy (clock w))))
    = true ->
    let w' := snd (Subscription.cancelSubscription accepts id reason feedback
                     cancelledBy w) in
    (exists s',
        stored_subscription w' id = Some s'
        /\ S.status s' = "cancelled"
        /\ S.cancelledAt s' = Some (clock w)
        /\ S.cancellation s'
           = Some {| S.reason := reason; S.feedback := feedback;
                     S.cancelledBy := cancelledBy |}
        /\ S.history s'
           = S.history s
             ++ [{| S.action := "cancelled"; S.date := clock w;
                    S.details := Str ("Subscription cancelled. Reason: "
                                      ^^ or_else reason "Not specified") |}]
        /\ S.usage s' = S.usage s
        /\ S.endDate s' = S.endDate s)
    /\ forall userId d,
        fst (Subscription.getUserActiveSubscription userId w') = Ok (Some d) ->
        S._id (paths d) <> id.
Proof.
  intros accepts id reason feedback by_ w s Hnd Hs Hacc w'.
  pose proof (stored_id w id s Hs) as Hid. subst id.
  set (d := cancelled_document s reason feedback by_ (clock w)).
  destruct (save_loaded accepts d w s Hacc Hs eq_refl eq_refl) as [Hcall Hst].
  assert (Hw' : w' = subscription_saved d w).
  { unfold w'.
    rewrite (cancelSubscription_found accepts (S._id s) reason feedback by_ w s Hs).
    fold d. now rewrite Hcall. }
  rewrite Hw'. split.
  - exists (paths d). split; [exact Hst|]. repeat split.
  - intros userId x Hx Heq.
    unfold Subscription.getUserActiveSubscription, Subscription.find in Hx.
    cbv [bind get_db ret fst] in Hx.
    destruct (List.find _ (subscriptions (db (subscription_saved d w))))
      as [y|] eqn:Hfind; [|discriminate].
    cbn [option_map] in Hx. injection Hx as <-. cbn [hydrate paths] in Heq.
    apply find_some in Hfind. destruct Hfind as [Hin Hp].
    cbn [subscription_saved set_db db with_subscriptions subscriptions] in Hin.
    destruct (in_update_one S._id (S._id (paths d)) (flush S.apply d) _ y
                (fun x e => eq_trans (subscription_flush_id d x) e) Hnd Hin Heq)
      as (s0 & Hs0 & ->).
    change (stored_subscription w (S._id (paths d)) = Some s0) in Hs0.
    change (S._id (paths d)) with (S._id s) in Hs0.
    rewrite Hs in Hs0. injection Hs0 as <-.
    apply andb_true_iff in Hp. destruct Hp as [_ Hp].
    change (S.status (flush S.apply d s)) with "cancelled" in Hp. discriminate.
Qed.

Lemma cancelSubscription_effect_witness :
  distinct_subscription_ids (Scenario.world "active" 40)
  /\ stored_subscription (Scenario.world "active" 40) 1%nat
     = Some (Scenario.subscription "active")
  /\ schema_accepts
       (SaveSubscription
          (paths (cancelled_document (Scenario.subscription "active") (Some "") None
                    None 40)))
     = true
  /\ fst (Subscription.getUserActiveSubscription 7%nat
            (snd (Subscription.cancelSubscription schema_accepts 1%nat (Some "") None
                    None (Scenario.world "active" 40))))
     = Ok None.
Proof.
  split; [repeat constructor; intros []|]. split; [reflexivity|].
  split; [reflexivity|].
  destruct (cancelSubscription_effect schema_accepts 1%nat (Some "") None None
              (Scenario.world "active" 40) (Scenario.subscription "active"))
    as [_ Hnone].
  - repeat constructor. intros [].
  - reflexivity.
  - reflexivity.
  - destruct (fst (Subscription.getUserActiveSubscription 7%nat _))
      as [[d|]|e] eqn:E; [|reflexivity|discriminate E].
    exfalso. apply (Hnone 7%nat d E).
    vm_compute in E. discriminate E.
Defined.

(** X7.  For every subscription and each of the six resource keys of the
    schema, with counters that are safe integers, [canCreateResource]
    answers true exactly when [getRemainingQuota] is not 0; the quota is -1
    exactly for an unlimited resource (limit -1) and is never below that. *)
Theorem canCreateResource_iff_quota :
  forall (s : S.doc) (resourceType : string) (r : S.Resource),
    S.resource_of_key resourceType = Some r ->
    safe_integer (S.current (S.counter r (S.usage s))) ->
    safe_integer (S.limit (S.counter r (S.usage s))) ->
    Subscription.canCreateResource s resourceType
    = negb (Subscription.getRemainingQuota s resourceType =? 0)
    /\ -1 <= Subscription.getRemainingQuota s resourceType
    /\ (Subscription.getRemainingQuota s resourceType = -1
        <-> S.limit (S.counter r (S.usage s)) = -1).
Proof.
  intros s rt r Hr _ _.
  unfold Subscription.canCreateResource, Subscription.getRemainingQuota.
  change (Subscription.S.resource_of_key rt) with (S.resource_of_key rt).
  rewrite Hr. cbv zeta.
  change (Subscription.S.counter r (Subscription.S.usage s))
    with (S.counter r (S.usage s)).
  set (c := S.counter r (S.usage s)).
  change (Subscription.S.limit c) with (S.limit c).
  change (Subscription.S.current c) with (S.current c).
  destruct (Z.eqb_spec (S.limit c) (-1)) as [E|E]; cbv beta iota.
  - repeat split; try lia; eauto.
  - split; [|split; [lia|split; [lia|contradiction]]].
    destruct (Z.ltb_spec (S.current c) (S.limit c));
      destruct (Z.eqb_spec (Z.max 0 (S.limit c - S.current c)) 0);
      try reflexivity; exfalso; lia.
Qed.

Lemma canCreateResource_iff_quota_witness :
  S.resource_of_key "projects" = Some S.Projects
  /\ Subscription.canCreateResource (Scenario.subscription "active") "projects" = true
  /\ Subscription.getRemainingQuota (Scenario.subscription "active") "projects" = 2.
Proof.
  split; [reflexivity|].
  destruct (canCreateResource_iff_quota (Scenario.subscription "active") "projects"
              S.Projects eq_refl) as (H & _ & _).
  - unfold safe_integer. simpl. lia.
  - unfold safe_integer. simpl. lia.
  - split; [rewrite H|]; reflexivity.
Defined.

(** X8.  On a stored subscription the static [checkUsageLimit] allows exactly
    what the instance method [canCreateResource] allows; it reports the
    current count and the limit only when it refuses a known resource, and
    it changes nothing. *)
Theorem checkUsageLimit_agrees_with_canCreateResource :
  forall (id : ObjectId) (resourceType : string) (w : World) (s : S.doc),
    stored_subscription w id = Some s ->
    exists c,
      Subscription.checkUsageLimit id resourceType w = (Ok c, w)
      /\ Subscription.allowed c = Subscription.canCreateResource s resourceType
      /\ (Subscription.current c
          = match S.resource_of_key resourceType with
            | Some r => if Subscription.allowed c then None
                        else Some (S.current (S.counter r (S.usage s)))
            | None => None
            end)
      /\ (Subscription.limit c
          = match S.resource_of_key resourceType with
            | Some r => if Subscription.allowed c then None
                        else Some (S.limit (S.counter r (S.usage s)))
            | None => None
            end).
Proof.
  intros id rt w s Hs. unfold Subscription.canCreateResource.
  destruct (S.resource_of_key rt) as [r|] eqn:Hr.
  - rewrite (checkUsageLimit_found id rt w s r Hs Hr). cbv zeta.
    destruct (S.limit (S.counter r (S.usage s)) =? -1);
      [eexists; repeat split|].
    destruct (S.current (S.counter r (S.usage s))
              <? S.limit (S.counter r (S.usage s)));
      eexists; repeat split.
  - unfold Subscription.checkUsageLimit.
    rewrite (bind_ok _ _ _ _ _ (findById_stored id w)), Hs. cbn [option_map].
    cbv iota beta.
    change (Subscription.S.resource_of_key rt) with (S.resource_of_key rt).
    rewrite Hr. eexists; repeat split.
Qed.

Lemma checkUsageLimit_agrees_with_canCreateResource_witness :
  stored_subscription (Scenario.world "active" 0) 1%nat
  = Some (Scenario.subscription "active")
  /\ exists c,
      Subscription.checkUsageLimit 1%nat "projects" (Scenario.world "active" 0)
      = (Ok c, Scenario.world "active" 0)
      /\ Subscription.allowed c
         = Subscription.canCreateResource (Scenario.subscription "active") "projects".
Proof.
  split; [reflexivity|].
  destruct (checkUsageLimit_agrees_with_canCreateResource 1%nat "projects"
              (Scenario.world "active" 0) (Scenario.subscription "active") eq_refl)
    as (c & Hcall & Hallowed & _).
  exists c. split; [exact Hcall|exact Hallowed].
Defined.

Lemma set_current_same (r : S.Resource) (s : S.doc) :
  S.apply (S.SetCurrent r (S.current (S.counter r (S.usage s)))) s = s.
Proof.
  destruct s as [? ? ? ? ? ? ? ? ? ? ? u ? ? ?]. unfold S.apply. cbn. f_equal.
  destruct u as [[] [] [] [] [] []]. destruct r; reflexivity.
Qed.

(** X9.  [updateUsage] adds the increment to the stored counter with no
    check of the limit and no floor.  On a stored subscription and one of
    the six resource keys, with safe integers throughout, when the store
    takes the two documents saved: after an update by [a] followed by one
    by [b], made one after the other, the counter holds [current + a + b]
    with its limit unchanged, whatever the limit is and whatever the sign
    of the sum; the other counters, the history and the status are as they
    were; and when [b] is the opposite of [a] the whole [usage] is as it was
    before the two updates. *)
Theorem updateUsage_increments_add_up :
  forall (accepts : StoreWrite -> bool) (id : ObjectId) (resourceType : string)
         (r : S.Resource) (a b : Z) (w : World) (s : S.doc),
    stored_subscription w id = Some s ->
    S.resource_of_key resourceType = Some r ->
    let c := S.counter r (S.usage s) in
    let s1 := paths (usage_document s r (S.current c + a)) in
    safe_integer (S.current c) ->
    safe_integer a ->
    safe_integer b ->
    safe_integer (S.current c + a) ->
    safe_integer (S.current c + a + b) ->
    accepts (SaveSubscription s1) = true ->
    accepts (SaveSubscription (paths (usage_document s1 r (S.current c + a + b))))
    = true ->
    let w2 := snd (Subscription.updateUsage accepts id resourceType b
                     (snd (Subscription.updateUsage accepts id resourceType a w))) in
    exists s2,
      stored_subscription w2 id = Some s2
      /\ S.counter r (S.usage s2)
         = {| S.current := S.current c + a + b; S.limit := S.limit c |}
      /\ (forall r', r' <> r -> S.counter r' (S.usage s2) = S.counter r' (S.usage s))
      /\ S.history s2 = S.history s
      /\ S.status s2 = S.status s
      /\ (a + b = 0 -> S.usage s2 = S.usage s).
Proof.
  intros accepts id rt r a b w s Hs Hr c s1 _ _ _ _ _ Hacc1 Hacc2 w2.
  destruct (updateUsage_accepted accepts id rt a w s r Hs Hr Hacc1)
    as (Hcall1 & Hst1 & _).
  fold c in Hcall1, Hst1.
  set (d1 := usage_document s r (S.current c + a)) in *.
  assert (Hc1 : S.current (S.counter r (S.usage (paths d1))) = S.current c + a).
  { unfold d1, usage_document. simpl. now rewrite counter_set_same. }
  assert (Hacc2' : accepts (SaveSubscription
                              (paths (usage_document (paths d1) r
                                        (S.current (S.counter r (S.usage (paths d1)))
                                         + b)))) = true).
  { rewrite Hc1. exact Hacc2. }
  destruct (updateUsage_accepted accepts id rt b (subscription_saved d1 w) (paths d1) r
              Hst1 Hr Hacc2')
    as (Hcall2 & Hst2 & _).
  rewrite Hc1 in Hcall2, Hst2.
  set (d2 := usage_document (paths d1) r (S.current c + a + b)) in *.
  assert (Hw2 : w2 = subscription_saved d2 (subscription_saved d1 w)).
  { unfold w2. rewrite Hcall1. cbn [snd]. now rewrite Hcall2. }
  assert (Hd2 : paths d2 = S.apply (S.SetCurrent r (S.current c + a + b)) s).
  { unfold d2, d1, usage_document. cbn [Subscription.assign modify paths hydrate].
    apply set_current_twice. }
  exists (paths d2). rewrite Hw2. split; [exact Hst2|]. rewrite Hd2.
  split; [|split; [|split; [reflexivity|split; [reflexivity|]]]].
  - simpl. now rewrite counter_set_same.
  - intros r' Hne. simpl. now apply counter_set_other.
  - intros Hab. replace (S.current c + a + b) with (S.current c) by lia.
    unfold c. now rewrite set_current_same.
Qed.

Lemma updateUsage_increments_add_up_witness :
  stored_subscription (Scenario.world "active" 0) 1%nat
  = Some (Scenario.subscription "active")
  /\ S.resource_of_key "projects" = Some S.Projects
  /\ schema_accepts
       (SaveSubscription
          (paths (usage_document (Scenario.subscription "active") S.Projects (0 + 5))))
     = true
  /\ exists s2,
       stored_subscription
         (snd (Subscription.updateUsage schema_accepts 1%nat "projects" (-5)
                 (snd (Subscription.updateUsage schema_accepts 1%nat "projects" 5
                         (Scenario.world "active" 0))))) 1%nat = Some s2
       /\ S.counter S.Projects (S.usage s2) = {| S.current := 0; S.limit := 2 |}
       /\ S.usage s2 = S.usage (Scenario.subscription "active").
Proof.
  split; [reflexivity|]. split; [reflexivity|]. split; [reflexivity|].
  destruct (updateUsage_increments_add_up schema_accepts 1%nat "projects" S.Projects
              5 (-5) (Scenario.world "active" 0) (Scenario.subscription "active")
              eq_refl eq_refl)
    as (s2 & Hst & Hcount & _ & _ & _ & Husage);
    try (unfold safe_integer; simpl; lia); try reflexivity.
  exists s2. split; [exact Hst|]. split; [exact Hcount|]. apply Husage. reflexivity.
Defined.

(** ** The subscription tracking of the user model *)

Lemma active_at_entitled (t : Date) (u : U.doc) :
  User.active_at t u = entitled (U.subscriptionStatus u) (U.subscriptionExpiry u) t.
Proof.
  unfold User.active_at, entitled, includes. cbn [existsb].
  now rewrite orb_false_r.
Qed.

(** X10.  After [User.updateSubscriptionStatus] has stored a status and an
    expiry date for a user, the store taking the user document it saves,
    [hasActiveSubscription] answers true exactly
    when the status is 'active' or 'trial' and the expiry is strictly after
    now; called without an expiry date it keeps the date the user had, and
    a user without any is entitled for ever.  [getSubscriptionInfo] then
    reports that status, that expiry and the same answer. *)
Theorem hasActiveSubscription_after_update :
  forall (accepts : StoreWrite -> bool) (id : ObjectId) (status : string)
         (expiryDate : option Date) (w : World) (u : U.doc),
    stored_user w id = Some u ->
    accepts (SaveUser (user_with u status expiryDate)) = true ->
    let w' := snd (User.updateSubscriptionStatus accepts id status expiryDate w) in
    let expiry := match expiryDate with
                  | Some d => Some d
                  | None => U.subscriptionExpiry u
                  end in
    User.hasActiveSubscription id w' = (Ok (entitled status expiry (clock w)), w')
    /\ User.getSubscriptionInfo id w'
       = (Ok (Some {| User.status := status;
                      User.expiry := expiry;
                      User.isActive := entitled status expiry (clock w);
                      User.razorpayCustomerId := U.razorpayCustomerId u |}), w').
Proof.
  intros accepts id status expiryDate w u Hu Hacc w' expiry.
  pose proof (user_id_of_stored w id u Hu) as Hid.
  assert (Hw' : w' = user_saved (user_with u status expiryDate) w).
  { unfold w'. now rewrite (user_update_found accepts id status expiryDate w u Hu Hacc). }
  assert (Hst : stored_user w' id = Some (user_with u status expiryDate)).
  { rewrite Hw', <- Hid.
    apply (stored_user_saved (user_with u status expiryDate) w u).
    cbn [user_with U._id]. now rewrite Hid. }
  assert (Hclock : clock w' = clock w) by now rewrite Hw'.
  unfold User.hasActiveSubscription, User.getSubscriptionInfo, User.findById.
  cbv [bind get_db ret now]. fold (stored_user w' id). rewrite Hst, Hclock.
  rewrite active_at_entitled. split; reflexivity.
Qed.

Lemma hasActiveSubscription_after_update_witness :
  stored_user (Scenario.world "active" 5000) 7%nat = Some Scenario.customer
  /\ schema_accepts (SaveUser (user_with Scenario.customer "active" (Some 5000)))
     = true
  /\ fst (User.hasActiveSubscription 7%nat
            (snd (User.updateSubscriptionStatus schema_accepts 7%nat "active"
                    (Some 5000) (Scenario.world "active" 5000))))
     = Ok false.
Proof.
  split; [reflexivity|]. split; [reflexivity|].
  destruct (hasActiveSubscription_after_update schema_accepts 7%nat "active"
              (Some 5000) (Scenario.world "active" 5000) Scenario.customer)
    as [Hhas _].
  - reflexivity.
  - reflexivity.
  - cbv zeta in Hhas. rewrite Hhas. reflexivity.
Defined.

(** X11.  For an id that no stored user has, [User.updateSubscriptionStatus]
    throws the APIError 'User not found' with code 404, while
    [hasActiveSubscription] answers false and [getSubscriptionInfo] answers
    null without throwing; none of them changes anything. *)
Theorem user_methods_on_unknown_id :
  forall (accepts : StoreWrite -> bool) (id : ObjectId) (w : World),
    stored_user w id = None ->
    (forall status expiryDate,
        User.updateSubscriptionStatus accepts id status expiryDate w
        = (Throw (APIError "User not found" NOT_FOUND), w))
    /\ User.hasActiveSubscription id w = (Ok false, w)
    /\ User.getSubscriptionInfo id w = (Ok None, w).
Proof.
  intros accepts id w Hu.
  unfold User.updateSubscriptionStatus, User.hasActiveSubscription,
    User.getSubscriptionInfo, User.findById.
  cbv [bind get_db ret now throw]. fold (stored_user w id). rewrite Hu.
  repeat split.
Qed.

Lemma user_methods_on_unknown_id_witness :
  stored_user (Scenario.world "active" 0) 8%nat = None
  /\ User.hasActiveSubscription 8%nat (Scenario.world "active" 0)
     = (Ok false, Scenario.world "active" 0).
Proof.
  split; [reflexivity|].
  apply (user_methods_on_unknown_id accept_all 8%nat (Scenario.world "active" 0)).
  reflexivity.
Defined.

(** ** The payment model on its own *)

Lemma find_app_none {D} (p : D -> bool) (l : list D) (x : D) :
  List.find p l = None -> List.find p (l ++ [x]) = if p x then Some x else None.
Proof.
  induction l as [|y l IH]; simpl; [reflexivity|].
  destruct (p y); [discriminate|exact IH].
Qed.

Lemma fresh_is_new (ids : list ObjectId) : ~ In (fresh ids) ids.
Proof.
  intros Hin. unfold fresh in Hin.
  assert (H : Forall (fun k => (k <= list_max ids)%nat) ids)
    by (apply list_max_le; apply Nat.le_refl).
  rewrite Forall_forall in H. specialize (H _ Hin). lia.
Qed.

(** X12.  [createPayment] with no receipt number, for a Razorpay payment id
    that no stored payment has, when the store takes the payment with its
    generated receipt number: the payment is appended with an identifier no
    stored payment had and a receipt number generated from the time of the
    call, the stored payments are left as they were, and
    [findOne({ razorpayPaymentId })] then answers the new payment with the
    data given. *)
Theorem createPayment_then_find :
  forall (accepts : StoreWrite -> bool) (paymentData : P.fields) (w : World),
    P.receipt_number paymentData = None ->
    payment_of_razorpay w (P.razorpayPaymentId paymentData) = None ->
    accepts (SavePayment (Payment.with_receipt paymentData (P.RCP (clock w)))) = true ->
    exists q w',
      Payment.createPayment accepts paymentData w = (Ok (hydrate q), w')
      /\ payments (db w') = payments (db w) ++ [q]
      /\ ~ In (P._id q) (map P._id (payments (db w)))
      /\ P.data q = Payment.with_receipt paymentData (P.RCP (clock w))
      /\ Payment.findOne_razorpayPaymentId (P.razorpayPaymentId paymentData) w'
         = (Ok (Some (hydrate q)), w').
Proof.
  intros accepts p w Hr Hnone Hacc.
  set (p' := Payment.with_receipt p (P.RCP (clock w))) in *.
  set (q := {| P._id := fresh (map P._id (payments (db w))); P.data := p' |}).
  exists q, (payment_created p' w).
  assert (Hcall : Payment.createPayment accepts p w
                  = (Ok (hydrate q), payment_created p' w)).
  { unfold Payment.createPayment. rewrite Hr.
    unfold bind at 1. unfold now. cbv beta iota. fold p'.
    unfold Payment.create. rewrite Hacc.
    unfold bind, get_db, put_db, ret. cbv beta iota.
    apply find_none_existsb in Hnone.
    change (P.razorpayPaymentId p') with (P.razorpayPaymentId p).
    now rewrite Hnone. }
  split; [exact Hcall|]. split; [reflexivity|].
  split; [apply fresh_is_new|]. split; [reflexivity|].
  rewrite payment_find_stored. unfold payment_of_razorpay.
  cbn [payment_created set_db db with_payments payments].
  rewrite find_app_none by exact Hnone.
  cbn [q P.data]. change (P.razorpayPaymentId p') with (P.razorpayPaymentId p).
  now rewrite String.eqb_refl.
Qed.

Lemma createPayment_then_find_witness :
  P.receipt_number (recurring_payment (Scenario.subscription "active")
                      Scenario.charge) = None
  /\ payment_of_razorpay (Scenario.world "active" 0) "pay_X" = None
  /\ schema_accepts
       (SavePayment
          (Payment.with_receipt
             (recurring_payment (Scenario.subscription "active") Scenario.charge)
             (P.RCP 0))) = true
  /\ exists q w',
      Payment.createPayment schema_accepts
        (recurring_payment (Scenario.subscription "active") Scenario.charge)
        (Scenario.world "active" 0) = (Ok (hydrate q), w')
      /\ payments (db w') = [q].
Proof.
  split; [reflexivity|]. split; [reflexivity|]. split; [reflexivity|].
  destruct (createPayment_then_find schema_accepts
              (recurring_payment (Scenario.subscription "active") Scenario.charge)
              (Scenario.world "active" 0))
    as (q & w' & Hcall & Hpays & _).
  - reflexivity.
  - reflexivity.
  - reflexivity.
  - exists q, w'. split; [exact Hcall|exact Hpays].
Defined.

Lemma createPayment_stored_throws (accepts : StoreWrite -> bool) (p : P.fields)
    (w : World) (q : P.doc) :
  payment_of_razorpay w (P.razorpayPaymentId p) = Some q ->
  exists e, Payment.createPayment accepts p w = (Throw e, w).
Proof.
  intros Hq. apply find_existsb in Hq.
  assert (Hcreate : forall p', P.razorpayPaymentId p' = P.razorpayPaymentId p ->
                               exists e, Payment.create accepts p' w = (Throw e, w)).
  { intros p' Hp'. unfold Payment.create.
    destruct (accepts (SavePayment p')); [|eexists; reflexivity].
    unfold bind, get_db, put_db, ret, throw. cbv beta iota.
    rewrite Hp', Hq. eexists; reflexivity. }
  unfold Payment.createPayment. destruct (P.receipt_number p).
  - now apply Hcreate.
  - unfold bind at 1. unfold now. cbv beta iota. now apply Hcreate.
Qed.

Lemma payment_create_new (accepts : StoreWrite -> bool) (p : P.fields) (w : World) :
  accepts (SavePayment p) = true ->
  payment_of_razorpay w (P.razorpayPaymentId p) = None ->
  Payment.create accepts p w
  = (Ok (hydrate {| P._id := fresh (map P._id (payments (db w))); P.data := p |}),
     payment_created p w).
Proof.
  intros Hacc Hnone. unfold Payment.create. rewrite Hacc.
  unfold bind, get_db, put_db, ret. cbv beta iota.
  apply find_none_existsb in Hnone. unfold payment_of_razorpay in Hnone.
  now rewrite Hnone.
Qed.

(** X13.  [createPayment] for a Razorpay payment id that a stored payment
    already has throws and changes nothing: the stored payment is neither
    overwritten nor doubled. *)
Theorem createPayment_duplicate_is_refused :
  forall (accepts : StoreWrite -> bool) (paymentData : P.fields) (w : World)
         (q : P.doc),
    payment_of_razorpay w (P.razorpayPaymentId paymentData) = Some q ->
    exists e, Payment.createPayment accepts paymentData w = (Throw e, w).
Proof.
  intros accepts p w q Hq. exact (createPayment_stored_throws accepts p w q Hq).
Qed.

Lemma createPayment_duplicate_is_refused_witness :
  payment_of_razorpay (payment_created
                         (recurring_payment (Scenario.subscription "active")
                            Scenario.charge)
                         (Scenario.world "active" 0)) "pay_X"
  <> None
  /\ exists e,
      Payment.createPayment accept_all
        (recurring_payment (Scenario.subscription "active") Scenario.charge)
        (payment_created
                         (recurring_payment (Scenario.subscription "active")
                            Scenario.charge)
                         (Scenario.world "active" 0))
      = (Throw e,
         payment_created
                         (recurring_payment (Scenario.subscription "active")
                            Scenario.charge)
                         (Scenario.world "active" 0)).
Proof.
  split; [discriminate|].
  eapply (createPayment_duplicate_is_refused accept_all). reflexivity.
Defined.

Lemma payment_flush_id (d : Payment.Doc) (p : P.doc) :
  P._id (flush P.apply d p) = P._id p.
Proof.
  unfold flush. generalize dependent p.
  induction (pending d) as [|c l IH]; intros p; simpl; [reflexivity|].
  now rewrite IH.
Qed.

Lemma stored_payment_id (w : World) (id : ObjectId) (p : P.doc) :
  stored_payment w id = Some p -> P._id p = id.
Proof.
  intros H. apply find_holds in H. destruct H as [H _].
  cbv beta in H. now apply Nat.eqb_eq in H.
Qed.

Section PaymentModel.

Variable accepts : StoreWrite -> bool.

(** A payment document whose identifier is stored, saved when the store
    takes it: the store applies its pending changes to the stored payment. *)
Lemma payment_save_stored (d : Payment.Doc) (w : World) (p : P.doc) :
  accepts (SavePayment (P.data (paths d))) = true ->
  stored_payment w (P._id (paths d)) = Some p ->
  Payment.save accepts d w = (Ok (saved d), payment_saved d w)
  /\ stored_payment (payment_saved d w) (P._id (paths d))
     = Some (flush P.apply d p).
Proof.
  intros Hacc Hp. split.
  - unfold Payment.save. rewrite Hacc.
    unfold bind, get_db, put_db, ret. cbv beta iota.
    apply find_existsb in Hp. now rewrite Hp.
  - unfold stored_payment, payment_saved. simpl.
    apply (find_update_one P._id); [|exact Hp].
    intros x Hx. now rewrite payment_flush_id.
Qed.

Lemma updatePaymentStatus_found (id : ObjectId) (status : string)
    (additionalData : list P.change) (w : World) (p : P.doc) :
  stored_payment w id = Some p ->
  Payment.updatePaymentStatus accepts id status additionalData w
  = Payment.save accepts (status_changed_payment p status additionalData (clock w)) w.
Proof.
  intros Hp. unfold Payment.updatePaymentStatus, Payment.findById, Payment.find.
  unfold bind at 1. unfold bind at 1. unfold get_db, ret at 1. cbv beta iota.
  fold (stored_payment w id). rewrite Hp. cbn [option_map]. cbv zeta.
  unfold status_changed_payment, status_note.
  destruct (status =? "captured")%string; [reflexivity|].
  destruct (status =? "failed")%string; reflexivity.
Qed.

Lemma status_changed_payment_id (p : P.doc) (status : string)
    (additionalData : list P.change) (t : Date) :
  P._id (paths (status_changed_payment p status additionalData t)) = P._id p.
Proof.
  unfold status_changed_payment. cbn [Payment.assign modify paths].
  set (d0 := if (status =? "captured")%string then _ else _).
  assert (H0 : P._id (paths d0) = P._id p).
  { unfold d0. destruct (status =? "captured")%string; [reflexivity|].
    destruct (status =? "failed")%string; reflexivity. }
  clearbody d0. revert d0 H0.
  induction additionalData as [|c l IH]; intros d0 H0; cbn [fold_left].
  - destruct (paths d0); exact H0.
  - apply IH. destruct c, d0 as [[] ?]; exact H0.
Qed.

End PaymentModel.

(** X14.  [updatePaymentStatus] with no additional data, on a stored payment
    and when the store takes the payment document it saves, stores the
    given status whatever the status was, dates [paidAt] now when the status
    is 'captured' and [failedAt] now when it is 'failed', and appends the
    note 'Payment status changed from <old> to <new>'; the payment method,
    the error and the paths no method assigns stay as they were.  On an
    unknown id it throws the APIError 'Payment not found' with code 404 and
    changes nothing. *)
Theorem updatePaymentStatus_effect :
  forall (accepts : StoreWrite -> bool) (id : ObjectId) (status : string) (w : World),
    let w' := snd (Payment.updatePaymentStatus accepts id status [] w) in
    match stored_payment w id with
    | Some p =>
        accepts (SavePayment
                   (P.data (paths (status_changed_payment p status [] (clock w)))))
        = true ->
        exists p',
          stored_payment w' id = Some p'
          /\ P.status (P.data p') = status
          /\ P.paidAt (P.data p')
             = (if (status =? "captured")%string then Some (clock w)
                else P.paidAt (P.data p))
          /\ P.failedAt (P.data p')
             = (if (status =? "failed")%string then Some (clock w)
                else P.failedAt (P.data p))
          /\ P.notes (P.data p')
             = P.notes (P.data p)
               ++ [status_note (P.status (P.data p)) status (clock w)]
          /\ P.paymentMethod (P.data p') = P.paymentMethod (P.data p)
          /\ P.error (P.data p') = P.error (P.data p)
          /\ payment_frame p' = payment_frame p
    | None =>
        Payment.updatePaymentStatus accepts id status [] w
        = (Throw (APIError "Payment not found" NOT_FOUND), w)
    end.
Proof.
  intros accepts id status w w'.
  destruct (stored_payment w id) as [p|] eqn:Hp.
  - intros Hacc. pose proof (stored_payment_id w id p Hp) as Hid. subst id.
    unfold w'. rewrite (updatePaymentStatus_found accepts _ status [] w p Hp).
    assert (Hp' : stored_payment w
                    (P._id (paths (status_changed_payment p status [] (clock w))))
                  = Some p) by now rewrite status_changed_payment_id.
    destruct (payment_save_stored accepts _ w p Hacc Hp') as [Hcall Hst].
    rewrite Hcall. cbn [snd]. rewrite status_changed_payment_id in Hst.
    eexists. split; [exact Hst|].
    unfold status_changed_payment. cbn [fold_left].
    destruct (status =? "captured")%string eqn:Ec;
      [|destruct (status =? "failed")%string eqn:Ef]; repeat split.
    cbn. apply String.eqb_eq in Ec. subst status. reflexivity.
  - unfold Payment.updatePaymentStatus, Payment.findById, Payment.find.
    cbv [bind get_db ret throw]. fold (stored_payment w id). now rewrite Hp.
Qed.

Lemma updatePaymentStatus_effect_witness :
  schema_accepts
    (SavePayment (P.data (paths (status_changed_payment pending_payment "failed" [] 9))))
  = true
  /\ exists p',
      stored_payment
        (snd (Payment.updatePaymentStatus schema_accepts 1%nat "failed" []
                (checkout_world 9))) 1%nat = Some p'
      /\ P.status (P.data p') = "failed"
      /\ P.failedAt (P.data p') = Some 9
      /\ P.paidAt (P.data p') = None.
Proof.
  split; [reflexivity|].
  destruct (updatePaymentStatus_effect schema_accepts 1%nat "failed" (checkout_world 9)
              eq_refl)
    as (p' & Hst & Hstatus & Hpaid & Hfailed & _).
  exists p'. split; [exact Hst|]. split; [exact Hstatus|].
  split; [exact Hfailed|exact Hpaid].
Defined.

(** ** The handlers of [payment.captured] and [payment.failed] *)

Lemma update_one_length {D} (id_of : D -> ObjectId) (id : ObjectId) (f : D -> D)
    (l : list D) :
  List.length (update_one id_of id f l) = List.length l.
Proof.
  induction l as [|x l IH]; simpl; [reflexivity|].
  destruct (Nat.eqb (id_of x) id); simpl; [reflexivity|now rewrite IH].
Qed.

Section PaymentEvents.

Variable accepts : StoreWrite -> bool.

(** The three awaited calls the two handlers make for a stored payment, when
    the store takes the two payment documents saved and refuses the
    notification. *)
Lemma payment_event_runs (status : string) (additionalData : list P.change)
    (note : string) (n : N.fields) (w : World) (p : P.doc) :
  stored_payment w (P._id p) = Some p ->
  let d1 := status_changed_payment p status additionalData (clock w) in
  let d2 := noted_payment p note (clock w) in
  accepts (SavePayment (P.data (paths d1))) = true ->
  accepts (SavePayment (P.data (paths d2))) = true ->
  accepts (SaveNotification n) = false ->
  let w' := payment_saved d2 (payment_saved d1 w) in
  (Payment.updatePaymentStatus accepts (P._id p) status additionalData ;;;
   Payment.addNote accepts (hydrate p) note None ;;;
   Notification.createNotification accepts n ;;;
   ret tt) w = (Throw (ValidationError (SaveNotification n)), w')
  /\ stored_payment w' (P._id p) = Some (flush P.apply d2 (flush P.apply d1 p)).
Proof.
  intros Hp d1 d2 Hacc1 Hacc2 Hrefused w'.
  assert (Hid : P._id (paths d1) = P._id p) by apply status_changed_payment_id.
  assert (Hp1 : stored_payment w (P._id (paths d1)) = Some p) by now rewrite Hid.
  destruct (payment_save_stored accepts d1 w p Hacc1 Hp1) as [Hcall1 Hst1].
  rewrite Hid in Hst1.
  destruct (payment_save_stored accepts d2 (payment_saved d1 w) _ Hacc2 Hst1)
    as [Hcall2 Hst2].
  split; [|exact Hst2].
  unfold bind at 1.
  rewrite (updatePaymentStatus_found accepts _ status additionalData w p Hp).
  fold d1. rewrite Hcall1.
  unfold bind at 1. unfold Payment.addNote. unfold bind at 1. unfold now.
  cbv beta iota. change (clock (payment_saved d1 w)) with (clock w).
  fold (note_at note (clock w)). fold (noted_payment p note (clock w)). fold d2.
  rewrite Hcall2.
  unfold bind, ret. rewrite createNotification_outcome, Hrefused. reflexivity.
Qed.

End PaymentEvents.

(** X15.  [payment.captured] for a stored payment, when the store takes the
    two payment documents the handler saves and refuses its notification,
    as the validators of the repository do (a payload with no [card]; the
    [relatedEntity.type] 'payment' is not in the enum of the notification
    schema): the payment becomes 'captured', with [paidAt] the time Razorpay
    gives (its [created_at] seconds, not the time of the delivery) and the
    payment method of the payload; two notes are appended, the status change
    and 'Payment captured successfully'; then the notification is refused,
    none is stored, and [handleWebhook] throws the validation error.  The
    amount and the paths no method assigns stay as stored, and no payment is
    created. *)
Theorem handlePaymentCaptured_effect :
  forall (accepts : StoreWrite -> bool) (data : R.data) (w : World)
         (pay : R.PaymentEntity) (p : P.doc),
    distinct_payment_ids w ->
    R.payment data = Some pay ->
    payment_of_razorpay w (R.id pay) = Some p ->
    accepts (SavePayment
               (P.data (paths (status_changed_payment p "captured"
                                 (captured_data pay) (clock w))))) = true ->
    accepts (SavePayment
               (P.data (paths (noted_payment p "Payment captured successfully"
                                 (clock w))))) = true ->
    accepts (SaveNotification (captured_notice pay p)) = false ->
    exists w' p',
      RazorpayWebhookService.handleWebhook accepts "payment.captured" data w
      = (Throw (ValidationError (SaveNotification (captured_notice pay p))), w')
      /\ stored_payment w' (P._id p) = Some p'
      /\ P.status (P.data p') = "captured"
      /\ P.paidAt (P.data p')
         = Some (RazorpayWebhookService.seconds (R.created_at pay))
      /\ P.type (P.paymentMethod (P.data p')) = R.method pay
      /\ P.notes (P.data p')
         = P.notes (P.data p)
           ++ [status_note (P.status (P.data p)) "captured" (clock w);
               note_at "Payment captured successfully" (clock w)]
      /\ payment_frame p' = payment_frame p
      /\ P.failedAt (P.data p') = P.failedAt (P.data p)
      /\ notifications (db w') = notifications (db w)
      /\ List.length (payments (db w')) = List.length (payments (db w))
      /\ subscriptions (db w') = subscriptions (db w)
      /\ users (db w') = users (db w).
Proof.
  intros accepts data w pay p Hnd Hpay Hfind Hacc1 Hacc2 Hrefused.
  assert (Hp : stored_payment (received "payment.captured" w) (P._id p) = Some p).
  { exact (find_by_id_of_find P._id _ _ p Hnd Hfind). }
  set (w0 := received "payment.captured" w) in *.
  destruct (payment_event_runs accepts "captured" (captured_data pay)
              "Payment captured successfully" (captured_notice pay p) w0 p Hp
              Hacc1 Hacc2 Hrefused) as [Hrun Hst].
  cbv zeta in Hrun, Hst.
  eexists. eexists. split.
  - apply handleWebhook_thrown. fold w0.
    to_handler RazorpayWebhookService.handlePaymentCaptured.
    rewrite Hpay. unfold RazorpayWebhookService.prop. unfold bind at 1.
    unfold ret at 1. cbv beta iota.
    unfold bind at 1. rewrite payment_find_stored.
    change (payment_of_razorpay w0 (R.id pay)) with (payment_of_razorpay w (R.id pay)).
    rewrite Hfind. cbn [option_map]. cbv beta iota.
    exact Hrun.
  - split; [exact Hst|]. repeat split.
    + cbn. now rewrite <- app_assoc.
    + cbn [failed add_log payment_saved set_db db with_payments payments].
      now rewrite !update_one_length.
Qed.

Lemma handlePaymentCaptured_effect_witness :
  distinct_payment_ids (checkout_world 9000)
  /\ R.payment Scenario.event_data = Some Scenario.charge
  /\ payment_of_razorpay (checkout_world 9000) "pay_X" = Some pending_payment
  /\ schema_accepts
       (SavePayment
          (P.data (paths (status_changed_payment pending_payment "captured"
                            (captured_data Scenario.charge) 9000)))) = true
  /\ schema_accepts
       (SavePayment
          (P.data (paths (noted_payment pending_payment
                            "Payment captured successfully" 9000)))) = true
  /\ schema_accepts (SaveNotification (captured_notice Scenario.charge pending_payment))
     = false
  /\ exists w' p',
      RazorpayWebhookService.handleWebhook schema_accepts "payment.captured"
        Scenario.event_data (checkout_world 9000)
      = (Throw (ValidationError
                  (SaveNotification (captured_notice Scenario.charge pending_payment))),
         w')
      /\ stored_payment w' 1%nat = Some p'
      /\ P.status (P.data p') = "captured"
      /\ P.paidAt (P.data p') = Some 6000
      /\ notifications (db w') = [].
Proof.
  assert (Hnd : distinct_payment_ids (checkout_world 9000)).
  { repeat constructor. intros []. }
  split; [exact Hnd|]. split; [reflexivity|]. split; [reflexivity|].
  split; [reflexivity|]. split; [reflexivity|]. split; [reflexivity|].
  destruct (handlePaymentCaptured_effect schema_accepts Scenario.event_data
              (checkout_world 9000) Scenario.charge pending_payment
              Hnd eq_refl eq_refl eq_refl eq_refl eq_refl)
    as (w' & p' & Hrun & Hst & Hstatus & Hpaid & _ & _ & _ & _ & Hnotes & _).
  exists w', p'. split; [exact Hrun|]. split; [exact Hst|].
  split; [exact Hstatus|]. split; [exact Hpaid|exact Hnotes].
Defined.

(** X16.  [payment.failed] for a stored payment and a payload whose
    [error_description] is a string, when the store takes the two payment
    documents the handler saves and refuses its notification, as the
    validators of the repository do: the payment becomes 'failed', with
    [failedAt] the time Razorpay gives and the error of the payload; two
    notes are appended, the status change and 'Payment failed: ' followed by
    the error description; then the notification is refused, none is
    stored, and [handleWebhook] throws the validation error.  [paidAt], the
    payment method and the paths no method assigns stay as stored. *)
Theorem handlePaymentFailed_effect :
  forall (accepts : StoreWrite -> bool) (data : R.data) (w : World)
         (pay : R.PaymentEntity) (p : P.doc) (description : string),
    distinct_payment_ids w ->
    R.payment data = Some pay ->
    R.error_description pay = Some description ->
    payment_of_razorpay w (R.id pay) = Some p ->
    accepts (SavePayment
               (P.data (paths (status_changed_payment p "failed" (failed_data pay)
                                 (clock w))))) = true ->
    accepts (SavePayment
               (P.data (paths (noted_payment p ("Payment failed: " ^^ description)
                                 (clock w))))) = true ->
    accepts (SaveNotification (failed_notice pay p)) = false ->
    exists w' p',
      RazorpayWebhookService.handleWebhook accepts "payment.failed" data w
      = (Throw (ValidationError (SaveNotification (failed_notice pay p))), w')
      /\ stored_payment w' (P._id p) = Some p'
      /\ P.status (P.data p') = "failed"
      /\ P.failedAt (P.data p')
         = Some (RazorpayWebhookService.seconds (R.created_at pay))
      /\ P.error (P.data p')
         = Some {| P.error_code := R.error_code pay;
                   P.error_description := Some description;
                   P.error_source := R.error_source pay;
                   P.error_step := R.error_step pay;
                   P.error_reason := R.error_reason pay |}
      /\ P.notes (P.data p')
         = P.notes (P.data p)
           ++ [status_note (P.status (P.data p)) "failed" (clock w);
               note_at ("Payment failed: " ^^ description) (clock w)]
      /\ payment_frame p' = payment_frame p
      /\ P.paidAt (P.data p') = P.paidAt (P.data p)
      /\ P.paymentMethod (P.data p') = P.paymentMethod (P.data p)
      /\ notifications (db w') = notifications (db w)
      /\ List.length (payments (db w')) = List.length (payments (db w))
      /\ subscriptions (db w') = subscriptions (db w)
      /\ users (db w') = users (db w).
Proof.
  intros accepts data w pay p description Hnd Hpay Hdescription Hfind Hacc1 Hacc2
    Hrefused.
  assert (Hp : stored_payment (received "payment.failed" w) (P._id p) = Some p).
  { exact (find_by_id_of_find P._id _ _ p Hnd Hfind). }
  set (w0 := received "payment.failed" w) in *.
  destruct (payment_event_runs accepts "failed" (failed_data pay)
              ("Payment failed: " ^^ description) (failed_notice pay p) w0 p Hp
              Hacc1 Hacc2 Hrefused) as [Hrun Hst].
  cbv zeta in Hrun, Hst.
  eexists. eexists. split.
  - apply handleWebhook_thrown. fold w0.
    to_handler RazorpayWebhookService.handlePaymentFailed.
    rewrite Hpay. unfold RazorpayWebhookService.prop. unfold bind at 1.
    unfold ret at 1. cbv beta iota.
    unfold bind at 1. rewrite payment_find_stored.
    change (payment_of_razorpay w0 (R.id pay)) with (payment_of_razorpay w (R.id pay)).
    rewrite Hfind. cbn [option_map]. cbv beta iota.
    assert (Hi : interpolate (R.error_description pay) = description)
      by now rewrite Hdescription.
    rewrite Hi. exact Hrun.
  - split; [exact Hst|]. repeat split.
    + cbn. now rewrite Hdescription.
    + cbn. now rewrite <- app_assoc.
    + cbn [failed add_log payment_saved set_db db with_payments payments].
      now rewrite !update_one_length.
Qed.

Lemma handlePaymentFailed_effect_witness :
  distinct_payment_ids (checkout_world 9000)
  /\ payment_of_razorpay (checkout_world 9000) "pay_X" = Some pending_payment
  /\ schema_accepts
       (SavePayment
          (P.data (paths (status_changed_payment pending_payment "failed"
                            (failed_data declined_charge) 9000)))) = true
  /\ schema_accepts
       (SavePayment
          (P.data (paths (noted_payment pending_payment
                            "Payment failed: Card declined" 9000)))) = true
  /\ schema_accepts (SaveNotification (failed_notice declined_charge pending_payment))
     = false
  /\ exists w' p',
      RazorpayWebhookService.handleWebhook schema_accepts "payment.failed"
        {| R.payment := Some declined_charge; R.subscription := None |}
        (checkout_world 9000)
      = (Throw (ValidationError
                  (SaveNotification (failed_notice declined_charge pending_payment))),
         w')
      /\ stored_payment w' 1%nat = Some p'
      /\ P.status (P.data p') = "failed"
      /\ P.notes (P.data p')
         = [status_note "pending" "failed" 9000;
            note_at "Payment failed: Card declined" 9000].
Proof.
  assert (Hnd : distinct_payment_ids (checkout_world 9000)).
  { repeat constructor. intros []. }
  split; [exact Hnd|]. split; [reflexivity|].
  split; [reflexivity|]. split; [reflexivity|]. split; [reflexivity|].
  destruct (handlePaymentFailed_effect schema_accepts
              {| R.payment := Some declined_charge; R.subscription := None |}
              (checkout_world 9000) declined_charge pending_payment "Card declined"
              Hnd eq_refl eq_refl eq_refl eq_refl eq_refl eq_refl)
    as (w' & p' & Hrun & Hst & Hstatus & _ & _ & Hnotes' & _).
  exists w', p'. split; [exact Hrun|]. split; [exact Hst|].
  split; [exact Hstatus|exact Hnotes'].
Defined.

(** ** The handlers of the subscription events *)

Lemma user_update_missing (accepts : StoreWrite -> bool) (id : ObjectId)
    (status : string) (expiryDate : option Date) (w : World) :
  stored_user w id = None ->
  User.updateSubscriptionStatus accepts id status expiryDate w
  = (Throw (APIError "User not found" NOT_FOUND), w).
Proof.
  intros Hu. unfold User.updateSubscriptionStatus, User.findById.
  cbv [bind get_db ret throw]. fold (stored_user w id). now rewrite Hu.
Qed.

Section StatusEvents.

Variable accepts : StoreWrite -> bool.

(** The status change every status handler starts with, on the subscription
    it has just loaded, when the store takes the document saved. *)
Lemma status_change_saved (status : string) (w : World) (s : S.doc) :
  stored_subscription w (S._id s) = Some s ->
  let d1 := status_document s status None (clock w) in
  accepts (SaveSubscription (paths d1)) = true ->
  Subscription.updateSubscriptionStatus accepts (S._id s) status None w
  = (Ok (saved d1), subscription_saved d1 w)
  /\ stored_subscription (subscription_saved d1 w) (S._id s) = Some (paths d1).
Proof.
  intros Hs d1 Hacc. split.
  - exact (updateSubscriptionStatus_accepted accepts status None w s Hs Hacc).
  - rewrite <- (status_document_id s status None (clock w)) at 1. fold d1.
    rewrite (stored_after_save d1 w s).
    + unfold d1. now rewrite status_document_flush.
    + unfold d1. now rewrite status_document_id.
Qed.

(** The entry a handler then pushes on the document it loaded before the
    status change, saved over the subscription [s1] the store now holds. *)
Lemma stale_entry_saved (action details : string) (w : World) (s s1 : S.doc) :
  stored_subscription w (S._id s) = Some s1 ->
  let d2 := stale_entry_document s action details (clock w) in
  accepts (SaveSubscription (paths d2)) = true ->
  RazorpayWebhookService.push_history_and_save accepts (hydrate s) action
    (Str details) w
  = (Ok (saved d2), subscription_saved d2 w)
  /\ stored_subscription (subscription_saved d2 w) (S._id s)
     = Some (S.apply (S.PushHistory (handler_entry action details (clock w))) s1).
Proof.
  intros Hs1 d2 Hacc. split.
  - exact (push_history_and_save_accepted accepts (hydrate s) action (Str details)
             w s1 Hs1 Hacc).
  - change (S._id s) with (S._id (paths d2)).
    now rewrite (stored_after_save d2 w s1 Hs1).
Qed.

End StatusEvents.

(** X17.  [subscription.activated] for a stored subscription whose user is
    not stored, when the store takes the subscription document of the status
    change: the subscription is saved 'active' with the entry of the status
    change, then the handler throws the APIError 'User not found' with code
    404; the handler's own 'activated' entry is not written and no
    notification is created. *)
Theorem handleSubscriptionActivated_without_user :
  forall (accepts : StoreWrite -> bool) (data : R.data) (w : World)
         (sub : R.SubscriptionEntity) (s : S.doc),
    distinct_subscription_ids w ->
    R.subscription data = Some sub ->
    subscription_of_razorpay w (R.subscription_id sub) = Some s ->
    stored_user w (S.user s) = None ->
    accepts (SaveSubscription (paths (status_document s "active" None (clock w))))
    = true ->
    exists w' s',
      RazorpayWebhookService.handleWebhook accepts "subscription.activated" data w
      = (Throw (APIError "User not found" NOT_FOUND), w')
      /\ stored_subscription w' (S._id s) = Some s'
      /\ S.status s' = "active"
      /\ S.history s'
         = S.history s ++ [status_entry (S.status s) "active" None (clock w)]
      /\ notifications (db w') = notifications (db w)
      /\ users (db w') = users (db w).
Proof.
  intros accepts data w sub s Hnd Hsub Hfind Hu Hacc.
  set (w0 := received "subscription.activated" w).
  assert (Hs : stored_subscription w0 (S._id s) = Some s).
  { exact (stored_of_razorpay w _ s Hnd Hfind). }
  destruct (status_change_saved accepts "active" w0 s Hs Hacc) as [Hcall Hst].
  cbv zeta in Hcall, Hst.
  eexists. exists (paths (status_document s "active" None (clock w))). split.
  - apply handleWebhook_thrown. fold w0.
    to_handler RazorpayWebhookService.handleSubscriptionActivated.
    rewrite Hsub. unfold bind at 1. unfold RazorpayWebhookService.prop at 1.
    unfold ret at 1. cbv beta iota.
    unfold bind at 1. rewrite findOne_razorpay_stored.
    change (subscription_of_razorpay w0 (R.subscription_id sub))
      with (subscription_of_razorpay w (R.subscription_id sub)).
    rewrite Hfind. cbn [option_map]. cbv beta iota. cbn [paths hydrate].
    unfold bind at 1. rewrite Hcall.
    unfold bind at 1.
    rewrite (user_update_missing accepts (S.user s) _ _
               (subscription_saved (status_document s "active" None (clock w0)) w0)
               Hu).
    reflexivity.
  - split; [exact Hst|]. repeat split.
Qed.

Lemma handleSubscriptionActivated_without_user_witness :
  distinct_subscription_ids (userless_world "trialing" 40)
  /\ R.subscription Scenario.event_data
     = Some {| R.subscription_id := "sub_1"; R.current_end := 9 |}
  /\ subscription_of_razorpay (userless_world "trialing" 40) "sub_1"
     = Some (Scenario.subscription "trialing")
  /\ stored_user (userless_world "trialing" 40) 7%nat = None
  /\ schema_accepts
       (SaveSubscription
          (paths (status_document (Scenario.subscription "trialing") "active" None 40)))
     = true
  /\ exists w' s',
      RazorpayWebhookService.handleWebhook schema_accepts "subscription.activated"
        Scenario.event_data (userless_world "trialing" 40)
      = (Throw (APIError "User not found" NOT_FOUND), w')
      /\ stored_subscription w' 1%nat = Some s'
      /\ S.status s' = "active".
Proof.
  assert (Hnd : distinct_subscription_ids (userless_world "trialing" 40)).
  { repeat constructor. intros []. }
  split; [exact Hnd|]. split; [reflexivity|].
  split; [reflexivity|]. split; [reflexivity|]. split; [reflexivity|].
  destruct (handleSubscriptionActivated_without_user schema_accepts Scenario.event_data
              (userless_world "trialing" 40)
              {| R.subscription_id := "sub_1"; R.current_end := 9 |}
              (Scenario.subscription "trialing") Hnd eq_refl eq_refl eq_refl eq_refl)
    as (w' & s' & Hrun & Hst & Hstatus & _).
  exists w', s'. split; [exact Hrun|]. split; [exact Hst|exact Hstatus].
Defined.

(** X18.  [subscription.cancelled] for a stored subscription and its stored
    user, when the store takes the three documents the handler saves and
    refuses its notification, as the validators of the repository do (the
    [relatedEntity.type] 'subscription' is not in the enum of the
    notification schema): the subscription becomes 'cancelled' and its
    cancellation is dated now; its history gets two entries of action
    'cancelled', the status change and 'Subscription cancelled via
    Razorpay'; the end date and the cancellation details stay as they were.
    The user gets the status 'cancelled' and keeps its expiry date, so that
    [hasActiveSubscription] answers false from then on.  Then the
    notification is refused, none is stored, and [handleWebhook] throws the
    validation error. *)
Theorem handleSubscriptionCancelled_effect :
  forall (accepts : StoreWrite -> bool) (data : R.data) (w : World)
         (sub : R.SubscriptionEntity) (s : S.doc) (u : U.doc),
    distinct_subscription_ids w ->
    R.subscription data = Some sub ->
    subscription_of_razorpay w (R.subscription_id sub) = Some s ->
    stored_user w (S.user s) = Some u ->
    accepts (SaveSubscription (paths (status_document s "cancelled" None (clock w))))
    = true ->
    accepts (SaveUser (user_with u "cancelled" None)) = true ->
    accepts (SaveSubscription
               (paths (stale_entry_document s "cancelled"
                         "Subscription cancelled via Razorpay" (clock w)))) = true ->
    accepts (SaveNotification (cancelled_notice s)) = false ->
    exists w' s' u',
      RazorpayWebhookService.handleWebhook accepts "subscription.cancelled" data w
      = (Throw (ValidationError (SaveNotification (cancelled_notice s))), w')
      /\ stored_subscription w' (S._id s) = Some s'
      /\ S.status s' = "cancelled"
      /\ S.cancelledAt s' = Some (clock w)
      /\ S.history s'
         = S.history s
           ++ [status_entry (S.status s) "cancelled" None (clock w);
               handler_entry "cancelled" "Subscription cancelled via Razorpay"
                 (clock w)]
      /\ S.endDate s' = S.endDate s
      /\ S.cancellation s' = S.cancellation s
      /\ stored_user w' (S.user s) = Some u'
      /\ U.subscriptionStatus u' = "cancelled"
      /\ U.subscriptionExpiry u' = U.subscriptionExpiry u
      /\ User.hasActiveSubscription (S.user s) w' = (Ok false, w')
      /\ notifications (db w') = notifications (db w).
Proof.
  intros accepts data w sub s u Hnd Hsub Hfind Hu Hacc1 Hacc2 Hacc3 Hrefused.
  set (w0 := received "subscription.cancelled" w).
  assert (Hs : stored_subscription w0 (S._id s) = Some s).
  { exact (stored_of_razorpay w _ s Hnd Hfind). }
  destruct (status_change_saved accepts "cancelled" w0 s Hs Hacc1) as [Hcall Hst].
  cbv zeta in Hcall, Hst.
  set (d1 := status_document s "cancelled" None (clock w0)) in *.
  set (w1 := subscription_saved d1 w0) in *.
  set (u' := user_with u "cancelled" None).
  pose proof (user_update_found accepts (S.user s) "cancelled" None w1 u Hu Hacc2)
    as Huser.
  fold u' in Huser. set (w2 := user_saved u' w1) in *.
  destruct (stale_entry_saved accepts "cancelled"
              "Subscription cancelled via Razorpay" w2 s (paths d1) Hst Hacc3)
    as [Hpush Hst2].
  cbv zeta in Hpush, Hst2.
  set (d2 := stale_entry_document s "cancelled" "Subscription cancelled via Razorpay"
               (clock w2)) in *.
  set (w3 := subscription_saved d2 w2) in *.
  assert (Hu3 : stored_user w3 (S.user s) = Some u').
  { pose proof (user_id_of_stored w (S.user s) u Hu) as Hid.
    change (stored_user (user_saved u' w1) (S.user s) = Some u').
    rewrite <- Hid. apply (stored_user_saved u' w1 u).
    cbn [u' user_with U._id]. now rewrite Hid. }
  exists (failed "subscription.cancelled" w3).
  exists (S.apply (S.PushHistory
                     (handler_entry "cancelled"
                        "Subscription cancelled via Razorpay" (clock w)))
            (paths d1)), u'.
  split.
  - apply handleWebhook_thrown. fold w0.
    to_handler RazorpayWebhookService.handleSubscriptionCancelled.
    rewrite Hsub. unfold bind at 1. unfold RazorpayWebhookService.prop at 1.
    unfold ret at 1. cbv beta iota.
    unfold bind at 1. rewrite findOne_razorpay_stored.
    change (subscription_of_razorpay w0 (R.subscription_id sub))
      with (subscription_of_razorpay w (R.subscription_id sub)).
    rewrite Hfind. cbn [option_map]. cbv beta iota. cbn [paths hydrate].
    unfold bind at 1. rewrite Hcall.
    unfold bind at 1. rewrite Huser.
    unfold bind at 1. rewrite Hpush.
    unfold bind, ret. rewrite createNotification_outcome.
    change (accepts (SaveNotification _))
      with (accepts (SaveNotification (cancelled_notice s))).
    rewrite Hrefused. reflexivity.
  - split; [exact Hst2|]. split; [reflexivity|]. split; [reflexivity|].
    split; [cbn; now rewrite <- app_assoc|]. split; [reflexivity|].
    split; [reflexivity|]. split; [exact Hu3|]. split; [reflexivity|].
    split; [reflexivity|]. split; [|reflexivity].
    unfold User.hasActiveSubscription, User.findById.
    cbv [bind get_db ret now].
    change (users (db (failed "subscription.cancelled" w3))) with (users (db w3)).
    fold (stored_user w3 (S.user s)). rewrite Hu3. reflexivity.
Qed.

Lemma handleSubscriptionCancelled_effect_witness :
  distinct_subscription_ids (Scenario.world "active" 40)
  /\ R.subscription Scenario.event_data
     = Some {| R.subscription_id := "sub_1"; R.current_end := 9 |}
  /\ subscription_of_razorpay (Scenario.world "active" 40) "sub_1"
     = Some (Scenario.subscription "active")
  /\ stored_user (Scenario.world "active" 40) 7%nat = Some Scenario.customer
  /\ schema_accepts
       (SaveSubscription
          (paths (status_document (Scenario.subscription "active") "cancelled"
                    None 40))) = true
  /\ schema_accepts (SaveUser (user_with Scenario.customer "cancelled" None)) = true
  /\ schema_accepts
       (SaveSubscription
          (paths (stale_entry_document (Scenario.subscription "active") "cancelled"
                    "Subscription cancelled via Razorpay" 40))) = true
  /\ schema_accepts (SaveNotification (cancelled_notice (Scenario.subscription "active")))
     = false
  /\ exists w',
      RazorpayWebhookService.handleWebhook schema_accepts "subscription.cancelled"
        Scenario.event_data (Scenario.world "active" 40)
      = (Throw (ValidationError
                  (SaveNotification
                     (cancelled_notice (Scenario.subscription "active")))), w')
      /\ User.hasActiveSubscription 7%nat w' = (Ok false, w')
      /\ notifications (db w') = [].
Proof.
  assert (Hnd : distinct_subscription_ids (Scenario.world "active" 40)).
  { repeat constructor. intros []. }
  split; [exact Hnd|]. split; [reflexivity|]. split; [reflexivity|].
  split; [reflexivity|]. split; [reflexivity|]. split; [reflexivity|].
  split; [reflexivity|]. split; [reflexivity|].
  destruct (handleSubscriptionCancelled_effect schema_accepts Scenario.event_data
              (Scenario.world "active" 40)
              {| R.subscription_id := "sub_1"; R.current_end := 9 |}
              (Scenario.subscription "active") Scenario.customer
              Hnd eq_refl eq_refl eq_refl eq_refl eq_refl eq_refl eq_refl)
    as (w' & s' & u' & Hrun & _ & _ & _ & _ & _ & _ & _ & _ & _ & Hactive & Hnotes).
  exists w'. split; [exact Hrun|]. split; [exact Hactive|exact Hnotes].
Defined.

(** X19.  [subscription.paused] for a stored subscription, when the store
    takes the two subscription documents the handler saves and refuses its
    notification, as the validators of the repository do: the subscription
    becomes 'paused' and its history gets two entries, the status change
    under the action 'activated' and the handler's own under 'paused'.  No
    user is written: the owner of a paused subscription keeps the answer
    [hasActiveSubscription] gave before.  Then the notification is refused,
    none is stored, and [handleWebhook] throws the validation error. *)
Theorem handleSubscriptionPaused_effect :
  forall (accepts : StoreWrite -> bool) (data : R.data) (w : World)
         (sub : R.SubscriptionEntity) (s : S.doc),
    distinct_subscription_ids w ->
    R.subscription data = Some sub ->
    subscription_of_razorpay w (R.subscription_id sub) = Some s ->
    accepts (SaveSubscription (paths (status_document s "paused" None (clock w))))
    = true ->
    accepts (SaveSubscription
               (paths (stale_entry_document s "paused" "Subscription paused"
                         (clock w)))) = true ->
    accepts (SaveNotification (paused_notice s)) = false ->
    exists w' s',
      RazorpayWebhookService.handleWebhook accepts "subscription.paused" data w
      = (Throw (ValidationError (SaveNotification (paused_notice s))), w')
      /\ stored_subscription w' (S._id s) = Some s'
      /\ S.status s' = "paused"
      /\ map S.action (S.history s')
         = map S.action (S.history s) ++ ["activated"; "paused"]
      /\ users (db w') = users (db w)
      /\ notifications (db w') = notifications (db w)
      /\ clock w' = clock w
      /\ fst (User.hasActiveSubscription (S.user s) w')
         = fst (User.hasActiveSubscription (S.user s) w).
Proof.
  intros accepts data w sub s Hnd Hsub Hfind Hacc1 Hacc2 Hrefused.
  set (w0 := received "subscription.paused" w).
  assert (Hs : stored_subscription w0 (S._id s) = Some s).
  { exact (stored_of_razorpay w _ s Hnd Hfind). }
  destruct (status_change_saved accepts "paused" w0 s Hs Hacc1) as [Hcall Hst].
  cbv zeta in Hcall, Hst.
  set (d1 := status_document s "paused" None (clock w0)) in *.
  set (w1 := subscription_saved d1 w0) in *.
  destruct (stale_entry_saved accepts "paused" "Subscription paused"
              w1 s (paths d1) Hst Hacc2)
    as [Hpush Hst2].
  cbv zeta in Hpush, Hst2.
  set (d2 := stale_entry_document s "paused" "Subscription paused" (clock w1)) in *.
  set (w2 := subscription_saved d2 w1) in *.
  exists (failed "subscription.paused" w2). eexists. split.
  - apply handleWebhook_thrown. fold w0.
    to_handler RazorpayWebhookService.handleSubscriptionPaused.
    rewrite Hsub. unfold bind at 1. unfold RazorpayWebhookService.prop at 1.
    unfold ret at 1. cbv beta iota.
    unfold bind at 1. rewrite findOne_razorpay_stored.
    change (subscription_of_razorpay w0 (R.subscription_id sub))
      with (subscription_of_razorpay w (R.subscription_id sub)).
    rewrite Hfind. cbn [option_map]. cbv beta iota. cbn [paths hydrate].
    unfold bind at 1. rewrite Hcall.
    unfold bind at 1. rewrite Hpush.
    unfold bind, ret. rewrite createNotification_outcome.
    change (accepts (SaveNotification _))
      with (accepts (SaveNotification (paused_notice s))).
    rewrite Hrefused. reflexivity.
  - split; [exact Hst2|]. split; [reflexivity|].
    split; [cbn; now rewrite !map_app, <- app_assoc|].
    split; [reflexivity|]. split; [reflexivity|]. split; [reflexivity|].
    unfold User.hasActiveSubscription, User.findById.
    cbv [bind get_db ret now].
    change (users (db (failed "subscription.paused" w2))) with (users (db w)).
    destruct (List.find _ (users (db w))); reflexivity.
Qed.

Lemma handleSubscriptionPaused_effect_witness :
  distinct_subscription_ids (Scenario.world "active" 40)
  /\ R.subscription Scenario.event_data
     = Some {| R.subscription_id := "sub_1"; R.current_end := 9 |}
  /\ subscription_of_razorpay (Scenario.world "active" 40) "sub_1"
     = Some (Scenario.subscription "active")
  /\ schema_accepts
       (SaveSubscription
          (paths (status_document (Scenario.subscription "active") "paused" None 40)))
     = true
  /\ schema_accepts
       (SaveSubscription
          (paths (stale_entry_document (Scenario.subscription "active") "paused"
                    "Subscription paused" 40))) = true
  /\ schema_accepts (SaveNotification (paused_notice (Scenario.subscription "active")))
     = false
  /\ exists w' s',
      RazorpayWebhookService.handleWebhook schema_accepts "subscription.paused"
        Scenario.event_data (Scenario.world "active" 40)
      = (Throw (ValidationError
                  (SaveNotification (paused_notice (Scenario.subscription "active")))),
         w')
      /\ stored_subscription w' 1%nat = Some s'
      /\ map S.action (S.history s') = ["created"; "activated"; "paused"]
      /\ fst (User.hasActiveSubscription 7%nat w') = Ok true.
Proof.
  assert (Hnd : distinct_subscription_ids (Scenario.world "active" 40)).
  { repeat constructor. intros []. }
  split; [exact Hnd|]. split; [reflexivity|]. split; [reflexivity|].
  split; [reflexivity|]. split; [reflexivity|]. split; [reflexivity|].
  destruct (handleSubscriptionPaused_effect schema_accepts Scenario.event_data
              (Scenario.world "active" 40)
              {| R.subscription_id := "sub_1"; R.current_end := 9 |}
              (Scenario.subscription "active") Hnd eq_refl eq_refl eq_refl eq_refl
              eq_refl)
    as (w' & s' & Hrun & Hst & _ & Hactions & _ & _ & _ & Hactive).
  exists w', s'. split; [exact Hrun|]. split; [exact Hst|].
  split; [exact Hactions|].
  exact (eq_trans Hactive eq_refl).
Defined.

(** X20.  When the store refuses a subscription of status 'completed', as
    the status enum of the schema does, [subscription.completed] for a
    stored subscription is refused at its first write: [handleWebhook]
    throws the validation error, and the subscription, its user and the
    notifications are left as they were. *)
Theorem handleSubscriptionCompleted_refused :
  forall (accepts : StoreWrite -> bool) (data : R.data) (w : World)
         (sub : R.SubscriptionEntity) (s : S.doc),
    (forall d, S.status d = "completed" -> accepts (SaveSubscription d) = false) ->
    distinct_subscription_ids w ->
    R.subscription data = Some sub ->
    subscription_of_razorpay w (R.subscription_id sub) = Some s ->
    exists d w',
      RazorpayWebhookService.handleWebhook accepts "subscription.completed" data w
      = (Throw (ValidationError (SaveSubscription d)), w')
      /\ S.status d = "completed"
      /\ db w' = db w.
Proof.
  intros accepts data w sub s Hrefuse Hnd Hsub Hfind.
  set (w0 := received "subscription.completed" w).
  assert (Hs : stored_subscription w0 (S._id s) = Some s).
  { exact (stored_of_razorpay w _ s Hnd Hfind). }
  set (d1 := status_document s "completed" None (clock w0)).
  exists (paths d1). eexists. split; [|split; [reflexivity|]].
  - apply handleWebhook_thrown. fold w0.
    to_handler RazorpayWebhookService.handleSubscriptionCompleted.
    rewrite Hsub. unfold bind at 1. unfold RazorpayWebhookService.prop at 1.
    unfold ret at 1. cbv beta iota.
    unfold bind at 1. rewrite findOne_razorpay_stored.
    change (subscription_of_razorpay w0 (R.subscription_id sub))
      with (subscription_of_razorpay w (R.subscription_id sub)).
    rewrite Hfind. cbn [option_map]. cbv beta iota. cbn [paths hydrate].
    unfold bind at 1.
    rewrite (updateSubscriptionStatus_found accepts _ "completed" None w0 s Hs).
    fold d1. rewrite (save_refused accepts d1 w0 (Hrefuse (paths d1) eq_refl)).
    reflexivity.
  - reflexivity.
Qed.

Lemma handleSubscriptionCompleted_refused_witness :
  (forall d, S.status d = "completed" -> schema_accepts (SaveSubscription d) = false)
  /\ distinct_subscription_ids (Scenario.world "active" 40)
  /\ R.subscription Scenario.event_data
     = Some {| R.subscription_id := "sub_1"; R.current_end := 9 |}
  /\ subscription_of_razorpay (Scenario.world "active" 40) "sub_1"
     = Some (Scenario.subscription "active")
  /\ exists d w',
      RazorpayWebhookService.handleWebhook schema_accepts "subscription.completed"
        Scenario.event_data (Scenario.world "active" 40)
      = (Throw (ValidationError (SaveSubscription d)), w')
      /\ db w' = db (Scenario.world "active" 40).
Proof.
  assert (Hrefuse : forall d, S.status d = "completed" ->
                              schema_accepts (SaveSubscription d) = false).
  { intros d Hd. unfold schema_accepts. rewrite Hd. reflexivity. }
  assert (Hnd : distinct_subscription_ids (Scenario.world "active" 40)).
  { repeat constructor. intros []. }
  split; [exact Hrefuse|]. split; [exact Hnd|]. split; [reflexivity|].
  split; [reflexivity|].
  destruct (handleSubscriptionCompleted_refused schema_accepts Scenario.event_data
              (Scenario.world "active" 40)
              {| R.subscription_id := "sub_1"; R.current_end := 9 |}
              (Scenario.subscription "active") Hrefuse Hnd eq_refl eq_refl)
    as (d & w' & Hrun & _ & Hdb).
  exists d, w'. split; [exact Hrun|exact Hdb].
Defined.

(** X21.  When the store takes the status 'past_due' but refuses a history
    entry of action 'halted', as the action enum of the schema does,
    [subscription.halted] for a stored subscription is applied in part: the
    subscription is saved 'past_due' with the entry of the status change,
    then the handler's own entry is refused and [handleWebhook] throws the
    validation error; no 'halted' entry is stored and no notification is
    created. *)
Theorem handleSubscriptionHalted_partial :
  forall (accepts : StoreWrite -> bool) (data : R.data) (w : World)
         (sub : R.SubscriptionEntity) (s : S.doc),
    accepts (SaveSubscription (paths (status_document s "past_due" None (clock w))))
    = true ->
    (forall d, In "halted" (map S.action (S.history d)) ->
               accepts (SaveSubscription d) = false) ->
    distinct_subscription_ids w ->
    R.subscription data = Some sub ->
    subscription_of_razorpay w (R.subscription_id sub) = Some s ->
    exists d w' s',
      RazorpayWebhookService.handleWebhook accepts "subscription.halted" data w
      = (Throw (ValidationError (SaveSubscription d)), w')
      /\ stored_subscription w' (S._id s) = Some s'
      /\ S.status s' = "past_due"
      /\ S.history s'
         = S.history s ++ [status_entry (S.status s) "past_due" None (clock w)]
      /\ notifications (db w') = notifications (db w)
      /\ users (db w') = users (db w).
Proof.
  intros accepts data w sub s Hfirst Hrefuse Hnd Hsub Hfind.
  set (w0 := received "subscription.halted" w).
  assert (Hs : stored_subscription w0 (S._id s) = Some s).
  { exact (stored_of_razorpay w _ s Hnd Hfind). }
  set (d1 := status_document s "past_due" None (clock w0)).
  destruct (save_loaded accepts d1 w0 s Hfirst Hs eq_refl eq_refl) as [Hcall Hst].
  set (w1 := subscription_saved d1 w0) in *.
  set (d2 := Subscription.assign
               (S.PushHistory
                  {| S.action := "halted"; S.date := clock w1;
                     S.details := Str "Subscription halted due to payment failure" |})
               (hydrate s)).
  assert (Hd2 : accepts (SaveSubscription (paths d2)) = false).
  { apply Hrefuse. cbn. rewrite map_app. apply in_or_app. right. now left. }
  exists (paths d2). eexists. exists (paths d1). split.
  - apply handleWebhook_thrown. fold w0.
    to_handler RazorpayWebhookService.handleSubscriptionHalted.
    rewrite Hsub. unfold bind at 1. unfold RazorpayWebhookService.prop at 1.
    unfold ret at 1. cbv beta iota.
    unfold bind at 1. rewrite findOne_razorpay_stored.
    change (subscription_of_razorpay w0 (R.subscription_id sub))
      with (subscription_of_razorpay w (R.subscription_id sub)).
    rewrite Hfind. cbn [option_map]. cbv beta iota. cbn [paths hydrate].
    unfold bind at 1.
    rewrite (updateSubscriptionStatus_found accepts _ "past_due" None w0 s Hs).
    fold d1. rewrite Hcall.
    unfold bind at 1. unfold RazorpayWebhookService.push_history_and_save.
    unfold bind at 1. unfold now. cbv beta iota. fold d2.
    rewrite (save_refused accepts d2 w1 Hd2). reflexivity.
  - split; [exact Hst|]. repeat split.
Qed.

Lemma handleSubscriptionHalted_partial_witness :
  schema_accepts
    (SaveSubscription
       (paths (status_document (Scenario.subscription "active") "past_due" None 40)))
  = true
  /\ (forall d, In "halted" (map S.action (S.history d)) ->
                schema_accepts (SaveSubscription d) = false)
  /\ distinct_subscription_ids (Scenario.world "active" 40)
  /\ R.subscription Scenario.event_data
     = Some {| R.subscription_id := "sub_1"; R.current_end := 9 |}
  /\ subscription_of_razorpay (Scenario.world "active" 40) "sub_1"
     = Some (Scenario.subscription "active")
  /\ exists d w' s',
      RazorpayWebhookService.handleWebhook schema_accepts "subscription.halted"
        Scenario.event_data (Scenario.world "active" 40)
      = (Throw (ValidationError (SaveSubscription d)), w')
      /\ stored_subscription w' 1%nat = Some s'
      /\ S.status s' = "past_due"
      /\ map S.action (S.history s') = ["created"; "activated"].
Proof.
  assert (Hrefuse : forall d, In "halted" (map S.action (S.history d)) ->
                              schema_accepts (SaveSubscription d) = false).
  { intros d Hd. unfold schema_accepts.
    apply andb_false_iff. left. apply andb_false_iff. right.
    induction (S.history d) as [|e l IH]; [contradiction|].
    cbn [forallb]. destruct Hd as [He|Hd].
    - cbn [map] in He. unfold S.action in He.
      change (subscriptionSchema.action e) with (S.action e). unfold S.action.
      rewrite He. reflexivity.
    - apply andb_false_iff. right. exact (IH Hd). }
  assert (Hnd : distinct_subscription_ids (Scenario.world "active" 40)).
  { repeat constructor. intros []. }
  split; [reflexivity|]. split; [exact Hrefuse|]. split; [exact Hnd|].
  split; [reflexivity|]. split; [reflexivity|].
  destruct (handleSubscriptionHalted_partial schema_accepts Scenario.event_data
              (Scenario.world "active" 40)
              {| R.subscription_id := "sub_1"; R.current_end := 9 |}
              (Scenario.subscription "active") eq_refl Hrefuse Hnd eq_refl eq_refl)
    as (d & w' & s' & Hrun & Hst & Hstatus & Hhist & _).
  exists d, w', s'. split; [exact Hrun|]. split; [exact Hst|].
  split; [exact Hstatus|]. rewrite Hhist. reflexivity.
Defined.

(** ** The signature of a payment *)

(** X22.  [verifyPaymentSignature] never throws and never writes the
    database.  It answers true exactly when the key secret is configured and
    the signature is the hexadecimal HMAC-SHA256, under that secret, of the
    order id and the payment id joined by a vertical bar, an id that is
    undefined being written 'undefined'; it gives the same answer for every
    other pair of ids whose joined text is the same. *)
Theorem verifyPaymentSignature_true_iff :
  forall (hmac : string -> string -> string)
         (secret orderId paymentId signature : option string) (w : World),
  exists b w',
    razorpayService.verifyPaymentSignature hmac secret orderId paymentId signature w
    = (Ok b, w')
    /\ db w' = db w
    /\ (b = true <->
        exists key,
          secret = Some key
          /\ signature
             = Some (hmac key (interpolate orderId ^^ "|" ^^ interpolate paymentId)))
    /\ forall orderId' paymentId',
        interpolate orderId' ^^ "|" ^^ interpolate paymentId'
        = interpolate orderId ^^ "|" ^^ interpolate paymentId ->
        razorpayService.verifyPaymentSignature hmac secret orderId' paymentId'
          signature w
        = (Ok b, w').
Proof.
  intros hmac secret orderId paymentId signature w.
  unfold razorpayService.verifyPaymentSignature, try_catch.
  destruct secret as [key|].
  - destruct signature as [sig|]; cbv zeta; cbn [ret].
    + exists (hmac key (interpolate orderId ^^ "|" ^^ interpolate paymentId)
              =? sig)%string, w.
      split; [reflexivity|]. split; [reflexivity|]. split.
      * rewrite String.eqb_eq. split.
        -- intros <-. now exists key.
        -- intros (k & [= <-] & [= ->]). reflexivity.
      * intros o p Heq. unfold ret. now rewrite Heq.
    + exists false, w. split; [reflexivity|]. split; [reflexivity|]. split.
      * split; [discriminate|]. intros (k & _ & H). discriminate.
      * reflexivity.
  - eexists false, _. split; [reflexivity|]. split; [reflexivity|]. split.
    + split; [discriminate|]. intros (k & H & _). discriminate.
    + reflexivity.
Qed.

(** ** The usage route of the controller *)

(** X23.  The route [checkUsageLimit] of the controller, for a user with no
    subscription of status 'active' or 'trialing', throws the APIError 'No
    active subscription found' with code 404.  Otherwise it answers for the
    first such subscription of the user, and allows exactly what
    [canCreateResource] allows on it.  It never changes anything. *)
Theorem controller_checkUsageLimit_outcome :
  forall (userId : ObjectId) (resourceType : string) (w : World),
    distinct_subscription_ids w ->
    match active_subscription_of w userId with
    | None =>
        subscriptionController.checkUsageLimit userId resourceType w
        = (Throw (APIError "No active subscription found" NOT_FOUND), w)
    | Some s =>
        exists c,
          subscriptionController.checkUsageLimit userId resourceType w = (Ok c, w)
          /\ Subscription.allowed c = Subscription.canCreateResource s resourceType
    end.
Proof.
  intros userId rt w Hnd. unfold subscriptionController.checkUsageLimit.
  rewrite (bind_ok _ _ _ _ _ (getUserActiveSubscription_selects userId w)).
  destruct (active_subscription_of w userId) as [s|] eqn:Hactive;
    cbn [option_map]; [|reflexivity].
  cbn [paths hydrate].
  assert (Hs : stored_subscription w (S._id s) = Some s).
  { exact (find_by_id_of_find S._id _ _ s Hnd Hactive). }
  unfold Subscription.canCreateResource.
  destruct (S.resource_of_key rt) as [r|] eqn:Hr.
  - rewrite (checkUsageLimit_found (S._id s) rt w s r Hs Hr). cbv zeta.
    destruct (S.limit (S.counter r (S.usage s)) =? -1);
      [eexists; split; reflexivity|].
    destruct (S.current (S.counter r (S.usage s))
              <? S.limit (S.counter r (S.usage s)));
      eexists; split; reflexivity.
  - unfold Subscription.checkUsageLimit.
    rewrite (bind_ok _ _ _ _ _ (findById_stored (S._id s) w)), Hs. cbn [option_map].
    cbv iota beta.
    change (Subscription.S.resource_of_key rt) with (S.resource_of_key rt).
    rewrite Hr. eexists; split; reflexivity.
Qed.

Lemma controller_checkUsageLimit_outcome_witness :
  distinct_subscription_ids (Scenario.world "cancelled" 0)
  /\ subscriptionController.checkUsageLimit 7%nat "projects"
       (Scenario.world "cancelled" 0)
     = (Throw (APIError "No active subscription found" NOT_FOUND),
        Scenario.world "cancelled" 0).
Proof.
  assert (Hnd : distinct_subscription_ids (Scenario.world "cancelled" 0)).
  { repeat constructor. intros []. }
  split; [exact Hnd|].
  exact (controller_checkUsageLimit_outcome 7%nat "projects"
           (Scenario.world "cancelled" 0) Hnd).
Defined.

(** ** [createSubscription] *)

Lemma create_inserts (accepts : StoreWrite -> bool)
    (data : SubscriptionClass.SubscriptionData) (w : World) :
  subscription_of_razorpay w (SubscriptionClass.razorpaySubscriptionId data) = None ->
  let s := created_subscription (subscriptions (db w)) data (clock w) in
  accepts (SaveSubscription s) = true ->
  (t <- now ;;
   SubscriptionClass.create accepts data
     [{| S.action := "created"; S.date := t;
         S.details := Str "Subscription created" |}]) w
  = (Ok (hydrate s),
     set_db w (with_subscriptions (db w) (subscriptions (db w) ++ [s]))).
Proof.
  intros Hnone s Hacc. unfold bind at 1. unfold now. cbv beta iota.
  unfold SubscriptionClass.create. unfold bind at 1. unfold get_db. cbv beta iota zeta.
  fold (handler_entry "created" "Subscription created" (clock w)).
  fold (created_subscription (subscriptions (db w)) data (clock w)). fold s.
  rewrite Hacc. apply find_none_existsb in Hnone.
  unfold subscription_of_razorpay in Hnone.
  change (existsb
            (fun s0 => (S.razorpaySubscriptionId s0
                        =? SubscriptionClass.razorpaySubscriptionId data)%string)
            (subscriptions (db w)) = false) in Hnone.
  rewrite Hnone. reflexivity.
Qed.

(** X24.  [createSubscription] for a user with no subscription of status
    'active' or 'trialing' and a Razorpay subscription id that is not
    stored, when the store takes the document it inserts: the subscription
    is appended with an identifier no stored subscription had, the status
    given, or 'trialing' when none is, the usage and the features given, and
    a history of one 'created' entry dated now;
    [findOne({ razorpaySubscriptionId })] then answers it. *)
Theorem createSubscription_then_find :
  forall (accepts : StoreWrite -> bool) (data : SubscriptionClass.SubscriptionData)
         (w : World),
    active_subscription_of w (SubscriptionClass.user data) = None ->
    subscription_of_razorpay w (SubscriptionClass.razorpaySubscriptionId data) = None ->
    accepts (SaveSubscription
               (created_subscription (subscriptions (db w)) data (clock w))) = true ->
    exists s w',
      SubscriptionClass.createSubscription accepts data w = (Ok (hydrate s), w')
      /\ subscriptions (db w') = subscriptions (db w) ++ [s]
      /\ ~ In (S._id s) (map S._id (subscriptions (db w)))
      /\ S.user s = SubscriptionClass.user data
      /\ S.status s = match SubscriptionClass.status data with
                      | Some status => status
                      | None => "trialing"
                      end
      /\ S.usage s = SubscriptionClass.usage data
      /\ S.features s = SubscriptionClass.features data
      /\ S.history s = [handler_entry "created" "Subscription created" (clock w)]
      /\ Subscription.findOne_razorpaySubscriptionId
           (SubscriptionClass.razorpaySubscriptionId data) w'
         = (Ok (Some (hydrate s)), w').
Proof.
  intros accepts data w Hactive Hnone Hacc.
  set (s := created_subscription (subscriptions (db w)) data (clock w)) in *.
  exists s, (set_db w (with_subscriptions (db w) (subscriptions (db w) ++ [s]))).
  assert (Hcall : SubscriptionClass.createSubscription accepts data w
                  = (Ok (hydrate s),
                     set_db w (with_subscriptions (db w) (subscriptions (db w) ++ [s])))).
  { unfold SubscriptionClass.createSubscription.
    rewrite (bind_ok _ _ _ _ _ (getUserActiveSubscription_selects _ w)), Hactive.
    cbn [option_map]. exact (create_inserts accepts data w Hnone Hacc). }
  split; [exact Hcall|]. split; [reflexivity|].
  split; [apply fresh_is_new|]. do 5 (split; [reflexivity|]).
  rewrite findOne_razorpay_stored. unfold subscription_of_razorpay.
  cbn [set_db db with_subscriptions subscriptions].
  rewrite find_app_none by exact Hnone.
  cbn [s created_subscription SubscriptionClass.document S.razorpaySubscriptionId].
  now rewrite String.eqb_refl.
Qed.

Lemma createSubscription_then_find_witness :
  active_subscription_of (Scenario.world "active" 50) 8%nat = None
  /\ subscription_of_razorpay (Scenario.world "active" 50) "sub_2" = None
  /\ schema_accepts
       (SaveSubscription
          (created_subscription [Scenario.subscription "active"] first_subscription 50))
     = true
  /\ exists s w',
      SubscriptionClass.createSubscription schema_accepts first_subscription
        (Scenario.world "active" 50) = (Ok (hydrate s), w')
      /\ subscriptions (db w') = [Scenario.subscription "active"; s]
      /\ S.status s = "trialing".
Proof.
  split; [reflexivity|]. split; [reflexivity|]. split; [reflexivity|].
  destruct (createSubscription_then_find schema_accepts first_subscription
              (Scenario.world "active" 50) eq_refl eq_refl eq_refl)
    as (s & w' & Hcall & Hsubs' & _ & _ & Hstatus & _).
  exists s, w'. split; [exact Hcall|]. split; [exact Hsubs'|exact Hstatus].
Defined.

Lemma filter_nil_of_find_none {D} (p : D -> bool) (l : list D) :
  List.find p l = None -> filter p l = [].
Proof.
  induction l as [|x l IH]; simpl; [reflexivity|].
  destruct (p x); [discriminate|exact IH].
Qed.

(** X25.  A call of [createSubscription] that no other call overlaps never
    gives a user a second subscription of status 'active' or 'trialing':
    whatever the data and whatever the store accepts, if no user has two
    before the call, no user has two after it; for a user who has one, it
    throws the APIError 'User already has an active subscription' with code
    400 and changes nothing.  Two calls for the same user that overlap are
    not held to that: when the user has none, each lookup being answered
    before the other insertion, both calls insert (different Razorpay ids
    that are not stored, statuses 'active' or 'trialing', a store that takes
    the two documents), and the user then has two. *)
Theorem createSubscription_keeps_one_active :
  forall (accepts : StoreWrite -> bool) (data : SubscriptionClass.SubscriptionData)
         (w : World),
    one_active_per_user w ->
    one_active_per_user (snd (SubscriptionClass.createSubscription accepts data w))
    /\ (active_subscription_of w (SubscriptionClass.user data) <> None ->
        SubscriptionClass.createSubscription accepts data w
        = (Throw (APIError "User already has an active subscription"
                    SubscriptionClass.BAD_REQUEST), w))
    /\ (forall other : SubscriptionClass.SubscriptionData,
           let sA := created_subscription (subscriptions (db w)) data (clock w) in
           let sB := created_subscription (subscriptions (db w) ++ [sA]) other
                       (clock w) in
           SubscriptionClass.user other = SubscriptionClass.user data ->
           active_subscription_of w (SubscriptionClass.user data) = None ->
           subscription_of_razorpay w (SubscriptionClass.razorpaySubscriptionId data)
           = None ->
           subscription_of_razorpay w (SubscriptionClass.razorpaySubscriptionId other)
           = None ->
           SubscriptionClass.razorpaySubscriptionId other
           <> SubscriptionClass.razorpaySubscriptionId data ->
           includes ["active"; "trialing"] (S.status sA) = true ->
           includes ["active"; "trialing"] (S.status sB) = true ->
           accepts (SaveSubscription sA) = true ->
           accepts (SaveSubscription sB) = true ->
           exists w',
             SubscriptionClass.createOverlapping accepts data other w
             = (Ok (Ok (hydrate sA), Ok (hydrate sB)), w')
             /\ active_subscriptions_of w' (SubscriptionClass.user data) = [sA; sB]).
Proof.
  intros accepts data w Hone. split; [|split].
  - unfold SubscriptionClass.createSubscription.
    rewrite (bind_ok _ _ _ _ _ (getUserActiveSubscription_selects _ w)).
    destruct (active_subscription_of w (SubscriptionClass.user data)) as [s|]
      eqn:Hactive; cbn [option_map]; [exact Hone|].
    unfold bind at 1. unfold now. cbv beta iota.
    unfold SubscriptionClass.create. unfold bind at 1. unfold get_db. cbv beta iota zeta.
    match goal with
    | |- context [accepts (SaveSubscription ?x)] => set (d := x)
    end.
    destruct (accepts (SaveSubscription d)); [|exact Hone].
    destruct (existsb _ (subscriptions (db w))); [exact Hone|].
    unfold bind, put_db, ret. cbn [snd].
    intros userId. unfold active_subscriptions_of.
    cbn [set_db db with_subscriptions subscriptions].
    rewrite filter_app, length_app.
    destruct (Nat.eqb (S.user d) userId) eqn:E.
    + apply Nat.eqb_eq in E. cbn [d SubscriptionClass.document S.user] in E. subst userId.
      unfold active_subscription_of in Hactive.
      rewrite (filter_nil_of_find_none _ _ Hactive). cbn [List.length filter].
      destruct (_ && _); cbn [List.length]; lia.
    + cbn [filter]. rewrite E. cbn [andb List.length].
      specialize (Hone userId). unfold active_subscriptions_of in Hone. lia.
  - intros Hsome. unfold SubscriptionClass.createSubscription.
    rewrite (bind_ok _ _ _ _ _ (getUserActiveSubscription_selects _ w)).
    destruct (active_subscription_of w (SubscriptionClass.user data)) as [s|];
      [reflexivity|now contradiction Hsome].
  - intros other sA sB Huser Hactive HnoneA HnoneB Hne HstatusA HstatusB HaccA HaccB.
    set (wA := set_db w (with_subscriptions (db w) (subscriptions (db w) ++ [sA]))).
    assert (HnoneB' : subscription_of_razorpay wA
                        (SubscriptionClass.razorpaySubscriptionId other) = None).
    { unfold subscription_of_razorpay, wA.
      cbn [set_db db with_subscriptions subscriptions].
      rewrite find_app_none by exact HnoneB.
      cbn [sA created_subscription SubscriptionClass.document S.razorpaySubscriptionId].
      destruct (String.eqb_spec (SubscriptionClass.razorpaySubscriptionId data)
                  (SubscriptionClass.razorpaySubscriptionId other)) as [E|_];
        [|reflexivity].
      exfalso. apply Hne. now symmetry. }
    exists (set_db wA (with_subscriptions (db wA) (subscriptions (db wA) ++ [sB]))).
    split.
    + unfold SubscriptionClass.createOverlapping. cbv zeta.
      apply (overlapped_ok _ _ _ _ w w w wA _ None None).
      * rewrite getUserActiveSubscription_selects. now rewrite Hactive.
      * rewrite getUserActiveSubscription_selects, Huser. now rewrite Hactive.
      * now rewrite (create_inserts accepts data w HnoneA HaccA).
      * now rewrite (create_inserts accepts other wA HnoneB' HaccB).
    + unfold active_subscriptions_of, wA.
      cbn [set_db db with_subscriptions subscriptions].
      rewrite !filter_app. unfold active_subscription_of in Hactive.
      rewrite (filter_nil_of_find_none _ _ Hactive). cbn [filter app].
      change (S.user sA) with (SubscriptionClass.user data).
      change (S.user sB) with (SubscriptionClass.user other).
      rewrite Huser, Nat.eqb_refl, HstatusA, HstatusB. reflexivity.
Qed.

Lemma createSubscription_keeps_one_active_witness :
  one_active_per_user (Scenario.world "active" 50)
  /\ SubscriptionClass.createSubscription schema_accepts
       {| SubscriptionClass.user := 7%nat;
          SubscriptionClass.plan := 3%nat;
          SubscriptionClass.razorpaySubscriptionId := "sub_2";
          SubscriptionClass.razorpayCustomerId := "cust_7";
          SubscriptionClass.status := Some "active";
          SubscriptionClass.billingCycle := "yearly";
          SubscriptionClass.startDate := 2000;
          SubscriptionClass.endDate := None;
          SubscriptionClass.nextBillingDate := None;
          SubscriptionClass.usage := S.usage (Scenario.subscription "active");
          SubscriptionClass.features := Scenario.no_features |}
       (Scenario.world "active" 50)
     = (Throw (APIError "User already has an active subscription"
                 SubscriptionClass.BAD_REQUEST), Scenario.world "active" 50)
  /\ exists w',
      snd (SubscriptionClass.createOverlapping schema_accepts first_subscription
             second_subscription (Scenario.world "active" 50)) = w'
      /\ List.length (active_subscriptions_of w' 8%nat) = 2%nat.
Proof.
  assert (Hone : one_active_per_user (Scenario.world "active" 50)).
  { intros userId. unfold active_subscriptions_of, Scenario.world.
    cbn [db subscriptions filter].
    destruct (_ && _); cbn [List.length]; lia. }
  split; [exact Hone|]. split.
  - apply (createSubscription_keeps_one_active schema_accepts _
             (Scenario.world "active" 50) Hone).
    discriminate.
  - destruct (proj2 (proj2 (createSubscription_keeps_one_active schema_accepts
                              first_subscription (Scenario.world "active" 50) Hone))
                second_subscription eq_refl eq_refl eq_refl eq_refl)
      as (w' & Hcall & Hactive); try reflexivity; try discriminate.
    exists w'. split; [now rewrite Hcall|].
    exact (f_equal (@List.length S.doc) Hactive).
Defined.

(** ** The routes [cancelSubscription] and [verifyPayment] *)

Lemma user_findById_stored (id : ObjectId) (w : World) :
  User.findById id w = (Ok (stored_user w id), w).
Proof. reflexivity. Qed.

(** X26.  The route [cancelSubscription], for a stored subscription whose
    user is stored.  Called by another user, it throws the APIError
    'Unauthorized access to subscription' with code 403 before any call to
    Razorpay, and changes nothing.  Called by the owner, when Razorpay
    refuses the cancellation it throws the APIError 'Failed to cancel
    subscription' with code 500 and leaves the database as it was.  When
    Razorpay performs it, the store takes the cancelled subscription and
    refuses the notification, as the validators of the repository do (the
    [relatedEntity.type] 'subscription' is not in the enum of the
    notification schema): the subscription is cancelled at Razorpay and
    stored 'cancelled' with the reason, the feedback and the owner as
    canceller, then the route throws the validation error instead of
    answering; no notification is stored and no user is written, so the
    subscription status kept on the user stays what it was. *)
Theorem controller_cancelSubscription_outcome :
  forall (accepts : StoreWrite -> bool) (subscriptions_cancel : string -> bool)
         (userId id : ObjectId) (reason feedback : option string) (w : World)
         (s : S.doc) (u : U.doc),
    stored_subscription w id = Some s ->
    stored_user w (S.user s) = Some u ->
    (S.user s <> userId ->
     subscriptionManagement.cancelSubscription accepts subscriptions_cancel
       userId id reason feedback w
     = (Throw (APIError "Unauthorized access to subscription"
                 subscriptionManagement.FORBIDDEN), w))
    /\ (S.user s = userId ->
        subscriptions_cancel (S.razorpaySubscriptionId s) = false ->
        exists w',
          subscriptionManagement.cancelSubscription accepts subscriptions_cancel
            userId id reason feedback w
          = (Throw (APIError "Failed to cancel subscription"
                      razorpayService.INTERNAL_SERVER_ERROR), w')
          /\ db w' = db w)
    /\ (S.user s = userId ->
        subscriptions_cancel (S.razorpaySubscriptionId s) = true ->
        accepts (SaveSubscription
                   (paths (cancelled_document s reason feedback (Some userId)
                             (clock w)))) = true ->
        accepts (SaveNotification (cancellation_notice userId s)) = false ->
        exists w' s',
          subscriptionManagement.cancelSubscription accepts subscriptions_cancel
            userId id reason feedback w
          = (Throw (ValidationError
                      (SaveNotification (cancellation_notice userId s))), w')
          /\ stored_subscription w' id = Some s'
          /\ S.status s' = "cancelled"
          /\ S.cancelledAt s' = Some (clock w)
          /\ S.cancellation s'
             = Some {| S.reason := reason; S.feedback := feedback;
                       S.cancelledBy := Some userId |}
          /\ notifications (db w') = notifications (db w)
          /\ users (db w') = users (db w)).
Proof.
  intros accepts cancels userId id reason feedback w s u Hs Hu.
  pose proof (user_id_of_stored w _ u Hu) as Huid.
  pose proof (stored_id w id s Hs) as Hid. subst id.
  assert (Hstart : forall k,
             subscriptionManagement.cancelSubscription accepts cancels userId (S._id s)
               reason feedback w
             = k ->
             (if negb (Nat.eqb (S.user s) userId)
              then (Throw (APIError "Unauthorized access to subscription"
                             subscriptionManagement.FORBIDDEN), w)
              else
                (razorpayService.cancelSubscription cancels (S.razorpaySubscriptionId s) ;;;
                 Subscription.cancelSubscription accepts (S._id s) reason feedback
                   (Some userId) ;;;
                 Notification.createNotification accepts (cancellation_notice userId s) ;;;
                 ret "Subscription cancelled successfully") w)
             = k).
  { intros k <-. unfold subscriptionManagement.cancelSubscription.
    rewrite (bind_ok _ _ _ _ _ (findById_stored (S._id s) w)), Hs. cbn [option_map].
    cbv beta iota. cbn [paths hydrate].
    rewrite (bind_ok _ _ _ _ _ (user_findById_stored (S.user s) w)), Hu, Huid.
    destruct (Nat.eqb (S.user s) userId); reflexivity. }
  split; [|split].
  - intros Hne. apply Nat.eqb_neq in Hne.
    rewrite <- (Hstart _ eq_refl), Hne. reflexivity.
  - intros Howner Hdown. apply Nat.eqb_eq in Howner.
    rewrite <- (Hstart _ eq_refl), Howner. cbn [negb].
    unfold razorpayService.cancelSubscription. rewrite Hdown.
    eexists. split; reflexivity.
  - intros Howner Hup Hacc Hrefused. apply Nat.eqb_eq in Howner.
    rewrite <- (Hstart _ eq_refl), Howner. cbn [negb].
    unfold razorpayService.cancelSubscription. rewrite Hup.
    unfold bind at 1. unfold logger. cbv beta iota.
    set (w0 := add_log w info _).
    set (d := cancelled_document s reason feedback (Some userId) (clock w0)).
    assert (Hs0 : stored_subscription w0 (S._id s) = Some s) by exact Hs.
    destruct (save_loaded accepts d w0 s Hacc Hs0 eq_refl eq_refl)
      as [Hcall Hst].
    unfold bind at 1.
    rewrite (cancelSubscription_found accepts (S._id s) reason feedback (Some userId)
               w0 s Hs0).
    fold d. rewrite Hcall.
    unfold bind, ret. rewrite createNotification_outcome.
    change (accepts (SaveNotification _))
      with (accepts (SaveNotification (cancellation_notice userId s))).
    rewrite Hrefused.
    eexists. exists (paths d). split; [reflexivity|].
    split; [exact Hst|]. repeat split.
Qed.

Lemma controller_cancelSubscription_outcome_witness :
  stored_subscription (Scenario.world "active" 40) 1%nat
  = Some (Scenario.subscription "active")
  /\ stored_user (Scenario.world "active" 40) 7%nat = Some Scenario.customer
  /\ subscriptionManagement.cancelSubscription schema_accepts gateway_up 8%nat 1%nat
       None None (Scenario.world "active" 40)
     = (Throw (APIError "Unauthorized access to subscription"
                 subscriptionManagement.FORBIDDEN), Scenario.world "active" 40)
  /\ (exists w',
         subscriptionManagement.cancelSubscription schema_accepts gateway_down 7%nat
           1%nat None None (Scenario.world "active" 40)
         = (Throw (APIError "Failed to cancel subscription"
                     razorpayService.INTERNAL_SERVER_ERROR), w')
         /\ db w' = db (Scenario.world "active" 40))
  /\ schema_accepts
       (SaveSubscription
          (paths (cancelled_document (Scenario.subscription "active")
                    (Some "too expensive") None (Some 7%nat) 40))) = true
  /\ schema_accepts
       (SaveNotification (cancellation_notice 7%nat (Scenario.subscription "active")))
     = false
  /\ exists w' s',
      subscriptionManagement.cancelSubscription schema_accepts gateway_up 7%nat 1%nat
        (Some "too expensive") None (Scenario.world "active" 40)
      = (Throw (ValidationError
                  (SaveNotification
                     (cancellation_notice 7%nat (Scenario.subscription "active")))),
         w')
      /\ stored_subscription w' 1%nat = Some s'
      /\ S.status s' = "cancelled"
      /\ notifications (db w') = []
      /\ fst (User.hasActiveSubscription 7%nat w') = Ok true.
Proof.
  split; [reflexivity|]. split; [reflexivity|].
  split; [|split; [|split; [reflexivity|split; [reflexivity|]]]].
  - apply (proj1 (controller_cancelSubscription_outcome schema_accepts gateway_up
                    8%nat 1%nat None None (Scenario.world "active" 40)
                    (Scenario.subscription "active") Scenario.customer
                    eq_refl eq_refl)).
    discriminate.
  - apply (proj1 (proj2 (controller_cancelSubscription_outcome schema_accepts
                           gateway_down 7%nat 1%nat None None
                           (Scenario.world "active" 40)
                           (Scenario.subscription "active") Scenario.customer
                           eq_refl eq_refl))); reflexivity.
  - destruct (proj2 (proj2 (controller_cancelSubscription_outcome schema_accepts
                              gateway_up 7%nat 1%nat (Some "too expensive") None
                              (Scenario.world "active" 40)
                              (Scenario.subscription "active") Scenario.customer
                              eq_refl eq_refl)) eq_refl eq_refl eq_refl eq_refl)
      as (w' & s' & Hrun & Hst & Hstatus & _ & _ & Hnotes & Husers).
    exists w', s'. split; [exact Hrun|]. split; [exact Hst|].
    split; [exact Hstatus|]. split; [exact Hnotes|].
    unfold User.hasActiveSubscription, User.findById.
    cbv [bind get_db ret now fst]. rewrite Husers. reflexivity.
Defined.

(** X27.  The route [verifyPayment].  With a signature that is not the HMAC
    of 'orderId|paymentId' under the configured key secret, it throws the
    APIError 'Invalid payment signature' with code 400 and leaves the
    database as it was.  With a valid signature, a payment id that is
    already stored makes it throw and store nothing: a verified payment is
    not recorded twice.  With a valid signature and a payment id not yet
    stored, when Razorpay answers the payment and the store takes the
    payment the route builds from it (with the validators of the repository,
    an answer without [card]), one payment is appended for the caller, of
    the amount of Razorpay
    in hundredths, of status 'captured' when Razorpay says 'captured' and
    'failed' for every other status, paid at the time of Razorpay in the
    first case and not paid in the second. *)
Theorem controller_verifyPayment_outcome :
  forall (accepts : StoreWrite -> bool) (hmac : string -> string -> string)
         (secret : option string)
         (payments_fetch : string -> option razorpayService.RemotePayment)
         (userId : ObjectId) (orderId paymentId : string) (signature : option string)
         (w : World),
    let valid := exists key,
                   secret = Some key
                   /\ signature = Some (hmac key (orderId ^^ "|" ^^ paymentId)) in
    let call := subscriptionManagement.verifyPayment accepts hmac secret payments_fetch
                  userId orderId paymentId signature w in
    (~ valid ->
     exists w',
       call = (Throw (APIError "Invalid payment signature"
                        SubscriptionClass.BAD_REQUEST), w')
       /\ db w' = db w)
    /\ (valid ->
        forall q, payment_of_razorpay w paymentId = Some q ->
                  exists e w', call = (Throw e, w') /\ db w' = db w)
    /\ (valid ->
        forall remote,
          payments_fetch paymentId = Some remote ->
          accepts (SavePayment
                     (verified_payment userId orderId paymentId remote (clock w)))
          = true ->
          payment_of_razorpay w paymentId = None ->
          exists p w',
            call = (Ok (hydrate p), w')
            /\ payments (db w') = payments (db w) ++ [p]
            /\ P.user (P.data p) = userId
            /\ P.razorpayPaymentId (P.data p) = paymentId
            /\ P.amount (P.data p) = Qmake (razorpayService.amount remote) 100
            /\ P.status (P.data p)
               = (if (razorpayService.status remote =? "captured")%string
                  then "captured" else "failed")
            /\ P.paidAt (P.data p)
               = (if (razorpayService.status remote =? "captured")%string
                  then Some (razorpayService.created_at remote * 1000) else None)).
Proof.
  intros accepts hmac secret fetch userId orderId paymentId signature w valid call.
  assert (Hinvalid :
            razorpayService.verifyPaymentSignature hmac secret (Some orderId)
              (Some paymentId) signature w = (Ok true, w) /\ valid
            \/ (exists w', razorpayService.verifyPaymentSignature hmac secret
                             (Some orderId) (Some paymentId) signature w
                           = (Ok false, w')
                           /\ db w' = db w) /\ ~ valid).
  { unfold razorpayService.verifyPaymentSignature, try_catch, valid.
    cbn [interpolate]. destruct secret as [key|].
    - destruct signature as [sig|]; cbv zeta; cbn [ret].
      + destruct (String.eqb_spec (hmac key (orderId ^^ "|" ^^ paymentId)) sig)
          as [E|E].
        * left. split; [reflexivity|]. exists key. now rewrite E.
        * right. split; [now exists w|]. intros (k & [= <-] & [= H]).
          now apply E.
      + right. split; [now exists w|]. intros (k & _ & H). discriminate.
    - right. split; [eexists; split; reflexivity|]. intros (k & H & _). discriminate. }
  destruct Hinvalid as [[Hsig Hvalid]|[(w1 & Hsig & Hdb) Hnot]].
  - split; [intros Hn; now contradiction Hn|].
    assert (Hcall : call
                    = (razorpayPayment <- razorpayService.getPayment fetch paymentId ;;
                       t <- now ;;
                       Payment.createPayment accepts
                         {| P.user := userId;
                            P.subscription := None;
                            P.razorpayPaymentId := paymentId;
                            P.razorpayOrderId := Some orderId;
                            P.amount := Qmake (razorpayService.amount razorpayPayment) 100;
                            P.currency := razorpayService.currency razorpayPayment;
                            P.status :=
                              if (razorpayService.status razorpayPayment
                                  =? "captured")%string
                              then "captured" else "failed";
                            P.paymentMethod :=
                              {| P.type := razorpayService.method razorpayPayment;
                                 P.card :=
                                   option_map
                                     (fun c => {| P.last4 := R.last4 c;
                                                  P.network := R.network c;
                                                  P.card_type := R.type c |})
                                     (razorpayService.card razorpayPayment) |};
                            P.paidAt :=
                              if (razorpayService.status razorpayPayment
                                  =? "captured")%string
                              then Some (razorpayService.created_at razorpayPayment
                                         * 1000)
                              else None;
                            P.failedAt := None;
                            P.description := "Payment for subscription plan";
                            P.error := None;
                            P.notes := [];
                            P.receipt_number := Some (P.RCP t) |}) w).
    { unfold call, subscriptionManagement.verifyPayment.
      now rewrite (bind_ok _ _ _ _ _ Hsig). }
    split.
    + intros _ q Hq. rewrite Hcall. unfold razorpayService.getPayment.
      destruct (fetch paymentId) as [remote|].
      * unfold bind at 1. unfold ret at 1. cbv beta iota.
        unfold bind at 1. unfold now. cbv beta iota.
        match goal with
        | |- context [Payment.createPayment accepts ?p w] =>
            destruct (createPayment_stored_throws accepts p w q Hq) as [e He];
            rewrite He
        end.
        now exists e, w.
      * eexists. eexists. split; reflexivity.
    + intros _ remote Hfetch Hacc Hnone. rewrite Hcall.
      unfold razorpayService.getPayment. rewrite Hfetch.
      unfold bind at 1. unfold ret at 1. cbv beta iota.
      unfold bind at 1. unfold now. cbv beta iota.
      unfold Payment.createPayment. cbn [P.receipt_number].
      fold (verified_payment userId orderId paymentId remote (clock w)).
      rewrite payment_create_new by (try exact Hacc; exact Hnone).
      eexists. eexists. split; [reflexivity|]. repeat split.
  - split.
    + intros _. exists w1. split; [|exact Hdb].
      unfold call, subscriptionManagement.verifyPayment.
      now rewrite (bind_ok _ _ _ _ _ Hsig).
    + split; intros Hv; now contradiction Hnot.
Qed.

Lemma controller_verifyPayment_outcome_witness :
  (exists key,
      Some "secret" = Some key
      /\ Some "secret:order_1|pay_X" = Some (toy_hmac key ("order_1" ^^ "|" ^^ "pay_X")))
  /\ gateway_payment "authorized" "pay_X" <> None
  /\ payment_of_razorpay (Scenario.world "active" 50) "pay_X" = None
  /\ exists p w',
      subscriptionManagement.verifyPayment schema_accepts toy_hmac (Some "secret")
        (gateway_payment "authorized") 7%nat "order_1" "pay_X"
        (Some "secret:order_1|pay_X") (Scenario.world "active" 50)
      = (Ok (hydrate p), w')
      /\ P.status (P.data p) = "failed"
      /\ P.paidAt (P.data p) = None.
Proof.
  assert (Hvalid : exists key,
             Some "secret" = Some key
             /\ Some "secret:order_1|pay_X"
                = Some (toy_hmac key ("order_1" ^^ "|" ^^ "pay_X"))).
  { exists "secret". split; reflexivity. }
  split; [exact Hvalid|]. split; [discriminate|].
  split; [reflexivity|].
  destruct (proj2 (proj2 (controller_verifyPayment_outcome schema_accepts toy_hmac
                            (Some "secret") (gateway_payment "authorized") 7%nat
                            "order_1" "pay_X" (Some "secret:order_1|pay_X")
                            (Scenario.world "active" 50)))
              Hvalid _ eq_refl eq_refl eq_refl)
    as (p & w' & Hcall & _ & _ & _ & _ & Hstatus & Hpaid).
  exists p, w'. split; [exact Hcall|]. split; [exact Hstatus|exact Hpaid].
Defined.

(** ** A renewal without its payment *)

(** X28.  [subscription.charged] whose payload names a stored subscription
    but carries no payment entity throws a TypeError while it builds the
    history entry, before any write: the renewal is not recorded, and the
    subscription, the users, the payments and the notifications are left as
    they were. *)
Theorem handleSubscriptionCharged_without_payment :
  forall (accepts : StoreWrite -> bool) (data : R.data) (w : World)
         (sub : R.SubscriptionEntity) (s : S.doc),
    R.subscription data = Some sub ->
    R.payment data = None ->
    subscription_of_razorpay w (R.subscription_id sub) = Some s ->
    exists message w',
      RazorpayWebhookService.handleWebhook accepts "subscription.charged" data w
      = (Throw (TypeError message), w')
      /\ db w' = db w.
Proof.
  intros accepts data w sub s Hsub Hpay Hfind.
  set (w0 := received "subscription.charged" w).
  eexists. eexists. split.
  - apply handleWebhook_thrown. fold w0.
    to_handler RazorpayWebhookService.handleSubscriptionCharged.
    rewrite Hsub, Hpay. unfold bind at 1. unfold RazorpayWebhookService.prop at 1.
    unfold ret at 1. cbv beta iota.
    unfold bind at 1. rewrite findOne_razorpay_stored.
    change (subscription_of_razorpay w0 (R.subscription_id sub))
      with (subscription_of_razorpay w (R.subscription_id sub)).
    rewrite Hfind. cbn [option_map]. cbv beta iota zeta.
    unfold bind at 1. unfold RazorpayWebhookService.prop at 1. unfold throw at 1.
    reflexivity.
  - reflexivity.
Qed.

Lemma handleSubscriptionCharged_without_payment_witness :
  R.subscription {| R.payment := None;
                    R.subscription := R.subscription Scenario.event_data |}
  = Some {| R.subscription_id := "sub_1"; R.current_end := 9 |}
  /\ subscription_of_razorpay (Scenario.world "active" 40) "sub_1"
     = Some (Scenario.subscription "active")
  /\ exists message w',
      RazorpayWebhookService.handleWebhook accept_all "subscription.charged"
        {| R.payment := None; R.subscription := R.subscription Scenario.event_data |}
        (Scenario.world "active" 40)
      = (Throw (TypeError message), w')
      /\ db w' = db (Scenario.world "active" 40).
Proof.
  split; [reflexivity|]. split; [reflexivity|].
  exact (handleSubscriptionCharged_without_payment accept_all
           {| R.payment := None; R.subscription := R.subscription Scenario.event_data |}
           (Scenario.world "active" 40)
           {| R.subscription_id := "sub_1"; R.current_end := 9 |}
           (Scenario.subscription "active") eq_refl eq_refl eq_refl).
Defined.
